(** * XMLQuiz: the quiz-to-XML template filler and its packaging endpoint

    A shallow embedding of [app.py] (the [markRight] helper and the
    [generate_xmls] view) together with the properties its specification
    states about placeholder substitution, request validation and packaging.

    Python values are modelled as follows.
    - A [str] is the list of its Unicode code points ([N]).
    - A value produced by [json.load] is a [json] tree; integers are
      unbounded ([Z]), a float is identified by its [repr] text, a [dict] is
      the association list of its items in insertion order.
    - Exceptions are values of [exn]; code that may raise lives in the
      [result] monad.
    - The zip archive is the sequence of its entries: the stored name, the
      DOS date and time words of the header and the text of each file.
    - The two library calls of the packaging step, [ZipFile.writestr]
      (CPython 3.11 on a host whose path separator is [/]) and Werkzeug's
      [send_file], are modelled with the exceptions they raise.  *)

From Stdlib Require Import List ZArith NArith Lia Bool String Ascii.
From Stdlib Require Import Numbers.DecimalString.
From Stdlib Require Numbers.DecimalZ Numbers.DecimalPos.
From Stdlib Require Import Sorting.Permutation.
Import ListNotations.

Local Open Scope Z_scope.

(** ** Python strings *)

Module PyStr.

Definition char := N.
Definition str := list char.

(** A string literal of the source, as the list of its code points. *)
Definition lit (s : string) : str := map N_of_ascii (list_ascii_of_string s).

Definition char_eqb (a b : char) : bool := N.eqb a b.

Fixpoint str_eqb (a b : str) : bool :=
  match a, b with
  | [], [] => true
  | x :: a', y :: b' => char_eqb x y && str_eqb a' b'
  | _, _ => false
  end.

(** [s.startswith(p)] *)
Fixpoint startswith (p s : str) : bool :=
  match p, s with
  | [], _ => true
  | _ :: _, [] => false
  | x :: p', y :: s' => char_eqb x y && startswith p' s'
  end.

(** The left-to-right scan of [s.replace(old, new)] for a non-empty [old]:
    [skip] counts the characters of a match that are still to be consumed. *)
Fixpoint replace_scan (old new s : str) (skip : nat) : str :=
  match s with
  | [] => []
  | c :: s' =>
      match skip with
      | S k => replace_scan old new s' k
      | O =>
          if startswith old s
          then new ++ replace_scan old new s' (Nat.pred (List.length old))
          else c :: replace_scan old new s' 0
      end
  end.

(** [s.replace(old, new)]: every non-overlapping occurrence of [old], found
    from the left, is replaced by [new]; an empty [old] matches before every
    character and at the end. *)
Definition replace (old new s : str) : str :=
  match old with
  | [] => new ++ flat_map (fun c => c :: new) s
  | _ :: _ => replace_scan old new s 0
  end.

(** [sep.join(pieces)] *)
Fixpoint join (sep : str) (pieces : list str) : str :=
  match pieces with
  | [] => []
  | [p] => p
  | p :: ps => p ++ sep ++ join sep ps
  end.

Definition cons_head (c : char) (ps : list str) : list str :=
  match ps with
  | [] => [[c]]
  | p :: ps' => (c :: p) :: ps'
  end.

(** [s.split(sep)] for a non-empty [sep], by the same scan as [replace]. *)
Fixpoint split_scan (sep s : str) (skip : nat) : list str :=
  match s with
  | [] => [[]]
  | c :: s' =>
      match skip with
      | S k => split_scan sep s' k
      | O =>
          if startswith sep s
          then [] :: split_scan sep s' (Nat.pred (List.length sep))
          else cons_head c (split_scan sep s' 0)
      end
  end.

Definition split (sep s : str) : list str := split_scan sep s 0.

(** [p in s]: [p] occurs in [s] as a contiguous substring. *)
Definition occurs (p s : str) : Prop := exists a b, s = a ++ p ++ b.

Fixpoint contains (p s : str) : bool :=
  startswith p s ||
  match s with
  | [] => false
  | _ :: s' => contains p s'
  end.

(** The code points that [str.isspace] and [str.strip] treat as whitespace. *)
Definition isspace (c : char) : bool :=
  ((9 <=? c) && (c <=? 13) || (28 <=? c) && (c <=? 32) ||
   (c =? 133) || (c =? 160) || (c =? 5760) ||
   (8192 <=? c) && (c <=? 8202) || (c =? 8232) || (c =? 8233) ||
   (c =? 8239) || (c =? 8287) || (c =? 12288))%N.

Fixpoint lstrip (s : str) : str :=
  match s with
  | [] => []
  | c :: s' => if isspace c then lstrip s' else s
  end.

Definition rstrip (s : str) : str := rev (lstrip (rev s)).

(** [s.strip()] *)
Definition strip (s : str) : str := rstrip (lstrip s).

(** [str(n)] for an [int], and the [{n}] field of an f-string. *)
Definition str_of_Z (n : Z) : str :=
  lit (NilZero.string_of_int (Z.to_int n)).

(** [chr(n)] raises [ValueError] outside [range(0x110000)]. *)
Definition chr (n : Z) : option char :=
  if (0 <=? n) && (n <? 1114112) then Some (Z.to_N n) else None.

(** [s.encode("utf-8")] raises [UnicodeEncodeError] exactly when [s] holds
    a surrogate code point (U+D800 .. U+DFFF). *)
Definition is_surrogate (c : char) : bool := ((55296 <=? c) && (c <=? 57343))%N.

Definition encodable (s : str) : bool :=
  forallb (fun c => negb (is_surrogate c)) s.

(** [len(s.encode("utf-8"))] for an encodable [s]. *)
Definition utf8_width (c : char) : Z :=
  if (c <? 128)%N then 1
  else if (c <? 2048)%N then 2
  else if (c <? 65536)%N then 3
  else 4.

Definition utf8_length (s : str) : Z :=
  fold_right (fun c n => utf8_width c + n) 0 s.

(** [s[0:s.find(chr(0))]] when [s] has a NUL character, [s] otherwise. *)
Fixpoint before_nul (s : str) : str :=
  match s with
  | [] => []
  | c :: s' => if (c =? 0)%N then [] else c :: before_nul s'
  end.

Definition is_newline (c : char) : bool := ((c =? 10) || (c =? 13))%N.

End PyStr.
Import PyStr.

(** ** Python values, exceptions and the operations the view applies to them *)

#[local] Set Warnings "-register-all".

Inductive json : Type :=
| JNull
| JBool (b : bool)
| JInt (n : Z)
| JFloat (repr : str)
| JStr (s : str)
| JList (items : list json)
| JDict (items : list (str * json)).

Inductive exn : Type :=
| KeyError (key : str)
| TypeError
| AttributeError
| ValueError
| IndexError
| UnicodeEncodeError
| StructError
| FileNotFoundError (msg : str)
| OSError (msg : str).

Definition result (A : Type) : Type := (exn + A)%type.

Definition ok {A : Type} (a : A) : result A := inr a.
Definition raise {A : Type} (e : exn) : result A := inl e.

Definition bind {A B : Type} (m : result A) (k : A -> result B) : result B :=
  match m with
  | inl e => inl e
  | inr a => k a
  end.

Notation "x <- m ;; k" := (bind m (fun x => k))
  (at level 61, m at next level, right associativity).

(** A [for] loop whose body may raise: the first exception ends the loop. *)
Fixpoint foldM {A B : Type} (body : B -> A -> result B) (l : list A) (b : B)
  : result B :=
  match l with
  | [] => ok b
  | a :: l' => b' <- body b a ;; foldM body l' b'
  end.

(** [enumerate(l, start)] *)
Fixpoint enumerate {A : Type} (l : list A) (start : Z) : list (Z * A) :=
  match l with
  | [] => []
  | a :: l' => (start, a) :: enumerate l' (start + 1)
  end.

(** [range(lo, hi)] *)
Definition range (lo hi : Z) : list Z :=
  map (fun k => lo + Z.of_nat k) (seq 0 (Z.to_nat (hi - lo))).

(** First value stored under a key, for a [dict] and for a form [MultiDict]. *)
Fixpoint assoc {V : Type} (k : str) (items : list (str * V)) : option V :=
  match items with
  | [] => None
  | (k', v) :: items' => if str_eqb k k' then Some v else assoc k items'
  end.

(** [v[key]] with a string key. *)
Definition py_getitem (v : json) (key : str) : result json :=
  match v with
  | JDict items =>
      match assoc key items with
      | Some x => ok x
      | None => raise (KeyError key)
      end
  | _ => raise TypeError
  end.

(** [v.get(key, default)]: only a [dict] has the method. *)
Definition py_get (v : json) (key : str) (default : json) : result json :=
  match v with
  | JDict items =>
      match assoc key items with
      | Some x => ok x
      | None => ok default
      end
  | _ => raise AttributeError
  end.

(** The items a [for] loop visits: the elements of a list, the keys of a
    dict, the one-character strings of a string. *)
Definition py_iter (v : json) : result (list json) :=
  match v with
  | JList items => ok items
  | JDict items => ok (map (fun kv => JStr (fst kv)) items)
  | JStr s => ok (map (fun c => JStr [c]) s)
  | _ => raise TypeError
  end.

(** The second argument of [str.replace] must be a [str]. *)
Definition as_str (v : json) : result str :=
  match v with
  | JStr s => ok s
  | _ => raise TypeError
  end.

(** [n == v] for an [int] n of small magnitude (below 10**16, where the
    [repr] of an integral float is its digits followed by [.0]); [bool] is a
    subtype of [int]. *)
Definition py_eq_int (n : Z) (v : json) : bool :=
  match v with
  | JInt m => n =? m
  | JBool b => n =? (if b then 1 else 0)
  | JFloat r =>
      str_eqb r (str_of_Z n ++ lit ".0") || ((n =? 0) && str_eqb r (lit "-0.0"))
  | _ => false
  end.

(** [repr] of a list or dict depends on the interpreter's Unicode tables; it
    is a parameter of the development. *)
Class PyRepr : Type := repr_container : json -> str.

(** [str(v)] *)
Definition py_str `{PyRepr} (v : json) : str :=
  match v with
  | JNull => lit "None"
  | JBool true => lit "True"
  | JBool false => lit "False"
  | JInt n => str_of_Z n
  | JFloat r => r
  | JStr s => s
  | JList _ | JDict _ => repr_container v
  end.

(** ** The template filler *)

Definition option_ph (qnum i : Z) : str :=
  lit "{{Option_" ++ str_of_Z qnum ++ str_of_Z i ++ lit "}}".

Definition question_ph (qnum : Z) : str :=
  lit "{{QUESTION_" ++ str_of_Z qnum ++ lit "}}".

Definition answer_ph (qnum : Z) (letter : char) : str :=
  lit "{{ANSWER_" ++ str_of_Z qnum ++ [letter] ++ lit "}}".

Definition markRight (quiz_content : str) (qnum : Z) (optionNo : json) : str :=
  fold_left
    (fun quiz_content i =>
       let correct_value :=
         if py_eq_int (i - 1) optionNo then lit "true" else lit "false" in
       let placeholder := option_ph qnum i in
       replace placeholder correct_value quiz_content)
    (range 1 5) quiz_content.

(** Lines 79-81: one turn of the loop over the answers. *)
Definition fill_answer (qnum : Z) (quiz_content : str) (it : Z * json)
  : result str :=
  let '(anum, answer_text) := it in
  match chr (64 + anum) with
  | None => raise ValueError
  | Some letter =>
      a <- as_str answer_text ;;
      ok (replace (answer_ph qnum letter) a quiz_content)
  end.

Definition fill_answers (quiz_content : str) (qnum : Z) (answers : list json)
  : result str :=
  foldM (fill_answer qnum) (enumerate answers 1) quiz_content.

(** Lines 73-84: one turn of the loop over the questions. *)
Definition fill_question (quiz_content : str) (it : Z * json) : result str :=
  let '(qnum, q) := it in
  qv <- py_getitem q (lit "QUESTION") ;;
  qtext <- as_str qv ;;
  let quiz_content := replace (question_ph qnum) qtext quiz_content in
  av <- py_getitem q (lit "ANSWERS") ;;
  answers <- py_iter av ;;
  quiz_content <- fill_answers quiz_content qnum answers ;;
  cv <- py_getitem q (lit "CORRECT") ;;
  ok (markRight quiz_content qnum cv).

(** Lines 66-84: the filled quiz template of one quiz. *)
Definition fill_content (xml_template : str) (quiz : json) : result str :=
  let quiz_content := xml_template in
  tv <- py_getitem quiz (lit "TITLE") ;;
  title <- as_str tv ;;
  let quiz_content := replace (lit "{{TITLE}}") title quiz_content in
  qv <- py_getitem quiz (lit "QUESTIONS") ;;
  questions <- py_iter qv ;;
  foldM fill_question (enumerate questions 1) quiz_content.

(** Lines 66-90: [full_xml] of one quiz. *)
Definition full_xml `{PyRepr} (xml_template meta_block_template : str)
  (quiz : json) : result str :=
  quiz_content <- fill_content xml_template quiz ;;
  idv <- py_getitem quiz (lit "id") ;;
  let mb_filled := replace (lit "{{ID}}") (py_str idv) meta_block_template in
  ok (quiz_content ++ mb_filled).

(** ** The request, the process environment and the archive *)

(** The uploaded file, by what [json.load] makes of it. *)
Inductive upload : Type :=
| Unparsable (err : str)
| Parsed (data : json).

Record request : Type := {
  files : list (str * upload);
  form : list (str * str)
}.

Definition date_time : Type := (Z * Z * Z * Z * Z * Z)%type.

Record environ : Type := {
  XML_TEMPLATE_PATH : str;
  META_BLOCK_PATH : str;
  (** [open(path, "r", encoding="utf-8").read()] *)
  read_text : str -> result str;
  (** [time.localtime(time.time())[:6]] at the [writestr] call that finds
      [n] entries in the archive *)
  localtime : nat -> date_time
}.

(** An entry of the archive: the name stored for it, the DOS date and time
    words of its header, and the text whose UTF-8 encoding is its content. *)
Record zip_entry : Type := {
  filename : str;
  mtime : Z * Z;
  data : str
}.

Definition archive : Type := list zip_entry.

(** *** [zipfile]: [ZipInfo] and [ZipFile.writestr] *)

Definition year (dt : date_time) : Z :=
  let '(y, _, _, _, _, _) := dt in y.

(** [(dt[0] - 1980) << 9 | dt[1] << 5 | dt[2]] *)
Definition dosdate (dt : date_time) : Z :=
  let '(y, mo, d, _, _, _) := dt in
  Z.lor (Z.lor (Z.shiftl (y - 1980) 9) (Z.shiftl mo 5)) d.

(** [dt[3] << 11 | dt[4] << 5 | (dt[5] // 2)] *)
Definition dostime (dt : date_time) : Z :=
  let '(_, _, _, h, mi, sec) := dt in
  Z.lor (Z.lor (Z.shiftl h 11) (Z.shiftl mi 5)) (sec / 2).

(** The values [struct.pack] accepts for an [H] field. *)
Definition ushort (n : Z) : bool := (0 <=? n) && (n <=? 65535).

(** [ZipInfo(filename, date_time)]: the name is cut at its first NUL
    character and a year before 1980 is refused.  (Where the path
    separator of the host is not [/], it is replaced by [/] in the name;
    the development is for a host where it is [/].) *)
Definition ZipInfo (filename : str) (dt : date_time) : result (str * date_time) :=
  let filename := before_nul filename in
  if year dt <? 1980 then raise ValueError else ok (filename, dt).

(** [zipf.writestr(arcname, data)] for two strings.  In this order: the
    text is encoded; the [ZipInfo] is made with the local time; the last
    character of the stored name is looked at ([IndexError] when the name
    is empty); the header is packed, for which the stored name is encoded
    and its length and the two time words must fit 16 bits
    ([struct.error]).  A name already in the archive only gets a warning:
    the entry is added all the same. *)
Definition writestr (E : environ) (zipf : archive) (arcname data : str)
  : result archive :=
  if encodable data then
    zinfo <- ZipInfo arcname (localtime E (List.length zipf)) ;;
    let '(name, dt) := zinfo in
    match name with
    | [] => raise IndexError
    | _ :: _ =>
        if encodable name then
          if ushort (dostime dt) && ushort (dosdate dt) &&
             ushort (utf8_length name)
          then ok (zipf ++ [ {| filename := name;
                               mtime := (dosdate dt, dostime dt);
                               data := data |} ])
          else raise StructError
        else raise UnicodeEncodeError
    end
  else raise UnicodeEncodeError.

(** How a call of the view ends: a file response, [abort(code, description)],
    or an exception that escapes the view. *)
Inductive outcome : Type :=
| SendFile (zip : archive) (mimetype : str) (as_attachment : bool)
    (download_name : str)
| Abort (code : Z) (description : str)
| Uncaught (e : exn).

(** The status line of the response: Flask answers an exception that
    escapes a view with 500 Internal Server Error. *)
Definition status (o : outcome) : Z :=
  match o with
  | SendFile _ _ _ _ => 200
  | Abort code _ => code
  | Uncaught _ => 500
  end.

Definition sent_archive (o : outcome) : option archive :=
  match o with
  | SendFile zip _ _ _ => Some zip
  | _ => None
  end.

(** Lines 64-94: one turn of the loop over the quizzes. *)
Definition write_quiz `{PyRepr} (E : environ) (base_name : str)
  (xml_template meta_block_template : str) (zipf : archive) (it : Z * json)
  : result archive :=
  let '(idx, quiz) := it in
  xml <- full_xml xml_template meta_block_template quiz ;;
  let name := base_name ++ lit "_" ++ str_of_Z idx ++ lit ".xml" in
  writestr E zipf name xml.

(** Lines 61-94: the [with zipfile.ZipFile(...)] block. *)
Definition build_zip `{PyRepr} (E : environ) (base_name : str)
  (xml_template meta_block_template : str) (data : json) : result archive :=
  qv <- py_get data (lit "quizzes") (JList []) ;;
  quizzes <- py_iter qv ;;
  foldM (write_quiz E base_name xml_template meta_block_template)
    (enumerate quizzes 1) [].

(** Lines 52-58 *)
Definition load_templates (E : environ) : result (str * str) :=
  xml_template <- read_text E (XML_TEMPLATE_PATH E) ;;
  meta_block_template <- read_text E (META_BLOCK_PATH E) ;;
  ok (xml_template, meta_block_template).

(** Lines 99-104: [send_file] with a [download_name].  A name that is not
    ASCII is percent-quoted as UTF-8 for the [filename*] parameter
    ([UnicodeEncodeError] on a surrogate), and the [Content-Disposition]
    header refuses a value with a carriage return or a line feed
    ([ValueError]). *)
Definition send_file (zip : archive) (mimetype : str) (as_attachment : bool)
  (download_name : str) : result outcome :=
  if encodable download_name then
    if existsb is_newline download_name then raise ValueError
    else ok (SendFile zip mimetype as_attachment download_name)
  else raise UnicodeEncodeError.

Definition form_get (req : request) (key default : str) : str :=
  match assoc key (form req) with
  | Some v => v
  | None => default
  end.

Definition is_empty (s : str) : bool :=
  match s with
  | [] => true
  | _ :: _ => false
  end.

(** [generate_xmls], lines 36-104. *)
Definition generate_xmls `{PyRepr} (E : environ) (req : request) : outcome :=
  match assoc (lit "quiz_json") (files req) with
  | None => Abort 400 (lit "No JSON file part")
  | Some quiz_file =>
      let base_name := strip (form_get req (lit "base_name") []) in
      if is_empty base_name
      then Abort 400 (lit "Base filename is required")
      else
        match quiz_file with
        | Unparsable e => Abort 400 (lit "Invalid JSON: " ++ e)
        | Parsed data =>
            match load_templates E with
            | inl (FileNotFoundError e) =>
                Abort 500 (lit "Template files not found: " ++ e)
            | inl e => Uncaught e
            | inr (xml_template, meta_block_template) =>
                match build_zip E base_name xml_template
                        meta_block_template data with
                | inl e => Uncaught e
                | inr zipf =>
                    match send_file zipf (lit "application/zip") true
                            (base_name ++ lit "_xmls.zip") with
                    | inl e => Uncaught e
                    | inr response => response
                    end
                end
            end
        end
  end.

(** ** Templates as sequences of text and placeholders

    The placeholder grammar of the template files: a template is plain text
    (no brace) interleaved with placeholders [{{name}}] whose name has no
    brace.  Substitution of a value for a name is then a map over tokens. *)

Definition is_brace (c : char) : bool := (c =? 123)%N || (c =? 125)%N.

Definition plain (s : str) : bool := forallb (fun c => negb (is_brace c)) s.

(** A pattern that begins with an opening and ends with a closing brace. *)
Definition opens (p : str) : Prop := exists m, p = 123%N :: m.
Definition closes (p : str) : Prop := exists m, p = m ++ [125%N].

(** The characters of a decimal numeral: a digit or the minus sign. *)
Definition numeric (c : char) : Prop := (48 <= c <= 57)%N \/ c = 45%N.

Inductive token : Type :=
| Text (s : str)
| Hole (name : str).

Definition hole (name : str) : str := lit "{{" ++ name ++ lit "}}".

Definition render_token (t : token) : str :=
  match t with
  | Text s => s
  | Hole name => hole name
  end.

Definition render (ts : list token) : str := flat_map render_token ts.

Definition token_ok (t : token) : bool :=
  match t with
  | Text s => plain s
  | Hole name => plain name
  end.

Definition well_formed (ts : list token) : bool := forallb token_ok ts.

(** One replacement, token by token. *)
Definition subst1 (name value : str) (t : token) : token :=
  match t with
  | Text s => Text s
  | Hole n => if str_eqb n name then Text value else Hole n
  end.

(** One replacement whose value is itself template text [value_ts]: its
    tokens take the place of every placeholder of that name. *)
Definition splice (name : str) (value_ts : list token) (t : token) : list token :=
  match t with
  | Text s => [Text s]
  | Hole n => if str_eqb n name then value_ts else [Hole n]
  end.

(** A run of replacements, token by token: the first binding of a name in
    [bindings] decides. *)
Definition subst_all (bindings : list (str * str)) (t : token) : token :=
  match t with
  | Text s => Text s
  | Hole n =>
      match assoc n bindings with
      | Some value => Text value
      | None => Hole n
      end
  end.

Definition binding_ok (b : str * str) : bool := plain (fst b) && plain (snd b).

(** A run of replacements whose values are themselves template text, token
    by token: what the token [t] has become after the steps [bs], made in
    order.  The tokens of a value spliced in by one step are resolved by
    the steps that follow it. *)
Fixpoint resolve (bs : list (str * list token)) (t : token) : list token :=
  match bs with
  | [] => [t]
  | (n, us) :: bs' => flat_map (resolve bs') (splice n us t)
  end.

(** The replacements [bs] with their values as text. *)
Definition rendered (bs : list (str * list token)) : list (str * str) :=
  map (fun b => (fst b, render (snd b))) bs.

Definition tbinding_ok (b : str * list token) : bool :=
  plain (fst b) && well_formed (snd b).

Definition option_name (qnum i : Z) : str :=
  lit "Option_" ++ str_of_Z qnum ++ str_of_Z i.

Definition answer_name (qnum anum : Z) : str :=
  lit "ANSWER_" ++ str_of_Z qnum ++ [Z.to_N (64 + anum)].

Definition option_value (k i : Z) : str :=
  if i - 1 =? k then lit "true" else lit "false".

(** The bindings [markRight] applies for question [qnum] with [CORRECT = k]. *)
Definition option_bindings (qnum k : Z) : list (str * str) :=
  map (fun i => (option_name qnum i, option_value k i)) (range 1 5).

(** The bindings the loop over the answers applies. *)
Definition answer_bindings (qnum : Z) (answers : list str) : list (str * str) :=
  map (fun it => (answer_name qnum (fst it), snd it)) (enumerate answers 1).

(** ** The data model of the specification *)

Record Question : Type := {
  QUESTION : str;
  ANSWERS : list str;
  CORRECT : Z
}.

(** The dict [q] reads as the question [Q]: its text is a string, its
    answers are a sequence of strings, its correct index is an integer. *)
Definition reads_question (q : json) (Q : Question) : Prop :=
  py_getitem q (lit "QUESTION") = ok (JStr (QUESTION Q)) /\
  (av <- py_getitem q (lit "ANSWERS") ;; py_iter av) = ok (map JStr (ANSWERS Q)) /\
  py_getitem q (lit "CORRECT") = ok (JInt (CORRECT Q)).

(** The dict [quiz] reads as a quiz with the title [title] and the
    questions [qs]. *)
Definition reads_quiz (quiz : json) (title : str) (qs : list Question) : Prop :=
  py_getitem quiz (lit "TITLE") = ok (JStr title) /\
  exists qjs,
    (qv <- py_getitem quiz (lit "QUESTIONS") ;; py_iter qv) = ok qjs /\
    Forall2 reads_question qjs qs.

(** A run of replacements of placeholders by values, in order. *)
Definition run_bindings (bs : list (str * str)) (content : str) : str :=
  fold_left (fun c b => replace (hole (fst b)) (snd b) c) bs content.

Definition question_name (qnum : Z) : str := lit "QUESTION_" ++ str_of_Z qnum.

(** The replacements the filler makes for the question at position [qnum],
    and for a whole quiz, in the order in which it makes them. *)
Definition question_bindings (qnum : Z) (Q : Question) : list (str * str) :=
  (question_name qnum, QUESTION Q) ::
  answer_bindings qnum (ANSWERS Q) ++ option_bindings qnum (CORRECT Q).

Fixpoint questions_bindings (qs : list Question) (start : Z)
  : list (str * str) :=
  match qs with
  | [] => []
  | Q :: qs' => question_bindings start Q ++ questions_bindings qs' (start + 1)
  end.

Definition quiz_bindings (title : str) (qs : list Question) : list (str * str) :=
  (lit "TITLE", title) :: questions_bindings qs 1.

(** A question of plain texts with at most 58 answers (the 59th letter
    after ['A'] is an opening brace). *)
Definition question_plain (Q : Question) : bool :=
  plain (QUESTION Q) && forallb plain (ANSWERS Q) &&
  (List.length (ANSWERS Q) <=? 58)%nat.




(** ** Notions used to state the properties of the endpoint *)

(** The name the packager passes to [writestr] for the record numbered
    [idx]. *)
Definition entry_name (base_name : str) (idx : Z) : str :=
  base_name ++ lit "_" ++ str_of_Z idx ++ lit ".xml".

(** The entries the packager writes for the documents [docs], the first
    numbered [idx] and written when [written] entries are in the archive. *)
Fixpoint expected_entries (E : environ) (base_name : str) (idx : Z)
  (written : nat) (docs : list str) : archive :=
  match docs with
  | [] => []
  | d :: ds =>
      {| filename := before_nul (entry_name base_name idx);
         mtime := (dosdate (localtime E written), dostime (localtime E written));
         data := d |} :: expected_entries E base_name (idx + 1) (S written) ds
  end.

(** A name that an entry can be stored under: what is left of it before
    its first NUL character is not empty, has no surrogate, and is at most
    65535 bytes long in UTF-8. *)
Definition name_ok (name : str) : bool :=
  negb (is_empty (before_nul name)) && encodable (before_nul name) &&
  ushort (utf8_length (before_nul name)).

(** A local time that the header of an entry can record: the year is not
    before 1980 and the two DOS words fit 16 bits (for a calendar date, a
    year up to 2107). *)
Definition time_ok (dt : date_time) : bool :=
  (1980 <=? year dt) && ushort (dostime dt) && ushort (dosdate dt).

(** The exception a local time makes [writestr] raise, if any. *)
Definition time_fault (dt : date_time) : option exn :=
  if year dt <? 1980 then Some ValueError
  else if ushort (dostime dt) && ushort (dosdate dt) then None
  else Some StructError.

(** [writestr] accepts the documents [docs], the first numbered [idx] and
    written when [written] entries are in the archive. *)
Fixpoint writable (E : environ) (base_name : str) (idx : Z) (written : nat)
  (docs : list str) : bool :=
  match docs with
  | [] => true
  | d :: ds =>
      encodable d && time_ok (localtime E written) &&
      name_ok (entry_name base_name idx) &&
      writable E base_name (idx + 1) (S written) ds
  end.

(** A download name that [send_file] accepts. *)
Definition sendable (download_name : str) : bool :=
  encodable download_name && negb (existsb is_newline download_name).

(** [doc] is the document of [quiz]: the filled quiz template followed by
    the metadata block with [{{ID}}] replaced by [str(quiz["id"])]. *)
Definition document_of `{PyRepr} (xml meta : str) (quiz : json) (doc : str)
  : Prop :=
  exists content idv,
    fill_content xml quiz = ok content /\
    py_getitem quiz (lit "id") = ok idv /\
    doc = content ++ replace (lit "{{ID}}") (py_str idv) meta.

(** A record (a dict) that has no item under [key]. *)
Definition lacks (v : json) (key : str) : bool :=
  match v with
  | JDict items =>
      match assoc key items with
      | Some _ => false
      | None => true
      end
  | _ => false
  end.

Definition question_lacks_key (q : json) : bool :=
  lacks q (lit "QUESTION") || lacks q (lit "ANSWERS") || lacks q (lit "CORRECT").

Definition quiz_lacks_key (quiz : json) : bool :=
  lacks quiz (lit "TITLE") || lacks quiz (lit "QUESTIONS") ||
  match qv <- py_getitem quiz (lit "QUESTIONS") ;; py_iter qv with
  | inr questions => existsb question_lacks_key questions
  | inl _ => false
  end || lacks quiz (lit "id").

(** The names and contents of the files of an archive, without the time
    stamps. *)
Definition listing (zipf : archive) : list (str * str) :=
  map (fun e => (filename e, data e)) zipf.

(** Two outcomes that differ at most in the time stamps of the entries. *)
Definition same_response (o1 o2 : outcome) : Prop :=
  match o1, o2 with
  | SendFile z1 m1 a1 d1, SendFile z2 m2 a2 d2 =>
      listing z1 = listing z2 /\ m1 = m2 /\ a1 = a2 /\ d1 = d2
  | Abort c1 s1, Abort c2 s2 => c1 = c2 /\ s1 = s2
  | Uncaught e1, Uncaught e2 => e1 = e2
  | _, _ => False
  end.

(** ** Notions used to state further properties of the filler *)

Definition is_str (v : json) : bool :=
  match v with
  | JStr _ => true
  | _ => false
  end.

(** The shape the filler needs of a question: a string under [QUESTION],
    under [ANSWERS] something a loop can visit that yields strings only (no
    more than [chr] has letters for), and an item under [CORRECT]. *)
Definition question_ok (q : json) : bool :=
  match py_getitem q (lit "QUESTION") with
  | inr (JStr _) => true
  | _ => false
  end &&
  match av <- py_getitem q (lit "ANSWERS") ;; py_iter av with
  | inr answers =>
      forallb is_str answers && (Z.of_nat (List.length answers) <=? 1114047)
  | inl _ => false
  end &&
  match py_getitem q (lit "CORRECT") with
  | inr _ => true
  | inl _ => false
  end.

(** The shape the filler needs of a quiz record. *)
Definition quiz_ok (quiz : json) : bool :=
  match py_getitem quiz (lit "TITLE") with
  | inr (JStr _) => true
  | _ => false
  end &&
  match qv <- py_getitem quiz (lit "QUESTIONS") ;; py_iter qv with
  | inr questions => forallb question_ok questions
  | inl _ => false
  end &&
  match py_getitem quiz (lit "id") with
  | inr _ => true
  | inl _ => false
  end.

(** The bindings of [markRight] when no slot is the correct one. *)
Definition all_false_bindings (qnum : Z) : list (str * str) :=
  map (fun i => (option_name qnum i, lit "false")) (range 1 5).

(** A [CORRECT] value that equals none of 0, 1, 2, 3. *)
Definition marks_no_slot (v : json) : Prop :=
  match v with
  | JInt k => k < 0 \/ 3 < k
  | JNull | JStr _ | JList _ | JDict _ => True
  | JBool _ | JFloat _ => False
  end.

(** The names the filler binds: [TITLE] and the names made of one of its
    three prefixes. *)
Definition filler_name (n : str) : bool :=
  str_eqb n (lit "TITLE") || startswith (lit "QUESTION_") n ||
  startswith (lit "ANSWER_") n || startswith (lit "Option_") n.

(** The names of the placeholders of a template. *)
Definition holes (ts : list token) : list str :=
  flat_map (fun t => match t with
                     | Hole n => [n]
                     | Text _ => []
                     end) ts.

(** The placeholder name [n] belongs to the question at position [s]. *)
Definition owned_by (s : Z) (n : str) : Prop :=
  n = question_name s \/
  (exists j, 1 <= j /\ n = answer_name s j) \/
  (exists i, 1 <= i <= 4 /\ n = option_name s i).

(** ** Concrete inputs

    The scenario of the specification (one quiz, base name [math]) and the
    inputs at which the properties below are instantiated.  No scenario
    stringifies a list or a dict, whose [repr] is given a stand-in. *)

Definition scenario_repr : PyRepr := fun _ => lit "[...]".

Definition scenario_template : str :=
  lit "<quiz><title>{{TITLE}}</title><q>{{QUESTION_1}}</q><a>{{ANSWER_1A}}</a><b>{{ANSWER_1B}}</b><c>{{ANSWER_1C}}</c><d>{{ANSWER_1D}}</d><o1>{{Option_11}}</o1><o2>{{Option_12}}</o2><o3>{{Option_13}}</o3><o4>{{Option_14}}</o4></quiz>".

Definition scenario_meta : str := lit "<meta>{{ID}}</meta>".

(** A process whose two template files hold [xml] and [meta] and whose
    clock shows [now] while it serves the request. *)
Definition disk_at (xml meta : str) (now : date_time) : environ :=
  {| XML_TEMPLATE_PATH := lit "xml_template.xml";
     META_BLOCK_PATH := lit "meta_block.xml";
     read_text := fun path =>
       if str_eqb path (lit "xml_template.xml") then ok xml
       else if str_eqb path (lit "meta_block.xml") then ok meta
       else raise (FileNotFoundError path);
     localtime := fun _ => now |}.

(** The same on the first of January 2026 at midnight and [tick] seconds. *)
Definition disk (xml meta : str) (tick : Z) : environ :=
  disk_at xml meta (2026, 1, 1, 0, 0, tick).

Definition json_question (text : str) (answers : list str) (correct : Z) : json :=
  JDict [(lit "QUESTION", JStr text);
         (lit "ANSWERS", JList (map JStr answers));
         (lit "CORRECT", JInt correct)].

Definition json_quiz (id : Z) (title : str) (questions : list json) : json :=
  JDict [(lit "id", JInt id);
         (lit "TITLE", JStr title);
         (lit "QUESTIONS", JList questions)].

Definition post (data : json) (base_name : str) : request :=
  {| files := [(lit "quiz_json", Parsed data)];
     form := [(lit "base_name", base_name)] |}.

Definition math_quiz : json :=
  json_quiz 1 (lit "Quiz A")
    [json_question (lit "2+2?") [lit "3"; lit "4"; lit "5"; lit "6"] 1].

Definition math_data : json := JDict [(lit "quizzes", JList [math_quiz])].

Definition math_document : str :=
  lit "<quiz><title>Quiz A</title><q>2+2?</q><a>3</a><b>4</b><c>5</c><d>6</d><o1>false</o1><o2>true</o2><o3>false</o3><o4>false</o4></quiz><meta>1</meta>".

(** The question of the scenario in the data model, and the scenario's
    template as a sequence of tokens. *)
Definition math_question : Question :=
  {| QUESTION := lit "2+2?";
     ANSWERS := [lit "3"; lit "4"; lit "5"; lit "6"];
     CORRECT := 1 |}.

Definition scenario_tokens : list token :=
  [Text (lit "<quiz><title>"); Hole (lit "TITLE");
   Text (lit "</title><q>"); Hole (lit "QUESTION_1");
   Text (lit "</q><a>"); Hole (lit "ANSWER_1A");
   Text (lit "</a><b>"); Hole (lit "ANSWER_1B");
   Text (lit "</b><c>"); Hole (lit "ANSWER_1C");
   Text (lit "</c><d>"); Hole (lit "ANSWER_1D");
   Text (lit "</d><o1>"); Hole (lit "Option_11");
   Text (lit "</o1><o2>"); Hole (lit "Option_12");
   Text (lit "</o2><o3>"); Hole (lit "Option_13");
   Text (lit "</o3><o4>"); Hole (lit "Option_14");
   Text (lit "</o4></quiz>")].

(** A quiz whose title holds placeholders of later steps, its question in
    the data model, and its replacements with their values as tokens. *)
Definition nested_quiz : json :=
  json_quiz 1 (lit "{{QUESTION_1}} {{Option_11}}")
    [json_question (lit "2+2?") [] 0].

Definition nested_question : Question :=
  {| QUESTION := lit "2+2?"; ANSWERS := []; CORRECT := 0 |}.

Definition nested_steps : list (str * list token) :=
  [(lit "TITLE", [Hole (lit "QUESTION_1"); Text (lit " "); Hole (lit "Option_11")]);
   (lit "QUESTION_1", [Text (lit "2+2?")]);
   (lit "Option_11", [Text (lit "true")]);
   (lit "Option_12", [Text (lit "false")]);
   (lit "Option_13", [Text (lit "false")]);
   (lit "Option_14", [Text (lit "false")])].

Definition line_name : str := lit "a" ++ [10%N] ++ lit "b".

(** A quiz record whose title has been forgotten. *)
Definition untitled_quiz : json :=
  JDict [(lit "id", JInt 1); (lit "QUESTIONS", JList [])].

Example replace_ex1 :
  replace (lit "ab") (lit "X") (lit "cababab_ab") = lit "cXXX_X".
Proof. reflexivity. Qed.
Example replace_ex2 :
  replace (lit "aa") (lit "b") (lit "aaaaa") = lit "bba".
Proof. reflexivity. Qed.
Example replace_ex3 :
  replace (lit "") (lit "-") (lit "abc") = lit "-a-b-c-".
Proof. reflexivity. Qed.
Example split_ex1 :
  split (lit "ab") (lit "cababab_ab") = [lit "c"; []; []; lit "_"; []].
Proof. reflexivity. Qed.
Example str_ex : str_of_Z 0 = lit "0" /\ str_of_Z 12 = lit "12" /\ str_of_Z (-5) = lit "-5".
Proof. repeat split; reflexivity. Qed.
Example strip_ex : strip (lit "  a b  ") = lit "a b".
Proof. reflexivity. Qed.

(** * Properties of strings *)

Module PyStrFacts.

Lemma char_eqb_eq (a b : char) : char_eqb a b = true <-> a = b.
Proof. apply N.eqb_eq. Qed.

Lemma char_eqb_refl (a : char) : char_eqb a a = true.
Proof. apply N.eqb_refl. Qed.

Lemma str_eqb_eq (a b : str) : str_eqb a b = true <-> a = b.
Proof.
  revert b; induction a as [|x a IH]; intros [|y b]; simpl;
    try (split; [discriminate | discriminate]); try tauto.
  rewrite andb_true_iff, char_eqb_eq, IH.
  split; [intros [-> ->]; reflexivity | intros [= -> ->]; auto].
Qed.

Lemma str_eqb_refl (a : str) : str_eqb a a = true.
Proof. apply str_eqb_eq; reflexivity. Qed.

Lemma str_eqb_neq (a b : str) : str_eqb a b = false <-> a <> b.
Proof.
  rewrite <- str_eqb_eq. destruct (str_eqb a b); split; congruence.
Qed.

Lemma startswith_iff (p s : str) :
  startswith p s = true <-> exists r, s = p ++ r.
Proof.
  revert s; induction p as [|x p IH]; intros s; simpl.
  - split; [intros _; exists s; reflexivity | reflexivity].
  - destruct s as [|y s].
    + split; [discriminate | intros [r [=]]].
    + rewrite andb_true_iff, char_eqb_eq, IH. split.
      * intros [-> [r ->]]. exists r; reflexivity.
      * intros [r [= -> ->]]. split; [reflexivity | exists r; reflexivity].
Qed.

Lemma startswith_app (p r : str) : startswith p (p ++ r) = true.
Proof. apply startswith_iff. exists r; reflexivity. Qed.

Lemma startswith_head (x y : char) (p s : str) :
  x <> y -> startswith (x :: p) (y :: s) = false.
Proof.
  intros H; simpl. destruct (char_eqb x y) eqn:E; [|reflexivity].
  apply char_eqb_eq in E; contradiction.
Qed.

(** *** The three equations of [replace] for a non-empty pattern *)

Lemma replace_scan_skip (old new x r : str) :
  replace_scan old new (x ++ r) (List.length x) = replace_scan old new r 0.
Proof.
  induction x as [|c x IH]; simpl; [|exact IH].
  destruct r; reflexivity.
Qed.

Lemma replace_nil (old new : str) : old <> [] -> replace old new [] = [].
Proof. destruct old; [congruence | reflexivity]. Qed.

Lemma replace_match (old new r : str) :
  old <> [] -> replace old new (old ++ r) = new ++ replace old new r.
Proof.
  destruct old as [|c old]; [congruence | intros _].
  unfold replace. change ((c :: old) ++ r) with (c :: (old ++ r)).
  cbn [replace_scan].
  change (c :: old ++ r) with ((c :: old) ++ r).
  rewrite startswith_app. cbn [List.length Nat.pred].
  rewrite replace_scan_skip. reflexivity.
Qed.

Lemma replace_keep (old new : str) (c : char) (s : str) :
  old <> [] -> startswith old (c :: s) = false ->
  replace old new (c :: s) = c :: replace old new s.
Proof.
  destruct old as [|x old]; [congruence | intros _ H].
  unfold replace. cbn [replace_scan]. rewrite H. reflexivity.
Qed.

(** Induction along the scan. *)
Lemma scan_ind (old : str) (P : str -> Prop) :
  old <> [] ->
  P [] ->
  (forall r, P r -> P (old ++ r)) ->
  (forall c s, startswith old (c :: s) = false -> P s -> P (c :: s)) ->
  forall s, P s.
Proof.
  intros Hne Hnil Hm Hk s.
  remember (List.length s) as n eqn:Hn.
  revert s Hn. induction n as [n IH] using lt_wf_ind. intros s Hn.
  destruct s as [|c s]; [exact Hnil|].
  destruct (startswith old (c :: s)) eqn:E.
  - apply startswith_iff in E. destruct E as [r E]. rewrite E.
    apply Hm. apply (IH (List.length r)); [|reflexivity].
    subst n. rewrite E, length_app.
    destruct old; [congruence | simpl; lia].
  - apply Hk; [exact E|]. apply (IH (List.length s)); [|reflexivity].
    subst n; simpl; lia.
Qed.

(** *** [split] and [join] *)

Lemma split_scan_skip (sep x r : str) :
  split_scan sep (x ++ r) (List.length x) = split_scan sep r 0.
Proof.
  induction x as [|c x IH]; simpl; [|exact IH].
  destruct r; reflexivity.
Qed.

Lemma split_nil (sep : str) : split sep [] = [[]].
Proof. reflexivity. Qed.

Lemma split_match (sep r : str) :
  sep <> [] -> split sep (sep ++ r) = [] :: split sep r.
Proof.
  destruct sep as [|c sep]; [congruence | intros _].
  unfold split. change ((c :: sep) ++ r) with (c :: (sep ++ r)).
  cbn [split_scan].
  change (c :: sep ++ r) with ((c :: sep) ++ r).
  rewrite startswith_app. cbn [List.length Nat.pred].
  rewrite split_scan_skip. reflexivity.
Qed.

Lemma split_keep (sep : str) (c : char) (s : str) :
  startswith sep (c :: s) = false ->
  split sep (c :: s) = cons_head c (split sep s).
Proof. intros H. unfold split. cbn [split_scan]. rewrite H. reflexivity. Qed.

Lemma split_not_nil (sep s : str) : sep <> [] -> split sep s <> [].
Proof.
  intros Hne. pattern s. apply (scan_ind sep); try assumption.
  - discriminate.
  - intros r _. rewrite split_match by assumption. discriminate.
  - intros c s' E _. rewrite split_keep by assumption.
    destruct (split sep s'); discriminate.
Qed.

Lemma join_cons (sep p : str) (ps : list str) :
  ps <> [] -> join sep (p :: ps) = p ++ sep ++ join sep ps.
Proof. destruct ps; [congruence | reflexivity]. Qed.

Lemma join_cons_head (sep : str) (c : char) (ps : list str) :
  ps <> [] -> join sep (cons_head c ps) = c :: join sep ps.
Proof.
  destruct ps as [|p [|q ps]]; [congruence | reflexivity | reflexivity].
Qed.

(** [sep.join(s.split(sep)) == s] *)
Lemma join_split (sep s : str) : sep <> [] -> join sep (split sep s) = s.
Proof.
  intros Hne. pattern s. apply (scan_ind sep); try assumption.
  - reflexivity.
  - intros r IH. rewrite split_match by assumption.
    rewrite join_cons by (apply split_not_nil; assumption).
    rewrite IH. reflexivity.
  - intros c s' E IH. rewrite split_keep by assumption.
    rewrite join_cons_head by (apply split_not_nil; assumption).
    rewrite IH. reflexivity.
Qed.

(** [s.replace(old, new) == new.join(s.split(old))] *)
Lemma replace_join_split (old new s : str) :
  old <> [] -> replace old new s = join new (split old s).
Proof.
  intros Hne. pattern s. apply (scan_ind old); try assumption.
  - rewrite replace_nil by assumption. reflexivity.
  - intros r IH. rewrite replace_match, split_match by assumption.
    rewrite join_cons by (apply split_not_nil; assumption).
    rewrite IH. reflexivity.
  - intros c s' E IH. rewrite replace_keep, split_keep by assumption.
    rewrite join_cons_head by (apply split_not_nil; assumption).
    rewrite IH. reflexivity.
Qed.

(** *** Occurrences *)

Lemma occurs_refl (p : str) : occurs p p.
Proof. exists [], []. rewrite app_nil_r. reflexivity. Qed.

Lemma occurs_nil_inv (p : str) : occurs p [] -> p = [].
Proof.
  intros (a & b & H). symmetry in H.
  apply app_eq_nil in H as [_ H]. apply app_eq_nil in H as [H _]. exact H.
Qed.

Lemma occurs_app_l (p x y : str) : occurs p x -> occurs p (x ++ y).
Proof.
  intros (a & b & ->). exists a, (b ++ y). now rewrite <- !app_assoc.
Qed.

Lemma occurs_app_r (p x y : str) : occurs p y -> occurs p (x ++ y).
Proof.
  intros (a & b & ->). exists (x ++ a), b. now rewrite <- !app_assoc.
Qed.

Lemma occurs_trans (p q s : str) : occurs p q -> occurs q s -> occurs p s.
Proof.
  intros (a & b & ->) (c & d & ->). exists (c ++ a), (b ++ d).
  now rewrite <- !app_assoc.
Qed.

Lemma occurs_In (p s : str) (c : char) : occurs p s -> In c p -> In c s.
Proof.
  intros (a & b & ->) H. apply in_or_app; right. apply in_or_app; left; exact H.
Qed.


Lemma occurs_same_length (p s : str) :
  occurs p s -> List.length p = List.length s -> p = s.
Proof.
  intros (a & b & ->) H. rewrite !length_app in H.
  destruct a; [|simpl in H; lia]. destruct b; [|simpl in H; lia].
  simpl. now rewrite app_nil_r.
Qed.

(** An occurrence in a concatenation lies in one part or straddles the seam. *)
Lemma occurs_app_inv (p x y : str) :
  occurs p (x ++ y) ->
  occurs p x \/ occurs p y \/
  exists p1 p2, p = p1 ++ p2 /\ p1 <> [] /\ p2 <> [] /\
                (exists a, x = a ++ p1) /\ (exists b, y = p2 ++ b).
Proof.
  intros (a & b & H).
  apply app_eq_app in H as (l & [[Hx Hy] | [Ha Hy]]).
  - symmetry in Hy. apply app_eq_app in Hy as (m & [[Hl Hb] | [Hp Hy]]).
    + left. exists a, m. rewrite Hx, Hl. reflexivity.
    + destruct l as [|c l].
      * right; left. exists [], b. simpl in Hp. rewrite Hy, Hp. reflexivity.
      * destruct m as [|d m].
        -- left. exists a, []. rewrite Hx, Hp, !app_nil_r. reflexivity.
        -- right; right. exists (c :: l), (d :: m).
           repeat split; try discriminate; try assumption.
           ++ exists a; assumption.
           ++ exists b; assumption.
  - right; left. exists l, b. exact Hy.
Qed.

Lemma occurs_cons_inv (p : str) (c : char) (s : str) :
  occurs p (c :: s) -> (exists r, c :: s = p ++ r) \/ occurs p s.
Proof.
  intros ([|x a] & b & H).
  - left. exists b. exact H.
  - right. injection H as _ H. exists a, b. exact H.
Qed.

Lemma contains_iff (p s : str) : contains p s = true <-> occurs p s.
Proof.
  induction s as [|c s IH].
  - simpl. rewrite orb_false_r, startswith_iff. split.
    + intros [r H]. exists [], r. exact H.
    + intros H. apply occurs_nil_inv in H. subst p. exists []; reflexivity.
  - cbn [contains]. rewrite orb_true_iff, startswith_iff, IH. split.
    + intros [[r H] | (a & b & H)].
      * exists [], r; exact H.
      * exists (c :: a), b. rewrite H. reflexivity.
    + intros H. apply occurs_cons_inv in H. tauto.
Qed.

Lemma not_contains_iff (p s : str) : contains p s = false <-> ~ occurs p s.
Proof.
  rewrite <- contains_iff. destruct (contains p s); split; congruence.
Qed.

(** *** The pieces between the occurrences *)

Lemma split_head_prefix (sep s p : str) (ps : list str) :
  sep <> [] -> split sep s = p :: ps -> exists r, s = p ++ r.
Proof.
  intros Hne H. pose proof (join_split sep s Hne) as J. rewrite H in J.
  destruct ps as [|q ps].
  - exists []. simpl in J. now rewrite app_nil_r.
  - rewrite join_cons in J by discriminate. eexists. symmetry. exact J.
Qed.

(** No piece of [s.split(sep)] contains [sep]. *)
Lemma split_pieces_free (sep s : str) :
  sep <> [] -> Forall (fun k => ~ occurs sep k) (split sep s).
Proof.
  intros Hne. pattern s. apply (scan_ind sep); try assumption.
  - constructor; [|constructor]. intros H. apply occurs_nil_inv in H. auto.
  - intros r IH. rewrite split_match by assumption. constructor; [|exact IH].
    intros H. apply occurs_nil_inv in H. auto.
  - intros c s' E IH. rewrite split_keep by assumption.
    destruct (split sep s') as [|p ps] eqn:Hs.
    + exfalso. eapply split_not_nil; eassumption.
    + simpl. inversion IH as [|? ? Hp Hps]; subst. constructor; [|exact Hps].
      intros H. apply occurs_cons_inv in H as [[r Hr] | H]; [|auto].
      destruct (split_head_prefix sep s' p ps Hne Hs) as [r' ->].
      assert (startswith sep (c :: p ++ r') = true) as Hsw.
      { apply startswith_iff. exists (r ++ r').
        change (c :: p ++ r') with ((c :: p) ++ r').
        rewrite Hr, <- app_assoc. reflexivity. }
      congruence.
Qed.

Lemma piece_occurs (sep k : str) (ks : list str) :
  In k ks -> occurs k (join sep ks).
Proof.
  induction ks as [|p ks IH]; [intros []|].
  intros [-> | H].
  - destruct ks; [apply occurs_refl|].
    rewrite join_cons by discriminate. apply occurs_app_l, occurs_refl.
  - destruct ks as [|q ks]; [destruct H|].
    rewrite join_cons by discriminate.
    apply occurs_app_r, occurs_app_r, IH, H.
Qed.

(** *** Plain values between braces *)

Lemma plain_In (s : str) (c : char) :
  plain s = true -> In c s -> is_brace c = false.
Proof.
  unfold plain. rewrite forallb_forall. intros H Hc.
  apply H in Hc. now apply negb_true_iff in Hc.
Qed.

Lemma plain_app (a b : str) : plain (a ++ b) = plain a && plain b.
Proof. apply forallb_app. Qed.

Lemma opens_prefix (p p1 p2 : str) :
  opens p -> p = p1 ++ p2 -> p1 <> [] -> In 123%N p1.
Proof.
  intros [m ->] H Hne. destruct p1 as [|c p1]; [congruence|].
  injection H as <- _. left; reflexivity.
Qed.

Lemma closes_suffix (p p1 p2 : str) :
  closes p -> p = p1 ++ p2 -> p2 <> [] -> In 125%N p2.
Proof.
  intros [m ->] H Hne.
  destruct (exists_last Hne) as (q & z & ->).
  rewrite app_assoc in H. apply app_inj_tail in H as [_ <-].
  apply in_or_app; right; left; reflexivity.
Qed.

Lemma plain_no_open (s : str) : plain s = true -> ~ In 123%N s.
Proof. intros H Hin. apply (plain_In _ _ H) in Hin. discriminate. Qed.

Lemma plain_no_close (s : str) : plain s = true -> ~ In 125%N s.
Proof. intros H Hin. apply (plain_In _ _ H) in Hin. discriminate. Qed.

(** An occurrence of a braced pattern in [new.join(ks)] lies inside one of
    the pieces when [new] is plain and is not a part of the pattern. *)
Lemma occurs_join_inv (new pat : str) (ks : list str) :
  plain new = true -> ~ occurs new pat -> opens pat -> closes pat ->
  occurs pat (join new ks) -> Exists (occurs pat) ks.
Proof.
  intros Hpl Hnew Hop Hcl.
  induction ks as [|k ks IH]; intros H.
  - simpl in H. apply occurs_nil_inv in H. destruct Hop as [m ->]. discriminate.
  - destruct ks as [|k' ks]; [left; exact H|].
    rewrite join_cons in H by discriminate.
    apply occurs_app_inv in H as [H | [H | H]].
    + left; exact H.
    + apply occurs_app_inv in H as [H | [H | H]].
      * exfalso. destruct Hop as [m ->].
        apply (plain_no_open new Hpl). apply (occurs_In _ _ _ H). left; reflexivity.
      * right. apply IH. exact H.
      * exfalso. destruct H as (p1 & p2 & Hp & Hp1 & _ & [a Ha] & _).
        apply (plain_no_open new Hpl). rewrite Ha. apply in_or_app; right.
        eapply opens_prefix; eassumption.
    + exfalso. destruct H as (p1 & p2 & Hp & _ & Hp2 & _ & [b Hb]).
      apply app_eq_app in Hb as (l & [[Hn _] | [Hp2' _]]).
      * apply (plain_no_close new Hpl). rewrite Hn. apply in_or_app; left.
        eapply closes_suffix; eassumption.
      * apply Hnew. exists p1, l. rewrite Hp, Hp2'. reflexivity.
Qed.

(** After [s.replace(old, new)] no occurrence of [old] is left, when [new]
    is plain and is not a part of [old]. *)
Lemma replace_removes (old new s : str) :
  plain new = true -> ~ occurs new old -> opens old -> closes old ->
  ~ occurs old (replace old new s).
Proof.
  intros Hpl Hnew Hop Hcl H.
  assert (old <> []) as Hne by (destruct Hop as [m ->]; discriminate).
  rewrite replace_join_split in H by assumption.
  apply occurs_join_inv in H; try assumption.
  apply Exists_exists in H as (k & Hk & Hocc).
  pose proof (split_pieces_free old s Hne) as F.
  rewrite Forall_forall in F. exact (F k Hk Hocc).
Qed.

(** A replacement does not create an occurrence of a braced pattern that
    was absent, when the inserted value is plain and is not a part of it. *)
Lemma replace_keeps_absent (old new pat s : str) :
  old <> [] ->
  plain new = true -> ~ occurs new pat -> opens pat -> closes pat ->
  ~ occurs pat s -> ~ occurs pat (replace old new s).
Proof.
  intros Hne Hpl Hnew Hop Hcl Hs H.
  rewrite replace_join_split in H by assumption.
  apply occurs_join_inv in H; try assumption.
  apply Exists_exists in H as (k & Hk & Hocc).
  apply Hs. apply (occurs_trans pat k s Hocc).
  rewrite <- (join_split old s Hne) at 1. apply piece_occurs. exact Hk.
Qed.

(** A pattern that does not occur is left alone. *)
Lemma replace_absent (old new s : str) :
  old <> [] -> ~ occurs old s -> replace old new s = s.
Proof.
  intros Hne. pattern s. apply (scan_ind old); try assumption.
  - intros _. apply replace_nil; assumption.
  - intros r _ H. exfalso. apply H. exists [], r. reflexivity.
  - intros c s' E IH H. rewrite replace_keep by assumption. f_equal.
    apply IH. intros (a & b & ->). apply H. exists (c :: a), b. reflexivity.
Qed.

Lemma replace_self (old new : str) : old <> [] -> replace old new old = new.
Proof.
  intros Hne. rewrite <- (app_nil_r old) at 2.
  rewrite replace_match, replace_nil by assumption. apply app_nil_r.
Qed.

(** *** Decimal numerals *)

Lemma string_of_uint_numeric (d : Decimal.uint) :
  Forall numeric (lit (NilEmpty.string_of_uint d)).
Proof.
  induction d; simpl; constructor; try assumption; left; cbv; split; discriminate.
Qed.

Lemma str_of_Z_numeric (n : Z) : Forall numeric (str_of_Z n).
Proof.
  unfold str_of_Z, NilZero.string_of_int, NilZero.string_of_uint.
  destruct (Z.to_int n) as [d | d].
  - destruct d; try apply string_of_uint_numeric.
    constructor; [left; cbv; split; discriminate | constructor].
  - change (Forall numeric (45%N :: lit
      match d with Decimal.Nil => "0"%string | _ => NilEmpty.string_of_uint d end)).
    constructor; [right; reflexivity|].
    destruct d; try apply string_of_uint_numeric.
    constructor; [left; cbv; split; discriminate | constructor].
Qed.

Lemma numeric_not_brace (c : char) : numeric c -> is_brace c = false.
Proof.
  unfold numeric, is_brace. intros H.
  apply orb_false_iff; split; apply N.eqb_neq; lia.
Qed.

Lemma str_of_Z_plain (n : Z) : plain (str_of_Z n) = true.
Proof.
  unfold plain. apply forallb_forall. intros c Hc.
  pose proof (str_of_Z_numeric n) as F. rewrite Forall_forall in F.
  rewrite (numeric_not_brace c (F c Hc)). reflexivity.
Qed.

End PyStrFacts.
Import PyStrFacts.

(** * Substitution on well-formed templates *)

Module TemplateFacts.

Lemma opens_hole (name : str) : opens (hole name).
Proof. eexists. reflexivity. Qed.

Lemma closes_hole (name : str) : closes (hole name).
Proof.
  exists (lit "{{" ++ name ++ [125%N]). unfold hole.
  rewrite <- !app_assoc. reflexivity.
Qed.

Lemma hole_not_nil (name : str) : hole name <> [].
Proof. discriminate. Qed.

(** Text without an opening brace is copied by the scan. *)
Lemma replace_skip_text (old new s r : str) :
  opens old -> ~ In 123%N s ->
  replace old new (s ++ r) = s ++ replace old new r.
Proof.
  intros [m ->] Hs. induction s as [|c s IH]; [reflexivity|].
  simpl app. rewrite replace_keep.
  - f_equal. apply IH. intros H. apply Hs. right; exact H.
  - discriminate.
  - apply startswith_head. intros <-. apply Hs. left; reflexivity.
Qed.

Lemma startswith_name (n m x y : str) :
  plain n = true -> plain m = true ->
  startswith (n ++ 125%N :: x) (m ++ 125%N :: y) = true -> m = n.
Proof.
  revert m. induction n as [|c n IH]; intros [|d m] Hn Hm H.
  - reflexivity.
  - cbn [app startswith] in H. apply andb_true_iff in H as [H _].
    apply char_eqb_eq in H.
    subst d. exfalso. apply (plain_no_close _ Hm). left; reflexivity.
  - cbn [app startswith] in H. apply andb_true_iff in H as [H _].
    apply char_eqb_eq in H.
    subst c. exfalso. apply (plain_no_close _ Hn). left; reflexivity.
  - cbn [app startswith] in H. apply andb_true_iff in H as [H1 H2].
    apply char_eqb_eq in H1.
    subst d. f_equal. cbn [plain forallb] in Hn, Hm.
    apply andb_true_iff in Hn as [_ Hn]. apply andb_true_iff in Hm as [_ Hm].
    apply IH; assumption.
Qed.

Lemma startswith_hole (n m r : str) :
  plain n = true -> plain m = true -> m <> n ->
  startswith (hole n) (hole m ++ r) = false.
Proof.
  intros Hn Hm Hne. destruct (startswith (hole n) (hole m ++ r)) eqn:E; [|reflexivity].
  exfalso. apply Hne. unfold hole in E. rewrite <- !app_assoc in E.
  simpl in E. apply (startswith_name n m [125%N] (125%N :: r)); assumption.
Qed.

Lemma plain_head_not_open (m x : str) :
  plain m = true -> startswith [123%N] (m ++ 125%N :: x) = false.
Proof.
  intros Hm. destruct m as [|c m]; [reflexivity|].
  cbn [app startswith]. destruct (char_eqb 123%N c) eqn:E; [|reflexivity].
  apply char_eqb_eq in E. subst c. exfalso.
  apply (plain_no_open _ Hm). left; reflexivity.
Qed.

Lemma hole_app (m r : str) :
  hole m ++ r = 123%N :: 123%N :: m ++ 125%N :: 125%N :: r.
Proof. unfold hole. rewrite <- !app_assoc. reflexivity. Qed.

(** A placeholder of another name is copied by the scan. *)
Lemma replace_skip_hole (n m new r : str) :
  plain n = true -> plain m = true -> m <> n ->
  replace (hole n) new (hole m ++ r) = hole m ++ replace (hole n) new r.
Proof.
  intros Hn Hm Hne.
  pose proof (startswith_hole n m r Hn Hm Hne) as E0.
  rewrite !hole_app in *.
  rewrite replace_keep by (assumption || apply hole_not_nil). f_equal.
  rewrite replace_keep; [f_equal | apply hole_not_nil |].
  - change (m ++ 125%N :: 125%N :: r) with (m ++ [125%N; 125%N] ++ r).
    change (m ++ 125%N :: 125%N :: replace (hole n) new r)
      with (m ++ [125%N; 125%N] ++ replace (hole n) new r).
    rewrite !app_assoc. apply replace_skip_text; [apply opens_hole|].
    intros H. apply in_app_or in H as [H | H].
    + exact (plain_no_open _ Hm H).
    + simpl in H. destruct H as [H | [H | []]]; discriminate.
  - pose proof (plain_head_not_open m (125%N :: r) Hm) as P.
    change (hole n) with (123%N :: 123%N :: n ++ lit "}}").
    destruct (m ++ 125%N :: 125%N :: r) as [|c x] eqn:Ex; [reflexivity|].
    cbn [startswith] in *. rewrite char_eqb_refl.
    destruct (char_eqb 123%N c); [discriminate | reflexivity].
Qed.

(** One replacement on a well-formed template, token by token: the value
    is inserted for every placeholder of that name and nothing else changes. *)
Lemma replace_render_raw (name value : str) (ts : list token) :
  plain name = true -> well_formed ts = true ->
  replace (hole name) value (render ts) =
  flat_map (fun t => match t with
                     | Text s => s
                     | Hole n => if str_eqb n name then value else hole n
                     end) ts.
Proof.
  intros Hn. induction ts as [|t ts IH]; intros Hwf.
  - apply replace_nil, hole_not_nil.
  - cbn [well_formed forallb] in Hwf. apply andb_true_iff in Hwf as [Ht Hts].
    change (render (t :: ts)) with (render_token t ++ render ts).
    cbn [flat_map]. destruct t as [s | m]; cbn [token_ok render_token] in *.
    + rewrite replace_skip_text; [| apply opens_hole | apply plain_no_open, Ht].
      rewrite IH by assumption. reflexivity.
    + destruct (str_eqb m name) eqn:E.
      * apply str_eqb_eq in E. subst m.
        rewrite replace_match by apply hole_not_nil.
        rewrite IH by assumption. reflexivity.
      * apply str_eqb_neq in E.
        rewrite replace_skip_hole by assumption.
        rewrite IH by assumption. reflexivity.
Qed.

Lemma render_subst1 (name value : str) (ts : list token) :
  flat_map (fun t => match t with
                     | Text s => s
                     | Hole n => if str_eqb n name then value else hole n
                     end) ts = render (map (subst1 name value) ts).
Proof.
  induction ts as [|t ts IH]; [reflexivity|].
  simpl. rewrite IH. f_equal. destruct t as [s | n]; [reflexivity|].
  simpl. destruct (str_eqb n name); reflexivity.
Qed.

Lemma replace_render (name value : str) (ts : list token) :
  plain name = true -> well_formed ts = true ->
  replace (hole name) value (render ts) = render (map (subst1 name value) ts).
Proof.
  intros Hn Hwf. rewrite replace_render_raw by assumption. apply render_subst1.
Qed.

Lemma well_formed_subst1 (name value : str) (ts : list token) :
  plain value = true -> well_formed ts = true ->
  well_formed (map (subst1 name value) ts) = true.
Proof.
  intros Hv. induction ts as [|t ts IH]; [reflexivity|].
  simpl. intros H. apply andb_true_iff in H as [Ht Hts].
  rewrite IH by assumption. rewrite andb_true_r.
  destruct t as [s | n]; [exact Ht|]. simpl. destruct (str_eqb n name); assumption.
Qed.

Lemma subst_all_cons (name value : str) (bs : list (str * str)) (t : token) :
  subst_all bs (subst1 name value t) = subst_all ((name, value) :: bs) t.
Proof.
  destruct t as [s | n]; [reflexivity|].
  simpl. destruct (str_eqb n name); reflexivity.
Qed.

(** A run of replacements on a well-formed template is one simultaneous
    substitution, the first binding of a name deciding. *)
Lemma fold_replace_render (bs : list (str * str)) (ts : list token) :
  forallb binding_ok bs = true -> well_formed ts = true ->
  fold_left (fun c b => replace (hole (fst b)) (snd b) c) bs (render ts) =
  render (map (subst_all bs) ts).
Proof.
  revert ts. induction bs as [|[n v] bs IH]; intros ts Hb Hwf.
  - simpl. f_equal. induction ts as [|[s | m] ts IHts]; simpl; f_equal;
      simpl in Hwf; apply andb_true_iff in Hwf as [_ Hwf]; auto.
  - simpl in Hb. apply andb_true_iff in Hb as [Hnv Hb].
    unfold binding_ok in Hnv. simpl in Hnv. apply andb_true_iff in Hnv as [Hn Hv].
    cbn [fold_left fst snd]. rewrite replace_render by assumption.
    rewrite IH by (try assumption; apply well_formed_subst1; assumption).
    rewrite map_map. f_equal. apply map_ext. intros t. apply subst_all_cons.
Qed.

Lemma well_formed_subst_all (bs : list (str * str)) (ts : list token) :
  forallb binding_ok bs = true -> well_formed ts = true ->
  well_formed (map (subst_all bs) ts) = true.
Proof.
  intros Hb. induction ts as [|t ts IH]; [reflexivity|].
  simpl. intros H. apply andb_true_iff in H as [Ht Hts].
  rewrite IH by assumption. rewrite andb_true_r.
  destruct t as [s | n]; [exact Ht|]. simpl.
  destruct (assoc n bs) as [v|] eqn:E; [|exact Ht]. simpl.
  clear -Hb E. induction bs as [|[k w] bs IHb]; [discriminate|].
  simpl in Hb, E. apply andb_true_iff in Hb as [Hkw Hb].
  destruct (str_eqb n k).
  - injection E as <-. unfold binding_ok in Hkw. simpl in Hkw.
    now apply andb_true_iff in Hkw as [_ ?].
  - auto.
Qed.

End TemplateFacts.
Import TemplateFacts.

(** * The template filler *)

Lemma bind_ok_inv {A B : Type} (m : result A) (k : A -> result B) (b : B) :
  bind m k = ok b -> exists a, m = ok a /\ k a = ok b.
Proof. destruct m as [e | a]; [discriminate|]. intros H. exists a. auto. Qed.

Lemma bind_raise {A B : Type} (m : result A) (k : A -> result B) (e : exn) :
  m = raise e -> bind m k = raise e.
Proof. intros ->. reflexivity. Qed.

Lemma ok_inj {A : Type} (a b : A) : ok a = ok b -> a = b.
Proof. intros H. injection H as H. exact H. Qed.

Lemma ok_inj_some {A : Type} (a b : A) : Some a = Some b -> a = b.
Proof. intros H. injection H as H. exact H. Qed.

Ltac bind_inv H :=
  let a := fresh "a" in
  let Ha := fresh "Ha" in
  apply bind_ok_inv in H as (a & Ha & H).

Lemma range_1_5 : range 1 5 = [1; 2; 3; 4].
Proof. reflexivity. Qed.

Lemma option_ph_hole (qnum i : Z) : option_ph qnum i = hole (option_name qnum i).
Proof.
  unfold option_ph, hole, option_name. rewrite <- !app_assoc. reflexivity.
Qed.

Lemma option_name_plain (qnum i : Z) : plain (option_name qnum i) = true.
Proof.
  unfold option_name. rewrite !plain_app, !str_of_Z_plain. reflexivity.
Qed.

Lemma option_value_plain (k i : Z) : plain (option_value k i) = true.
Proof. unfold option_value. destruct (i - 1 =? k); reflexivity. Qed.

Lemma slot_cases (i : Z) : 1 <= i <= 4 -> i = 1 \/ i = 2 \/ i = 3 \/ i = 4.
Proof. lia. Qed.

Lemma option_name_eqb (qnum i j : Z) :
  1 <= i <= 4 -> 1 <= j <= 4 ->
  str_eqb (option_name qnum i) (option_name qnum j) = (i =? j).
Proof.
  intros Hi Hj. destruct (i =? j) eqn:E.
  - apply Z.eqb_eq in E. subst j. apply str_eqb_refl.
  - apply str_eqb_neq. intros H. apply Z.eqb_neq in E. apply E.
    unfold option_name in H. apply app_inv_head in H. apply app_inv_head in H.
    apply slot_cases in Hi, Hj.
    destruct Hi as [-> | [-> | [-> | ->]]], Hj as [-> | [-> | [-> | ->]]];
      first [reflexivity | discriminate H].
Qed.

Lemma option_bindings_ok (qnum k : Z) :
  forallb binding_ok (option_bindings qnum k) = true.
Proof.
  unfold option_bindings. rewrite range_1_5. cbn [map forallb].
  unfold binding_ok. cbn [fst snd].
  rewrite !option_name_plain, !option_value_plain. reflexivity.
Qed.

Lemma markRight_unfold (content : str) (qnum : Z) (v : json) :
  markRight content qnum v =
  fold_left (fun c b => replace (hole (fst b)) (snd b) c)
    (map (fun i => (option_name qnum i,
                    if py_eq_int (i - 1) v then lit "true" else lit "false"))
         (range 1 5)) content.
Proof.
  unfold markRight. rewrite range_1_5. cbn [fold_left map fst snd].
  rewrite !option_ph_hole. reflexivity.
Qed.

Lemma assoc_option (qnum k i : Z) :
  1 <= i <= 4 ->
  assoc (option_name qnum i) (option_bindings qnum k) = Some (option_value k i).
Proof.
  intros Hi. unfold option_bindings. rewrite range_1_5. cbn [map assoc].
  rewrite !option_name_eqb by lia.
  apply slot_cases in Hi. destruct Hi as [-> | [-> | [-> | ->]]]; reflexivity.
Qed.

(** The characters of an Option placeholder. *)
Lemma option_ph_chars (qnum i : Z) (c : char) :
  In c (option_ph qnum i) -> In c (lit "{{Option_}}") \/ numeric c.
Proof.
  unfold option_ph. intros H.
  pose proof (str_of_Z_numeric qnum) as Fq. pose proof (str_of_Z_numeric i) as Fi.
  rewrite Forall_forall in Fq, Fi.
  apply in_app_or in H as [H | H].
  - left. cbv in H |- *. tauto.
  - apply in_app_or in H as [H | H]; [right; auto|].
    apply in_app_or in H as [H | H]; [right; auto|].
    left. cbv in H |- *. tauto.
Qed.

Lemma option_value_not_in_ph (qnum k i j : Z) :
  ~ occurs (option_value k j) (option_ph qnum i).
Proof.
  intros H. unfold option_value in H.
  assert (exists c, In c (option_value k j) /\ ~ In c (lit "{{Option_}}") /\ ~ numeric c)
    as (c & Hc & Hn1 & Hn2).
  { unfold option_value. destruct (j - 1 =? k).
    - exists 114%N. split; [cbv; tauto|]. split.
      + cbv. intros X. repeat (destruct X as [X | X]; [discriminate X|]). exact X.
      + unfold numeric. lia.
    - exists 102%N. split; [cbv; tauto|]. split.
      + cbv. intros X. repeat (destruct X as [X | X]; [discriminate X|]). exact X.
      + unfold numeric. lia. }
  apply (occurs_In _ _ c) in H; [|exact Hc].
  apply option_ph_chars in H. tauto.
Qed.

(** After [markRight] none of the four Option placeholders of the question
    is left, whatever the content was. *)
Lemma markRight_clears (content : str) (qnum k i : Z) :
  1 <= i <= 4 -> ~ occurs (option_ph qnum i) (markRight content qnum (JInt k)).
Proof.
  intros Hi. unfold markRight. rewrite range_1_5. cbn [fold_left py_eq_int].
  fold (option_value k 1) (option_value k 2) (option_value k 3) (option_value k 4).
  assert (forall j s, ~ occurs (option_ph qnum i) s ->
            ~ occurs (option_ph qnum i)
                (replace (option_ph qnum j) (option_value k j) s)) as Keep.
  { intros j s Hs. apply replace_keeps_absent; try assumption.
    - rewrite option_ph_hole. apply hole_not_nil.
    - apply option_value_plain.
    - apply option_value_not_in_ph.
    - rewrite option_ph_hole. apply opens_hole.
    - rewrite option_ph_hole. apply closes_hole. }
  assert (forall s, ~ occurs (option_ph qnum i)
            (replace (option_ph qnum i) (option_value k i) s)) as Kill.
  { intros s. apply replace_removes.
    - apply option_value_plain.
    - apply option_value_not_in_ph.
    - rewrite option_ph_hole. apply opens_hole.
    - rewrite option_ph_hole. apply closes_hole. }
  apply slot_cases in Hi. destruct Hi as [-> | [-> | [-> | ->]]].
  - apply Keep, Keep, Keep, Kill.
  - apply Keep, Keep, Kill.
  - apply Keep, Kill.
  - apply Kill.
Qed.

Lemma markRight_render (qnum k : Z) (ts : list token) :
  well_formed ts = true ->
  markRight (render ts) qnum (JInt k) =
  render (map (subst_all (option_bindings qnum k)) ts).
Proof.
  intros Hwf. rewrite markRight_unfold.
  change (map _ (range 1 5)) with (option_bindings qnum k).
  apply fold_replace_render; [apply option_bindings_ok | exact Hwf].
Qed.

Lemma fill_question_markRight (content : str) (qnum : Z) (q cv : json) (c' : str) :
  py_getitem q (lit "CORRECT") = ok cv ->
  fill_question content (qnum, q) = ok c' ->
  exists c2, c' = markRight c2 qnum cv.
Proof.
  intros Hc H. unfold fill_question in H.
  bind_inv H. bind_inv H. bind_inv H. bind_inv H. bind_inv H. bind_inv H.
  rewrite Hc in Ha4. injection Ha4 as <-. injection H as <-.
  eexists. reflexivity.
Qed.

(** ** The loop over the answers *)

Lemma answer_ph_hole (qnum anum : Z) :
  answer_ph qnum (Z.to_N (64 + anum)) = hole (answer_name qnum anum).
Proof.
  unfold answer_ph, hole, answer_name. rewrite <- !app_assoc. reflexivity.
Qed.

Lemma chr_ok (n : Z) : 0 <= n < 1114112 -> chr n = Some (Z.to_N n).
Proof.
  intros H. unfold chr.
  replace (0 <=? n) with true by (symmetry; apply Z.leb_le; lia).
  replace (n <? 1114112) with true by (symmetry; apply Z.ltb_lt; lia).
  reflexivity.
Qed.

(** The loop over the answers is the run of its replacements, as long as
    [chr] accepts every letter. *)
Lemma fill_answers_fold (qnum : Z) (answers : list str) (start : Z) (c : str) :
  -64 <= start -> start + Z.of_nat (List.length answers) <= 1114048 ->
  foldM (fill_answer qnum) (enumerate (map JStr answers) start) c =
  ok (fold_left (fun c b => replace (hole (fst b)) (snd b) c)
        (map (fun it => (answer_name qnum (fst it), snd it))
             (enumerate answers start)) c).
Proof.
  revert start c. induction answers as [|a answers IH]; intros start c H1 H2.
  - reflexivity.
  - cbn [List.length] in H2. cbn [map enumerate foldM fold_left fst snd].
    unfold fill_answer at 1. rewrite chr_ok by lia. cbn [as_str bind ok].
    rewrite answer_ph_hole. apply IH; lia.
Qed.

Lemma answer_name_eqb (qnum i j : Z) :
  -64 <= i -> -64 <= j ->
  str_eqb (answer_name qnum i) (answer_name qnum j) = (i =? j).
Proof.
  intros Hi Hj. destruct (i =? j) eqn:E.
  - apply Z.eqb_eq in E. subst j. apply str_eqb_refl.
  - apply str_eqb_neq. intros H. apply Z.eqb_neq in E. apply E.
    unfold answer_name in H. apply app_inv_head in H. apply app_inv_head in H.
    assert (Z.to_N (64 + i) = Z.to_N (64 + j)) as H' by congruence.
    apply Z2N.inj in H'; lia.
Qed.

Lemma assoc_answer (qnum : Z) (answers : list str) (start anum : Z) :
  -64 <= start -> -64 <= anum ->
  assoc (answer_name qnum anum)
    (map (fun it => (answer_name qnum (fst it), snd it)) (enumerate answers start)) =
  if start <=? anum then nth_error answers (Z.to_nat (anum - start)) else None.
Proof.
  revert start. induction answers as [|a answers IH]; intros start Hs Ha.
  - cbn. destruct (start <=? anum); [|reflexivity].
    destruct (Z.to_nat (anum - start)); reflexivity.
  - cbn [enumerate map assoc fst snd]. rewrite answer_name_eqb by lia.
    destruct (anum =? start) eqn:E.
    + apply Z.eqb_eq in E. subst anum. rewrite Z.leb_refl, Z.sub_diag. reflexivity.
    + apply Z.eqb_neq in E. rewrite IH by lia.
      destruct (start <=? anum) eqn:L.
      * apply Z.leb_le in L.
        replace (start + 1 <=? anum) with true by (symmetry; apply Z.leb_le; lia).
        replace (Z.to_nat (anum - start)) with (S (Z.to_nat (anum - (start + 1))))
          by lia.
        reflexivity.
      * apply Z.leb_gt in L.
        replace (start + 1 <=? anum) with false by (symmetry; apply Z.leb_gt; lia).
        reflexivity.
Qed.

Lemma answer_name_plain (qnum anum : Z) :
  1 <= anum <= 58 -> plain (answer_name qnum anum) = true.
Proof.
  intros H. unfold answer_name. rewrite !plain_app, str_of_Z_plain.
  cbn [plain forallb]. unfold is_brace.
  replace (Z.to_N (64 + anum) =? 123)%N with false
    by (symmetry; apply N.eqb_neq; lia).
  replace (Z.to_N (64 + anum) =? 125)%N with false
    by (symmetry; apply N.eqb_neq; lia).
  reflexivity.
Qed.

Lemma answer_bindings_ok (qnum : Z) (answers : list str) (start : Z) :
  1 <= start -> start + Z.of_nat (List.length answers) <= 59 ->
  forallb plain answers = true ->
  forallb binding_ok
    (map (fun it => (answer_name qnum (fst it), snd it)) (enumerate answers start))
  = true.
Proof.
  revert start. induction answers as [|a answers IH]; intros start H1 H2 Hp.
  - reflexivity.
  - cbn [List.length] in H2. cbn [forallb] in Hp.
    apply andb_true_iff in Hp as [Ha Hp].
    cbn [enumerate map forallb]. unfold binding_ok at 1. cbn [fst snd].
    rewrite answer_name_plain by lia. rewrite Ha. cbn [andb].
    apply IH; [lia | lia | exact Hp].
Qed.

Lemma subst_answer (qnum : Z) (answers : list str) (anum : Z) :
  1 <= anum ->
  subst_all (answer_bindings qnum answers) (Hole (answer_name qnum anum)) =
  match nth_error answers (Z.to_nat (anum - 1)) with
  | Some a => Text a
  | None => Hole (answer_name qnum anum)
  end.
Proof.
  intros H. cbn [subst_all]. unfold answer_bindings.
  rewrite assoc_answer by lia.
  replace (1 <=? anum) with true by (symmetry; apply Z.leb_le; lia).
  reflexivity.
Qed.

Lemma fill_content_unfold (template : str) (quiz : json) (title : str)
  (questions : list json) :
  py_getitem quiz (lit "TITLE") = ok (JStr title) ->
  (qv <- py_getitem quiz (lit "QUESTIONS") ;; py_iter qv) = ok questions ->
  fill_content template quiz =
  foldM fill_question (enumerate questions 1)
    (replace (lit "{{TITLE}}") title template).
Proof.
  intros Ht Hq. unfold fill_content. rewrite Ht. cbn [bind ok as_str].
  bind_inv Hq. rewrite Ha. cbn [bind ok]. rewrite Hq. reflexivity.
Qed.

(** ** The filler as one run of replacements *)

Lemma run_bindings_app (bs1 bs2 : list (str * str)) (c : str) :
  run_bindings (bs1 ++ bs2) c = run_bindings bs2 (run_bindings bs1 c).
Proof. apply fold_left_app. Qed.

Lemma question_ph_hole (qnum : Z) : question_ph qnum = hole (question_name qnum).
Proof.
  unfold question_ph, hole, question_name. rewrite <- !app_assoc. reflexivity.
Qed.

Lemma markRight_run (content : str) (qnum k : Z) :
  markRight content qnum (JInt k) = run_bindings (option_bindings qnum k) content.
Proof. apply markRight_unfold. Qed.

(** The body of the loop over the questions is the run of the bindings of
    the question, on any content. *)
Lemma fill_question_run (c : str) (qnum : Z) (q : json) (Q : Question) :
  reads_question q Q ->
  Z.of_nat (List.length (ANSWERS Q)) <= 1114047 ->
  fill_question c (qnum, q) = ok (run_bindings (question_bindings qnum Q) c).
Proof.
  intros (H1 & H2 & H3) Hlen. unfold fill_question.
  apply bind_ok_inv in H2 as (av & Hav & Hit).
  rewrite H1. cbn [bind ok as_str]. rewrite Hav. cbn [bind ok].
  rewrite Hit. cbn [bind ok]. unfold fill_answers.
  rewrite fill_answers_fold by lia. cbn [bind ok].
  rewrite H3. cbn [bind ok]. rewrite markRight_run.
  unfold question_bindings.
  change ((question_name qnum, QUESTION Q)
            :: answer_bindings qnum (ANSWERS Q) ++ option_bindings qnum (CORRECT Q))
    with ([(question_name qnum, QUESTION Q)]
            ++ answer_bindings qnum (ANSWERS Q) ++ option_bindings qnum (CORRECT Q)).
  rewrite !run_bindings_app. rewrite question_ph_hole. reflexivity.
Qed.

Lemma fill_questions_run (qjs : list json) (qs : list Question) :
  Forall2 reads_question qjs qs ->
  Forall (fun Q => Z.of_nat (List.length (ANSWERS Q)) <= 1114047) qs ->
  forall start c,
    foldM fill_question (enumerate qjs start) c =
    ok (run_bindings (questions_bindings qs start) c).
Proof.
  induction 1 as [|q Q qjs qs Hq HF IH]; intros Hs start c.
  - reflexivity.
  - inversion Hs as [|? ? HQ Hs']; subst.
    cbn [enumerate foldM questions_bindings].
    rewrite (fill_question_run c start q Q Hq HQ). cbn [bind ok].
    rewrite (IH Hs'). rewrite run_bindings_app. reflexivity.
Qed.

(** The filled quiz template is the template after the run of the bindings
    of the quiz, for every template. *)
Lemma fill_content_run (template : str) (quiz : json) (title : str)
  (qs : list Question) :
  reads_quiz quiz title qs ->
  Forall (fun Q => Z.of_nat (List.length (ANSWERS Q)) <= 1114047) qs ->
  fill_content template quiz = ok (run_bindings (quiz_bindings title qs) template).
Proof.
  intros (Ht & qjs & Hq & HF) Hs.
  rewrite (fill_content_unfold template quiz title qjs Ht Hq).
  rewrite (fill_questions_run qjs qs HF Hs). reflexivity.
Qed.

Lemma question_name_plain (qnum : Z) : plain (question_name qnum) = true.
Proof. unfold question_name. rewrite plain_app, str_of_Z_plain. reflexivity. Qed.

Lemma forallb_binding_ok_app (a b : list (str * str)) :
  forallb binding_ok (a ++ b) = forallb binding_ok a && forallb binding_ok b.
Proof. apply forallb_app. Qed.

Lemma question_plain_inv (Q : Question) :
  question_plain Q = true ->
  plain (QUESTION Q) = true /\ forallb plain (ANSWERS Q) = true /\
  (List.length (ANSWERS Q) <= 58)%nat.
Proof.
  unfold question_plain. intros H.
  apply andb_true_iff in H as [H H3]. apply andb_true_iff in H as [H1 H2].
  apply Nat.leb_le in H3. auto.
Qed.

Lemma question_bindings_ok (qnum : Z) (Q : Question) :
  question_plain Q = true -> forallb binding_ok (question_bindings qnum Q) = true.
Proof.
  intros H. apply question_plain_inv in H as (H1 & H2 & H3).
  unfold question_bindings. cbn [forallb]. unfold binding_ok at 1. cbn [fst snd].
  rewrite question_name_plain, H1. cbn [andb].
  rewrite forallb_binding_ok_app, option_bindings_ok, andb_true_r.
  unfold answer_bindings. apply answer_bindings_ok; [lia | lia | exact H2].
Qed.

Lemma questions_bindings_ok (qs : list Question) (start : Z) :
  forallb question_plain qs = true ->
  forallb binding_ok (questions_bindings qs start) = true.
Proof.
  revert start. induction qs as [|Q qs IH]; intros start H; [reflexivity|].
  cbn [forallb] in H. apply andb_true_iff in H as [HQ Hqs].
  cbn [questions_bindings]. rewrite forallb_binding_ok_app.
  rewrite (question_bindings_ok start Q HQ), (IH (start + 1) Hqs). reflexivity.
Qed.

Lemma questions_small (qs : list Question) :
  forallb question_plain qs = true ->
  Forall (fun Q => Z.of_nat (List.length (ANSWERS Q)) <= 1114047) qs.
Proof.
  rewrite forallb_forall. intros H. apply Forall_forall. intros Q HQ.
  apply H, question_plain_inv in HQ as (_ & _ & HQ). lia.
Qed.

(** On a well-formed template and a quiz of plain texts the filler is the
    simultaneous substitution of the bindings of the quiz. *)
Lemma fill_content_render (ts : list token) (quiz : json) (title : str)
  (qs : list Question) :
  well_formed ts = true ->
  reads_quiz quiz title qs ->
  plain title = true -> forallb question_plain qs = true ->
  fill_content (render ts) quiz =
  ok (render (map (subst_all (quiz_bindings title qs)) ts)).
Proof.
  intros Hwf Hr Ht Hq.
  rewrite (fill_content_run (render ts) quiz title qs Hr (questions_small qs Hq)).
  f_equal. apply fold_replace_render; [|exact Hwf].
  unfold quiz_bindings. cbn [forallb]. unfold binding_ok at 1. cbn [fst snd].
  rewrite Ht. cbn [plain forallb andb]. apply questions_bindings_ok, Hq.
Qed.

(** ** The bindings of a quiz, looked up by name *)

Lemma lit_inj (a b : string) : lit a = lit b -> a = b.
Proof.
  unfold lit. intros H.
  rewrite <- (string_of_list_ascii_of_string a), <- (string_of_list_ascii_of_string b).
  f_equal. revert H.
  generalize (list_ascii_of_string a) (list_ascii_of_string b).
  intros x. induction x as [|c x IH]; intros [|d y] H; try discriminate.
  - reflexivity.
  - cbn [map] in H. injection H as Hc Hx. f_equal; [|apply IH, Hx].
    rewrite <- (ascii_N_embedding c), <- (ascii_N_embedding d), Hc. reflexivity.
Qed.

Lemma str_of_Z_inj (a b : Z) : str_of_Z a = str_of_Z b -> a = b.
Proof.
  unfold str_of_Z. intros H. apply lit_inj in H.
  apply DecimalZ.to_int_inj.
  assert (forall z, Z.to_int z <> Decimal.Pos Decimal.Nil /\
                    Z.to_int z <> Decimal.Neg Decimal.Nil) as Hn.
  { intros [|p|p]; cbn; split; try discriminate;
      intros [= E]; exact (DecimalPos.Unsigned.to_uint_nonnil p E). }
  apply (f_equal NilZero.int_of_string) in H.
  rewrite !NilZero.isi in H by apply Hn.
  injection H as H. exact H.
Qed.

Lemma answer_name_inj (q m q' j : Z) :
  -64 <= m -> -64 <= j ->
  answer_name q m = answer_name q' j -> q = q' /\ m = j.
Proof.
  intros Hm Hj H. unfold answer_name in H. apply app_inv_head in H.
  apply app_inj_tail in H as [Hq Hl]. split.
  - apply str_of_Z_inj, Hq.
  - apply Z2N.inj in Hl; lia.
Qed.

Lemma str_of_slot (i : Z) :
  1 <= i <= 4 -> str_of_Z i = [Z.to_N (48 + i)].
Proof.
  intros H. apply slot_cases in H. destruct H as [-> | [-> | [-> | ->]]]; reflexivity.
Qed.

Lemma option_name_inj (q i q' j : Z) :
  1 <= i <= 4 -> 1 <= j <= 4 ->
  option_name q i = option_name q' j -> q = q' /\ i = j.
Proof.
  intros Hi Hj H. unfold option_name in H. apply app_inv_head in H.
  rewrite (str_of_slot i Hi), (str_of_slot j Hj) in H.
  apply app_inj_tail in H as [Hq Hl]. split.
  - apply str_of_Z_inj, Hq.
  - apply Z2N.inj in Hl; lia.
Qed.

Lemma assoc_app {V : Type} (n : str) (a b : list (str * V)) :
  assoc n (a ++ b) =
  match assoc n a with
  | Some v => Some v
  | None => assoc n b
  end.
Proof.
  induction a as [|[k v] a IH]; [reflexivity|].
  cbn [app assoc]. destruct (str_eqb n k); [reflexivity | exact IH].
Qed.

Lemma assoc_none {V : Type} (n : str) (bs : list (str * V)) :
  Forall (fun b => fst b <> n) bs -> assoc n bs = None.
Proof.
  induction 1 as [|[k v] bs Hk HF IH]; [reflexivity|].
  cbn [assoc]. cbn [fst] in Hk.
  destruct (str_eqb n k) eqn:E; [|exact IH].
  apply str_eqb_eq in E. congruence.
Qed.

Lemma answer_bindings_names (q : Z) (answers : list str) (start : Z) :
  Forall (fun b => exists j, start <= j /\ fst b = answer_name q j)
    (map (fun it => (answer_name q (fst it), snd it)) (enumerate answers start)).
Proof.
  revert start. induction answers as [|a answers IH]; intros start.
  - constructor.
  - cbn [enumerate map]. constructor.
    + exists start. split; [lia | reflexivity].
    + eapply Forall_impl; [|apply (IH (start + 1))].
      intros b (j & Hj & Hb). exists j. split; [lia | exact Hb].
Qed.

Lemma option_bindings_names (q k : Z) :
  Forall (fun b => exists i, 1 <= i <= 4 /\ fst b = option_name q i)
    (option_bindings q k).
Proof.
  unfold option_bindings. rewrite range_1_5. cbn [map].
  repeat constructor; cbn [fst]; eexists; (split; [|reflexivity]); lia.
Qed.

Lemma assoc_answer_in_question (q m start : Z) (Q : Question) :
  1 <= m ->
  assoc (answer_name q m) (question_bindings start Q) =
  if q =? start then nth_error (ANSWERS Q) (Z.to_nat (m - 1)) else None.
Proof.
  intros Hm. unfold question_bindings. cbn [assoc].
  replace (str_eqb (answer_name q m) (question_name start)) with false
    by (symmetry; apply str_eqb_neq; discriminate).
  rewrite assoc_app.
  rewrite (assoc_none _ (option_bindings start (CORRECT Q))).
  - destruct (q =? start) eqn:E.
    + apply Z.eqb_eq in E. subst start. unfold answer_bindings.
      rewrite assoc_answer by lia.
      replace (1 <=? m) with true by (symmetry; apply Z.leb_le; lia).
      destruct (nth_error _ _); reflexivity.
    + apply Z.eqb_neq in E. rewrite assoc_none; [reflexivity|].
      eapply Forall_impl; [|apply answer_bindings_names].
      intros b (j & Hj & Hb) H. rewrite Hb in H.
      apply answer_name_inj in H; lia.
  - eapply Forall_impl; [|apply option_bindings_names].
    intros b (i & Hi & Hb) H. rewrite Hb in H. discriminate H.
Qed.

Lemma assoc_option_in_question (q i start : Z) (Q : Question) :
  1 <= i <= 4 ->
  assoc (option_name q i) (question_bindings start Q) =
  if q =? start then Some (option_value (CORRECT Q) i) else None.
Proof.
  intros Hi. unfold question_bindings. cbn [assoc].
  replace (str_eqb (option_name q i) (question_name start)) with false
    by (symmetry; apply str_eqb_neq; discriminate).
  rewrite assoc_app.
  rewrite (assoc_none _ (answer_bindings start (ANSWERS Q))).
  - destruct (q =? start) eqn:E.
    + apply Z.eqb_eq in E. subst start. apply assoc_option, Hi.
    + apply Z.eqb_neq in E. apply assoc_none.
      eapply Forall_impl; [|apply option_bindings_names].
      intros b (j & Hj & Hb) H. rewrite Hb in H.
      apply option_name_inj in H; lia.
  - eapply Forall_impl; [|apply answer_bindings_names].
    intros b (j & Hj & Hb) H. rewrite Hb in H. discriminate H.
Qed.

(** The binding of a name that belongs to question [q] is the one that
    question [q] contributes. *)
Lemma assoc_in_questions (n : str) (q : Z) (f : Question -> option str)
  (qs : list Question) (start : Z) :
  (forall s Q, assoc n (question_bindings s Q) = if q =? s then f Q else None) ->
  assoc n (questions_bindings qs start) =
  if start <=? q
  then match nth_error qs (Z.to_nat (q - start)) with
       | Some Q => f Q
       | None => None
       end
  else None.
Proof.
  intros Hn. revert start. induction qs as [|Q qs IH]; intros start.
  - cbn [questions_bindings assoc]. destruct (start <=? q); [|reflexivity].
    destruct (Z.to_nat (q - start)); reflexivity.
  - cbn [questions_bindings]. rewrite assoc_app, Hn, IH.
    destruct (q =? start) eqn:E.
    + apply Z.eqb_eq in E. subst start. rewrite Z.leb_refl, Z.sub_diag.
      cbn [Z.to_nat nth_error].
      replace (q + 1 <=? q) with false by (symmetry; apply Z.leb_gt; lia).
      destruct (f Q); reflexivity.
    + apply Z.eqb_neq in E. destruct (start <=? q) eqn:L.
      * apply Z.leb_le in L.
        replace (start + 1 <=? q) with true by (symmetry; apply Z.leb_le; lia).
        replace (Z.to_nat (q - start)) with (S (Z.to_nat (q - (start + 1)))) by lia.
        reflexivity.
      * apply Z.leb_gt in L.
        replace (start + 1 <=? q) with false by (symmetry; apply Z.leb_gt; lia).
        reflexivity.
Qed.

Lemma quiz_binding_of_answer (title : str) (qs : list Question) (q m : Z)
  (Q : Question) :
  1 <= q -> 1 <= m -> nth_error qs (Z.to_nat (q - 1)) = Some Q ->
  subst_all (quiz_bindings title qs) (Hole (answer_name q m)) =
  match nth_error (ANSWERS Q) (Z.to_nat (m - 1)) with
  | Some a => Text a
  | None => Hole (answer_name q m)
  end.
Proof.
  intros Hq Hm HQ. cbn [subst_all]. unfold quiz_bindings. cbn [assoc].
  replace (str_eqb (answer_name q m) (lit "TITLE")) with false
    by (symmetry; apply str_eqb_neq; discriminate).
  rewrite (assoc_in_questions _ q
             (fun Q => nth_error (ANSWERS Q) (Z.to_nat (m - 1))))
    by (intros s Q'; apply assoc_answer_in_question; exact Hm).
  replace (1 <=? q) with true by (symmetry; apply Z.leb_le; lia).
  rewrite HQ. reflexivity.
Qed.

Lemma quiz_binding_of_option (title : str) (qs : list Question) (q i : Z)
  (Q : Question) :
  1 <= q -> 1 <= i <= 4 -> nth_error qs (Z.to_nat (q - 1)) = Some Q ->
  subst_all (quiz_bindings title qs) (Hole (option_name q i)) =
  Text (option_value (CORRECT Q) i).
Proof.
  intros Hq Hi HQ. cbn [subst_all]. unfold quiz_bindings. cbn [assoc].
  replace (str_eqb (option_name q i) (lit "TITLE")) with false
    by (symmetry; apply str_eqb_neq; discriminate).
  rewrite (assoc_in_questions _ q (fun Q => Some (option_value (CORRECT Q) i)))
    by (intros s Q'; apply assoc_option_in_question; exact Hi).
  replace (1 <=? q) with true by (symmetry; apply Z.leb_le; lia).
  rewrite HQ. reflexivity.
Qed.

(** ** The filler on the placeholders of a question *)

(** C1.  For a question at position [qnum] whose [CORRECT] is [k] with
    [0 <= k <= 3], [markRight] resolves the four placeholders
    [{{Option_<qnum>1}}] .. [{{Option_<qnum>4}}]: on a well-formed template it
    is the token-wise substitution in which slot [k+1] becomes ["true"] and
    the three other slots become ["false"], every other token staying as it
    is; on any content whatever none of the four placeholders is left; the
    filler applies it to every question, however many answers the question
    has; and in the filled template of a quiz of plain texts the four
    placeholders of the question read ["true"] at slot [k+1] and ["false"]
    at the three other slots. *)
Theorem markRight_resolves_options (qnum k : Z) :
  0 <= k <= 3 ->
  (forall ts, well_formed ts = true ->
     markRight (render ts) qnum (JInt k) =
     render (map (subst_all (option_bindings qnum k)) ts)) /\
  subst_all (option_bindings qnum k) (Hole (option_name qnum (k + 1))) =
    Text (lit "true") /\
  (forall i, 1 <= i <= 4 -> i <> k + 1 ->
     subst_all (option_bindings qnum k) (Hole (option_name qnum i)) =
     Text (lit "false")) /\
  (forall s, subst_all (option_bindings qnum k) (Text s) = Text s) /\
  (forall n, (forall i, 1 <= i <= 4 -> n <> option_name qnum i) ->
     subst_all (option_bindings qnum k) (Hole n) = Hole n) /\
  (forall content i, 1 <= i <= 4 ->
     ~ occurs (option_ph qnum i) (markRight content qnum (JInt k))) /\
  (forall content q c',
     py_getitem q (lit "CORRECT") = ok (JInt k) ->
     fill_question content (qnum, q) = ok c' ->
     forall i, 1 <= i <= 4 -> ~ occurs (option_ph qnum i) c') /\
  (forall ts quiz title qs Q,
     well_formed ts = true -> reads_quiz quiz title qs ->
     plain title = true -> forallb question_plain qs = true ->
     1 <= qnum -> nth_error qs (Z.to_nat (qnum - 1)) = Some Q ->
     CORRECT Q = k ->
     fill_content (render ts) quiz =
       ok (render (map (subst_all (quiz_bindings title qs)) ts)) /\
     subst_all (quiz_bindings title qs) (Hole (option_name qnum (k + 1))) =
       Text (lit "true") /\
     forall i, 1 <= i <= 4 -> i <> k + 1 ->
       subst_all (quiz_bindings title qs) (Hole (option_name qnum i)) =
       Text (lit "false")).
Proof.
  intros Hk.
  assert (option_value k (k + 1) = lit "true") as Vt.
  { unfold option_value.
    replace (k + 1 - 1 =? k) with true by (symmetry; apply Z.eqb_eq; lia).
    reflexivity. }
  assert (forall i, i <> k + 1 -> option_value k i = lit "false") as Vf.
  { intros i Hi. unfold option_value.
    replace (i - 1 =? k) with false by (symmetry; apply Z.eqb_neq; lia).
    reflexivity. }
  repeat split.
  - intros ts. apply markRight_render.
  - cbn [subst_all]. rewrite assoc_option by lia. unfold option_value.
    replace (k + 1 - 1 =? k) with true by (symmetry; apply Z.eqb_eq; lia).
    reflexivity.
  - intros i Hi Hne. cbn [subst_all]. rewrite assoc_option by lia.
    unfold option_value.
    replace (i - 1 =? k) with false by (symmetry; apply Z.eqb_neq; lia).
    reflexivity.
  - intros n Hn. cbn [subst_all]. unfold option_bindings. rewrite range_1_5.
    cbn [map assoc].
    repeat match goal with
    | |- context [str_eqb n (option_name qnum ?i)] =>
        let E := fresh "E" in
        destruct (str_eqb n (option_name qnum i)) eqn:E;
        [apply str_eqb_eq in E; exfalso; apply (Hn i); [lia | exact E] |]
    end.
    reflexivity.
  - intros content i Hi. apply markRight_clears. exact Hi.
  - intros content q c' Hc H i Hi.
    destruct (fill_question_markRight content qnum q (JInt k) c' Hc H) as [c2 ->].
    apply markRight_clears. exact Hi.
  - apply fill_content_render; assumption.
  - rewrite (quiz_binding_of_option title qs qnum (k + 1) Q) by (assumption || lia).
    subst k. rewrite Vt. reflexivity.
  - intros i Hi Hne.
    rewrite (quiz_binding_of_option title qs qnum i Q) by (assumption || lia).
    subst k. rewrite (Vf i Hne). reflexivity.
Qed.

Lemma markRight_resolves_options_witness :
  0 <= 1 <= 3 /\
  subst_all (option_bindings 1 1) (Hole (option_name 1 2)) = Text (lit "true").
Proof.
  split; [lia|].
  exact (proj1 (proj2 (markRight_resolves_options 1 1 ltac:(lia)))).
Defined.

(** C4.  The loop over the answers of the question at position [qnum]
    replaces, for every answer at 1-based position [anum], the placeholder
    [{{ANSWER_<qnum><letter>}}] with [letter = chr(ord('A') + anum - 1)] by
    the answer text, and replaces nothing else: on a well-formed template
    the placeholder of a present slot becomes the answer text, and the
    placeholder of an absent slot (such as [{{ANSWER_<qnum>D}}] for three
    answers) and every other token stay as they are; and so it is in the
    filled template of a whole quiz of plain texts. *)
Theorem answers_fill_present_slots (qnum : Z) (answers : list str) :
  (List.length answers <= 58)%nat ->
  (forall content,
     fill_answers content qnum (map JStr answers) =
     ok (run_bindings (answer_bindings qnum answers) content)) /\
  (forall anum, hole (answer_name qnum anum) =
     lit "{{ANSWER_" ++ str_of_Z qnum ++ [Z.to_N (65 + anum - 1)] ++ lit "}}") /\
  (forall ts, forallb plain answers = true -> well_formed ts = true ->
     fill_answers (render ts) qnum (map JStr answers) =
     ok (render (map (subst_all (answer_bindings qnum answers)) ts))) /\
  (forall anum a, 1 <= anum ->
     nth_error answers (Z.to_nat (anum - 1)) = Some a ->
     subst_all (answer_bindings qnum answers) (Hole (answer_name qnum anum)) =
     Text a) /\
  (forall anum, Z.of_nat (List.length answers) < anum ->
     subst_all (answer_bindings qnum answers) (Hole (answer_name qnum anum)) =
     Hole (answer_name qnum anum)) /\
  (forall n, (forall anum, 1 <= anum <= Z.of_nat (List.length answers) ->
                n <> answer_name qnum anum) ->
     subst_all (answer_bindings qnum answers) (Hole n) = Hole n) /\
  (forall s, subst_all (answer_bindings qnum answers) (Text s) = Text s) /\
  (forall ts quiz title qs Q,
     well_formed ts = true -> reads_quiz quiz title qs ->
     plain title = true -> forallb question_plain qs = true ->
     1 <= qnum -> nth_error qs (Z.to_nat (qnum - 1)) = Some Q ->
     ANSWERS Q = answers ->
     fill_content (render ts) quiz =
       ok (render (map (subst_all (quiz_bindings title qs)) ts)) /\
     forall anum, 1 <= anum ->
       subst_all (quiz_bindings title qs) (Hole (answer_name qnum anum)) =
       match nth_error answers (Z.to_nat (anum - 1)) with
       | Some a => Text a
       | None => Hole (answer_name qnum anum)
       end).
Proof.
  intros Hlen.
  assert (forall content,
     fill_answers content qnum (map JStr answers) =
     ok (run_bindings (answer_bindings qnum answers) content)) as Hfold.
  { intros content. unfold fill_answers, answer_bindings, run_bindings.
    apply fill_answers_fold; lia. }
  split; [exact Hfold|]. split.
  { intros anum. rewrite <- answer_ph_hole. unfold answer_ph.
    replace (65 + anum - 1) with (64 + anum) by lia. reflexivity. }
  split.
  { intros ts Hp Hwf. rewrite Hfold. f_equal. unfold run_bindings.
    apply fold_replace_render; [|exact Hwf].
    unfold answer_bindings. apply answer_bindings_ok; [lia | lia | exact Hp]. }
  split.
  { intros anum a Ha Hn. rewrite subst_answer by assumption. rewrite Hn.
    reflexivity. }
  split.
  { intros anum Ha. rewrite subst_answer by lia.
    replace (nth_error answers (Z.to_nat (anum - 1))) with (@None str);
      [reflexivity|].
    symmetry. apply nth_error_None. lia. }
  split; [|split; [reflexivity|]].
  2:{ intros ts quiz title qs Q Hwf Hr Ht Hq Hn HQ HA. split.
      - apply fill_content_render; assumption.
      - intros anum Ha. subst answers.
        apply quiz_binding_of_answer; assumption. }
  intros n Hn. cbn [subst_all]. unfold answer_bindings.
  assert (forall start, 1 <= start ->
            (forall anum, start <= anum < start + Z.of_nat (List.length answers) ->
               n <> answer_name qnum anum) ->
            assoc n (map (fun it => (answer_name qnum (fst it), snd it))
                       (enumerate answers start)) = None) as G.
  { clear. induction answers as [|a answers IH]; intros start Hs Hn.
    - reflexivity.
    - cbn [enumerate map assoc fst snd].
      destruct (str_eqb n (answer_name qnum start)) eqn:E.
      + apply str_eqb_eq in E. exfalso. apply (Hn start); [|exact E].
        cbn [List.length]. lia.
      + apply IH; [lia|]. intros anum Ha. apply Hn. cbn [List.length]. lia. }
  rewrite G; [reflexivity | lia |]. intros anum Ha. apply Hn. lia.
Qed.

Lemma answers_fill_present_slots_witness :
  (List.length [lit "3"; lit "4"; lit "5"] <= 58)%nat /\
  subst_all (answer_bindings 1 [lit "3"; lit "4"; lit "5"])
    (Hole (answer_name 1 4)) = Hole (answer_name 1 4).
Proof.
  split; [simpl; lia|].
  refine (proj1 (proj2 (proj2 (proj2 (proj2
    (answers_fill_present_slots 1 [lit "3"; lit "4"; lit "5"] _)))))
    4 _); simpl; lia.
Defined.

Example three_answers_leave_slot_D :
  fill_answers (lit "<a>{{ANSWER_1A}}</a><d>{{ANSWER_1D}}</d>") 1
    [JStr (lit "3"); JStr (lit "4"); JStr (lit "5")] =
  ok (lit "<a>3</a><d>{{ANSWER_1D}}</d>").
Proof. reflexivity. Qed.

(** ** Patterns that no inserted value can rebuild *)

Section KeepsAbsent.

Variable pat : str.
Hypothesis pat_opens : opens pat.
Hypothesis pat_closes : closes pat.
Hypothesis pat_true : ~ occurs (lit "true") pat.
Hypothesis pat_false : ~ occurs (lit "false") pat.






End KeepsAbsent.

(** ** The title *)

Lemma title_parts (template title : str) :
  join (lit "{{TITLE}}") (split (lit "{{TITLE}}") template) = template /\
  Forall (fun k => ~ occurs (lit "{{TITLE}}") k) (split (lit "{{TITLE}}") template) /\
  replace (lit "{{TITLE}}") title template =
    join title (split (lit "{{TITLE}}") template).
Proof.
  assert (lit "{{TITLE}}" <> []) as Hne by discriminate.
  split; [apply join_split; exact Hne|].
  split; [apply split_pieces_free; exact Hne|].
  apply replace_join_split; exact Hne.
Qed.


Lemma render_app (a b : list token) : render (a ++ b) = render a ++ render b.
Proof. apply flat_map_app. Qed.

Lemma render_splice (name : str) (value_ts ts : list token) :
  flat_map (fun t => match t with
                     | Text s => s
                     | Hole n => if str_eqb n name then render value_ts else hole n
                     end) ts = render (flat_map (splice name value_ts) ts).
Proof.
  induction ts as [|t ts IH]; [reflexivity|].
  cbn [flat_map]. rewrite render_app, IH. f_equal.
  destruct t as [s | n]; cbn [splice].
  - unfold render. cbn [flat_map render_token]. now rewrite app_nil_r.
  - destruct (str_eqb n name); [reflexivity|].
    unfold render. cbn [flat_map render_token]. now rewrite app_nil_r.
Qed.

(** *** Where a placeholder occurs in a rendered template *)








Section Title.

Context {R : PyRepr}.


End Title.

(** ** Values that hold placeholders *)

Lemma flat_map_flat_map {A B C : Type} (f : A -> list B) (g : B -> list C)
  (l : list A) :
  flat_map g (flat_map f l) = flat_map (fun x => flat_map g (f x)) l.
Proof.
  induction l as [|a l IH]; [reflexivity|].
  cbn [flat_map]. rewrite flat_map_app, IH. reflexivity.
Qed.

Lemma flat_map_single {A : Type} (l : list A) : flat_map (fun x => [x]) l = l.
Proof. induction l as [|a l IH]; [reflexivity|]. cbn [flat_map app]. now rewrite IH. Qed.

Lemma well_formed_splice (n : str) (us ts : list token) :
  well_formed us = true -> well_formed ts = true ->
  well_formed (flat_map (splice n us) ts) = true.
Proof.
  intros Hu. induction ts as [|t ts IH]; [reflexivity|].
  unfold well_formed in *. cbn [forallb flat_map]. intros H.
  apply andb_true_iff in H as [Ht Hts]. rewrite forallb_app, (IH Hts), andb_true_r.
  destruct t as [s | m]; cbn [splice].
  - cbn [forallb]. rewrite Ht. reflexivity.
  - destruct (str_eqb m n); [exact Hu|]. cbn [forallb]. rewrite Ht. reflexivity.
Qed.

(** A run of replacements whose values are template text is the token-wise
    resolution of the template. *)
Lemma run_rendered (bs : list (str * list token)) (ts : list token) :
  forallb tbinding_ok bs = true -> well_formed ts = true ->
  run_bindings (rendered bs) (render ts) = render (flat_map (resolve bs) ts).
Proof.
  revert ts. induction bs as [|[n us] bs IH]; intros ts Hb Hwf.
  - cbn [rendered map run_bindings fold_left resolve].
    now rewrite flat_map_single.
  - cbn [forallb] in Hb. apply andb_true_iff in Hb as [Hnu Hb].
    unfold tbinding_ok in Hnu. cbn [fst snd] in Hnu.
    apply andb_true_iff in Hnu as [Hn Hu].
    unfold rendered, run_bindings. cbn [map fold_left fst snd].
    rewrite replace_render_raw by assumption. rewrite render_splice.
    fold (rendered bs). fold (run_bindings (rendered bs)
      (render (flat_map (splice n us) ts))).
    rewrite IH by (try exact Hb; apply well_formed_splice; assumption).
    rewrite flat_map_flat_map. reflexivity.
Qed.

Lemma resolve_text (bs : list (str * list token)) (s : str) :
  resolve bs (Text s) = [Text s].
Proof.
  induction bs as [|[n us] bs IH]; [reflexivity|].
  cbn [resolve splice flat_map]. rewrite IH. reflexivity.
Qed.

Lemma resolve_unbound (bs : list (str * list token)) (m : str) :
  ~ In m (map fst bs) -> resolve bs (Hole m) = [Hole m].
Proof.
  induction bs as [|[n us] bs IH]; [reflexivity|]. intros H.
  cbn [resolve splice]. destruct (str_eqb m n) eqn:Em.
  - apply str_eqb_eq in Em. exfalso. apply H. left. symmetry. exact Em.
  - cbn [flat_map]. rewrite app_nil_r. apply IH.
    intros Hin. apply H. right. exact Hin.
Qed.

Lemma resolve_bound (pre post : list (str * list token)) (n : str)
  (us : list token) :
  ~ In n (map fst pre) ->
  resolve (pre ++ (n, us) :: post) (Hole n) = flat_map (resolve post) us.
Proof.
  induction pre as [|[m vs] pre IH]; intros H.
  - cbn [app resolve splice]. rewrite str_eqb_refl. reflexivity.
  - cbn [app resolve splice]. destruct (str_eqb n m) eqn:Em.
    + apply str_eqb_eq in Em. exfalso. apply H. left. symmetry. exact Em.
    + cbn [flat_map]. rewrite app_nil_r. apply IH.
      intros Hin. apply H. right. exact Hin.
Qed.

Lemma answer_names_plain (qnum : Z) (answers : list str) (start : Z) :
  1 <= start -> start + Z.of_nat (List.length answers) <= 59 ->
  forallb plain
    (map fst (map (fun it => (answer_name qnum (fst it), snd it))
                (enumerate answers start))) = true.
Proof.
  revert start. induction answers as [|a answers IH]; intros start H1 H2.
  - reflexivity.
  - cbn [List.length] in H2. cbn [enumerate map forallb fst].
    rewrite answer_name_plain by lia. apply IH; lia.
Qed.

Lemma question_names_plain (qnum : Z) (Q : Question) :
  (List.length (ANSWERS Q) <= 58)%nat ->
  forallb plain (map fst (question_bindings qnum Q)) = true.
Proof.
  intros H. unfold question_bindings. cbn [map forallb fst].
  rewrite question_name_plain, map_app, forallb_app.
  unfold answer_bindings. rewrite answer_names_plain by lia.
  unfold option_bindings. rewrite range_1_5. cbn [map forallb fst].
  rewrite !option_name_plain. reflexivity.
Qed.

Lemma questions_names_plain (qs : list Question) (start : Z) :
  Forall (fun Q => (List.length (ANSWERS Q) <= 58)%nat) qs ->
  forallb plain (map fst (questions_bindings qs start)) = true.
Proof.
  intros H. revert start. induction H as [|Q qs HQ _ IH]; intros start.
  - reflexivity.
  - cbn [questions_bindings]. rewrite map_app, forallb_app.
    rewrite (question_names_plain start Q HQ). apply IH.
Qed.

Lemma rendered_names (bs : list (str * list token)) :
  map fst (rendered bs) = map fst bs.
Proof. unfold rendered. rewrite map_map. reflexivity. Qed.

Lemma tbindings_ok (bs : list (str * list token)) :
  forallb plain (map fst bs) = true ->
  forallb (fun b => well_formed (snd b)) bs = true ->
  forallb tbinding_ok bs = true.
Proof.
  induction bs as [|b bs IH]; [reflexivity|].
  cbn [map forallb]. intros H1 H2.
  apply andb_true_iff in H1 as [Hn H1]. apply andb_true_iff in H2 as [Hv H2].
  unfold tbinding_ok at 1. rewrite Hn, Hv, (IH H1 H2). reflexivity.
Qed.

(** C3 (as amended).  The replacements of the filler run one after the
    other on one working copy, so that a value inserted by one step is
    scanned by every later step, and by no earlier one nor by the step
    itself.  On a well-formed template, when the values (the title, the
    question texts and the answers; [tbs] lists them as tokens, in the
    order of the steps) are themselves text with placeholders, the filled
    quiz template is the template in which every placeholder is resolved
    in this way: the placeholder of a step becomes the value of that step
    with the later steps applied to the placeholders inside the value (so
    the placeholders inside the title are resolved by all the steps of the
    questions); text, and a placeholder that no step names, stay as they
    are. *)
Theorem later_steps_scan_inserted_values (ts : list token) (quiz : json)
  (title : str) (qs : list Question) (tbs : list (str * list token)) :
  well_formed ts = true ->
  reads_quiz quiz title qs ->
  Forall (fun Q => (List.length (ANSWERS Q) <= 58)%nat) qs ->
  rendered tbs = quiz_bindings title qs ->
  forallb (fun b => well_formed (snd b)) tbs = true ->
  fill_content (render ts) quiz = ok (render (flat_map (resolve tbs) ts)) /\
  (exists title_ts rest,
     tbs = (lit "TITLE", title_ts) :: rest /\ render title_ts = title /\
     rendered rest = questions_bindings qs 1 /\
     resolve tbs (Hole (lit "TITLE")) = flat_map (resolve rest) title_ts) /\
  (forall pre n us post,
     ~ In n (map fst pre) ->
     resolve (pre ++ (n, us) :: post) (Hole n) = flat_map (resolve post) us) /\
  (forall bs m, ~ In m (map fst bs) -> resolve bs (Hole m) = [Hole m]) /\
  (forall bs s, resolve bs (Text s) = [Text s]).
Proof.
  intros Hwf Hr Hq Hb Hv. split; [|split; [|split; [|split]]].
  - rewrite (fill_content_run (render ts) quiz title qs Hr).
    + rewrite <- Hb. f_equal. apply run_rendered; [|exact Hwf].
      apply tbindings_ok; [|exact Hv].
      rewrite <- rendered_names, Hb. unfold quiz_bindings.
      cbn [map forallb fst]. apply questions_names_plain, Hq.
    + eapply Forall_impl; [|exact Hq]. cbn beta. intros Q HQ. lia.
  - destruct tbs as [|[n0 us0] rest]; [discriminate|].
    unfold rendered, quiz_bindings in Hb. cbn [map fst snd] in Hb.
    assert (n0 = lit "TITLE" /\ render us0 = title /\
            rendered rest = questions_bindings qs 1) as (-> & Ht & Hrest).
    { unfold rendered. repeat split; congruence. }
    exists us0, rest. repeat split; assumption.
  - intros pre n us post. apply resolve_bound.
  - intros bs m. apply resolve_unbound.
  - intros bs s. apply resolve_text.
Qed.

(** * The endpoint *)

(** ** [strip] *)

Lemma lstrip_decompose (s : str) :
  exists l, s = l ++ lstrip s /\ forallb isspace l = true.
Proof.
  induction s as [|c s (l & Hl & Hs)].
  - exists []. split; reflexivity.
  - cbn [lstrip]. destruct (isspace c) eqn:E.
    + exists (c :: l). split; [cbn [app]; f_equal; exact Hl|].
      cbn [forallb]. rewrite E, Hs. reflexivity.
    + exists []. split; reflexivity.
Qed.

Lemma lstrip_head (s : str) (c : char) (r : str) :
  lstrip s = c :: r -> isspace c = false.
Proof.
  induction s as [|d s IH]; [discriminate|].
  cbn [lstrip]. destruct (isspace d) eqn:E; [exact IH|].
  intros [= <- _]. exact E.
Qed.

Lemma lstrip_blank (s : str) : forallb isspace s = true -> lstrip s = [].
Proof.
  induction s as [|c s IH]; [reflexivity|].
  cbn [forallb lstrip]. intros H. apply andb_true_iff in H as [Hc Hs].
  rewrite Hc. apply IH, Hs.
Qed.

Lemma forallb_rev {A : Type} (f : A -> bool) (l : list A) :
  forallb f (rev l) = forallb f l.
Proof.
  induction l as [|a l IH]; [reflexivity|].
  cbn [rev forallb]. rewrite forallb_app, IH. cbn [forallb].
  rewrite andb_true_r. apply andb_comm.
Qed.

Lemma rstrip_decompose (s : str) :
  exists r, s = rstrip s ++ r /\ forallb isspace r = true.
Proof.
  unfold rstrip. destruct (lstrip_decompose (rev s)) as (l & Hl & Hs).
  exists (rev l). split.
  - rewrite <- rev_app_distr, <- Hl, rev_involutive. reflexivity.
  - rewrite forallb_rev. exact Hs.
Qed.

Lemma rstrip_last (s init : str) (c : char) :
  rstrip s = init ++ [c] -> isspace c = false.
Proof.
  unfold rstrip. intros H. apply (f_equal (@rev char)) in H.
  rewrite rev_involutive, rev_app_distr in H. cbn [rev app] in H.
  exact (lstrip_head _ _ _ H).
Qed.

(** [strip] removes a run of whitespace at each end and nothing else; what
    is left neither starts nor ends with whitespace. *)
Lemma strip_decompose (s : str) :
  exists l r, s = l ++ strip s ++ r /\
              forallb isspace l = true /\ forallb isspace r = true.
Proof.
  destruct (lstrip_decompose s) as (l & Hl & Hsl).
  destruct (rstrip_decompose (lstrip s)) as (r & Hr & Hsr).
  exists l, r. unfold strip. rewrite <- Hr. auto.
Qed.

Lemma strip_last (s init : str) (c : char) :
  strip s = init ++ [c] -> isspace c = false.
Proof. apply rstrip_last. Qed.

Lemma strip_head (s : str) (c : char) (r : str) :
  strip s = c :: r -> isspace c = false.
Proof.
  unfold strip. intros H.
  destruct (rstrip_decompose (lstrip s)) as (t & Ht & _).
  rewrite H in Ht. exact (lstrip_head _ _ _ Ht).
Qed.

Lemma strip_blank (s : str) : forallb isspace s = true -> strip s = [].
Proof. intros H. unfold strip. rewrite (lstrip_blank s H). reflexivity. Qed.

Lemma is_empty_true (s : str) : is_empty s = true <-> s = [].
Proof. destruct s; split; (reflexivity || discriminate). Qed.

(** ** The view *)

Lemma send_file_ok_iff (zipf : archive) (mime : str) (att : bool) (dl : str)
  (o : outcome) :
  send_file zipf mime att dl = ok o <->
  sendable dl = true /\ o = SendFile zipf mime att dl.
Proof.
  unfold send_file, sendable.
  destruct (encodable dl); cbn [andb].
  - destruct (existsb is_newline dl); cbn [negb].
    + split; [discriminate | intros [H _]; discriminate].
    + split.
      * intros H. apply ok_inj in H. split; [reflexivity | symmetry; exact H].
      * intros [_ ->]. reflexivity.
  - split; [discriminate | intros [H _]; discriminate].
Qed.

Lemma send_file_sendable (zipf : archive) (mime : str) (att : bool) (dl : str) :
  sendable dl = true ->
  send_file zipf mime att dl = ok (SendFile zipf mime att dl).
Proof. intros H. apply send_file_ok_iff. split; [exact H | reflexivity]. Qed.

Lemma send_file_refused (zipf : archive) (mime : str) (att : bool) (dl : str) :
  sendable dl = false ->
  send_file zipf mime att dl =
  raise (if encodable dl then ValueError else UnicodeEncodeError).
Proof.
  unfold send_file, sendable. destruct (encodable dl); cbn [andb].
  - destruct (existsb is_newline dl); [reflexivity | discriminate].
  - reflexivity.
Qed.

Lemma encodable_app (a b : str) :
  encodable (a ++ b) = encodable a && encodable b.
Proof. apply forallb_app. Qed.

(** The suffix of the download name is harmless: only [base_name] decides
    whether [send_file] accepts the name. *)
Lemma sendable_download_name (base_name : str) :
  sendable (base_name ++ lit "_xmls.zip") = sendable base_name.
Proof.
  unfold sendable. rewrite encodable_app, existsb_app.
  replace (encodable (lit "_xmls.zip")) with true by reflexivity.
  replace (existsb is_newline (lit "_xmls.zip")) with false by reflexivity.
  rewrite andb_true_r, orb_false_r. reflexivity.
Qed.

Section Endpoint.

Context {R : PyRepr}.

Variable E : environ.
Variable req : request.

(** The stripped [base_name] field of the form. *)
Let base_name : str := strip (form_get req (lit "base_name") []).

Lemma generate_xmls_no_file :
  assoc (lit "quiz_json") (files req) = None ->
  generate_xmls E req = Abort 400 (lit "No JSON file part").
Proof. intros H. unfold generate_xmls. rewrite H. reflexivity. Qed.

Lemma generate_xmls_no_base_name (f : upload) :
  assoc (lit "quiz_json") (files req) = Some f ->
  base_name = [] ->
  generate_xmls E req = Abort 400 (lit "Base filename is required").
Proof.
  intros H Hb. unfold generate_xmls. rewrite H. fold base_name. rewrite Hb.
  reflexivity.
Qed.

Lemma generate_xmls_bad_json (err : str) :
  assoc (lit "quiz_json") (files req) = Some (Unparsable err) ->
  base_name <> [] ->
  generate_xmls E req = Abort 400 (lit "Invalid JSON: " ++ err).
Proof.
  intros H Hb. unfold generate_xmls. rewrite H. fold base_name.
  destruct base_name; [congruence | reflexivity].
Qed.

Lemma generate_xmls_parsed (data : json) :
  assoc (lit "quiz_json") (files req) = Some (Parsed data) ->
  base_name <> [] ->
  generate_xmls E req =
  match load_templates E with
  | inl (FileNotFoundError e) =>
      Abort 500 (lit "Template files not found: " ++ e)
  | inl e => Uncaught e
  | inr (xml_template, meta_block_template) =>
      match build_zip E base_name xml_template meta_block_template data with
      | inl e => Uncaught e
      | inr zipf =>
          match send_file zipf (lit "application/zip") true
                  (base_name ++ lit "_xmls.zip") with
          | inl e => Uncaught e
          | inr response => response
          end
      end
  end.
Proof.
  intros H Hb. unfold generate_xmls. rewrite H. fold base_name.
  destruct base_name; [congruence | reflexivity].
Qed.

Lemma load_templates_ok (xml meta : str) :
  read_text E (XML_TEMPLATE_PATH E) = ok xml ->
  read_text E (META_BLOCK_PATH E) = ok meta ->
  load_templates E = ok (xml, meta).
Proof. intros H1 H2. unfold load_templates. rewrite H1, H2. reflexivity. Qed.

Lemma generate_xmls_proceeds (data : json) (xml meta : str) :
  assoc (lit "quiz_json") (files req) = Some (Parsed data) ->
  base_name <> [] ->
  read_text E (XML_TEMPLATE_PATH E) = ok xml ->
  read_text E (META_BLOCK_PATH E) = ok meta ->
  generate_xmls E req =
  match build_zip E base_name xml meta data with
  | inl e => Uncaught e
  | inr zipf =>
      match send_file zipf (lit "application/zip") true
              (base_name ++ lit "_xmls.zip") with
      | inl e => Uncaught e
      | inr response => response
      end
  end.
Proof.
  intros H Hb H1 H2. rewrite (generate_xmls_parsed data H Hb).
  rewrite (load_templates_ok xml meta H1 H2). reflexivity.
Qed.

(** A file response is only sent at the end of the view. *)
Lemma generate_xmls_sent (zipf : archive) (mime : str) (att : bool) (dl : str) :
  generate_xmls E req = SendFile zipf mime att dl ->
  exists data xml meta,
    assoc (lit "quiz_json") (files req) = Some (Parsed data) /\
    base_name <> [] /\
    read_text E (XML_TEMPLATE_PATH E) = ok xml /\
    read_text E (META_BLOCK_PATH E) = ok meta /\
    build_zip E base_name xml meta data = ok zipf /\
    sendable (base_name ++ lit "_xmls.zip") = true /\
    mime = lit "application/zip" /\ att = true /\
    dl = base_name ++ lit "_xmls.zip".
Proof.
  unfold generate_xmls. fold base_name.
  destruct (assoc (lit "quiz_json") (files req)) as [f|]; [|discriminate].
  destruct base_name as [|b0 bs] eqn:Eb; [discriminate|]. cbn [is_empty].
  destruct f as [err | data]; [discriminate|].
  unfold load_templates.
  destruct (read_text E (XML_TEMPLATE_PATH E)) as [e | xml];
    [destruct e; discriminate|].
  destruct (read_text E (META_BLOCK_PATH E)) as [e | meta];
    [destruct e; discriminate|].
  cbn [bind ok].
  destruct (build_zip E (b0 :: bs) xml meta data) as [e | z] eqn:Ez; [discriminate|].
  destruct (send_file z _ _ _) as [e | o] eqn:Es; [discriminate|].
  intros ->. apply send_file_ok_iff in Es as [Hs Ho].
  injection Ho as -> -> -> ->.
  exists data, xml, meta.
  split; [reflexivity|]. split; [discriminate|].
  split; [reflexivity|]. split; [reflexivity|]. split; [exact Ez|].
  split; [exact Hs|].
  repeat split; reflexivity.
Qed.

(** C6.  The view checks, in this order: the [quiz_json] file part (400
    when missing), the stripped [base_name] (400 when missing or blank), the
    parse of the uploaded JSON (400 with the parser's message), the two
    template files (500 when one is not found); in none of these cases is
    an archive sent, and otherwise the packaging step decides the outcome. *)
Theorem request_validation :
  (assoc (lit "quiz_json") (files req) = None ->
   generate_xmls E req = Abort 400 (lit "No JSON file part")) /\
  (forall f, assoc (lit "quiz_json") (files req) = Some f ->
     (assoc (lit "base_name") (form req) = None \/
      forallb isspace (form_get req (lit "base_name") []) = true) ->
     generate_xmls E req = Abort 400 (lit "Base filename is required")) /\
  (forall err, assoc (lit "quiz_json") (files req) = Some (Unparsable err) ->
     strip (form_get req (lit "base_name") []) <> [] ->
     generate_xmls E req = Abort 400 (lit "Invalid JSON: " ++ err)) /\
  (forall data msg, assoc (lit "quiz_json") (files req) = Some (Parsed data) ->
     strip (form_get req (lit "base_name") []) <> [] ->
     (read_text E (XML_TEMPLATE_PATH E) = raise (FileNotFoundError msg) \/
      (exists xml, read_text E (XML_TEMPLATE_PATH E) = ok xml) /\
      read_text E (META_BLOCK_PATH E) = raise (FileNotFoundError msg)) ->
     generate_xmls E req = Abort 500 (lit "Template files not found: " ++ msg)) /\
  (forall data xml meta,
     assoc (lit "quiz_json") (files req) = Some (Parsed data) ->
     strip (form_get req (lit "base_name") []) <> [] ->
     read_text E (XML_TEMPLATE_PATH E) = ok xml ->
     read_text E (META_BLOCK_PATH E) = ok meta ->
     generate_xmls E req =
     match build_zip E (strip (form_get req (lit "base_name") [])) xml meta data with
     | inl e => Uncaught e
     | inr zipf =>
         match send_file zipf (lit "application/zip") true
                 (strip (form_get req (lit "base_name") []) ++ lit "_xmls.zip") with
         | inl e => Uncaught e
         | inr response => response
         end
     end) /\
  (forall code description,
     generate_xmls E req = Abort code description ->
     status (generate_xmls E req) = code /\
     sent_archive (generate_xmls E req) = None).
Proof.
  split; [exact generate_xmls_no_file|]. split.
  { intros f Hf Hb. apply (generate_xmls_no_base_name f Hf).
    unfold base_name. destruct Hb as [Hb | Hb].
    - unfold form_get. rewrite Hb. reflexivity.
    - apply strip_blank, Hb. }
  split; [exact generate_xmls_bad_json|]. split.
  { intros data msg Hf Hb Ht. rewrite (generate_xmls_parsed data Hf Hb).
    unfold load_templates. destruct Ht as [Ht | [[xml Hx] Ht]].
    - rewrite Ht. reflexivity.
    - rewrite Hx, Ht. reflexivity. }
  split; [exact generate_xmls_proceeds|].
  intros code description H. rewrite H. split; reflexivity.
Qed.

End Endpoint.

(** ** [writestr] *)

Lemma writestr_eq (E : environ) (zipf : archive) (arcname data : str) :
  writestr E zipf arcname data =
  if encodable data then
    if year (localtime E (List.length zipf)) <? 1980 then raise ValueError
    else
      match before_nul arcname with
      | [] => raise IndexError
      | _ :: _ =>
          if encodable (before_nul arcname) then
            if ushort (dostime (localtime E (List.length zipf))) &&
               ushort (dosdate (localtime E (List.length zipf))) &&
               ushort (utf8_length (before_nul arcname))
            then ok (zipf ++ [ {| filename := before_nul arcname;
                                 mtime := (dosdate (localtime E (List.length zipf)),
                                           dostime (localtime E (List.length zipf)));
                                 data := data |} ])
            else raise StructError
          else raise UnicodeEncodeError
      end
  else raise UnicodeEncodeError.
Proof.
  unfold writestr, ZipInfo. destruct (encodable data); [|reflexivity].
  destruct (year _ <? 1980); reflexivity.
Qed.

(** [writestr] adds the entry exactly when the text can be encoded, the
    local time can be recorded and the name can be stored. *)
Lemma writestr_ok_iff (E : environ) (zipf zipf' : archive) (arcname data : str) :
  writestr E zipf arcname data = ok zipf' <->
  encodable data && time_ok (localtime E (List.length zipf)) &&
    name_ok arcname = true /\
  zipf' = zipf ++ [ {| filename := before_nul arcname;
                       mtime := (dosdate (localtime E (List.length zipf)),
                                 dostime (localtime E (List.length zipf)));
                       data := data |} ].
Proof.
  rewrite writestr_eq. unfold name_ok, time_ok. rewrite Z.leb_antisym.
  destruct (encodable data); cbn [andb];
    [|split; [discriminate | intros [H _]; discriminate]].
  destruct (year _ <? 1980); cbn [negb andb];
    [split; [discriminate | intros [H _]; discriminate]|].
  destruct (before_nul arcname) as [|c n]; cbn [is_empty negb andb].
  { rewrite andb_false_r.
    split; [discriminate | intros [H _]; discriminate]. }
  destruct (encodable (c :: n)); cbn [andb].
  2:{ rewrite andb_false_r.
      split; [discriminate | intros [H _]; discriminate]. }
  destruct (ushort (dostime _)), (ushort (dosdate _)),
    (ushort (utf8_length (c :: n))); cbn [andb];
    try (split; [discriminate | intros [H _]; discriminate]).
  split.
  - intros H. apply ok_inj in H. split; [reflexivity | symmetry; exact H].
  - intros [_ ->]. reflexivity.
Qed.

(** ** The dates a zip entry can record *)

Lemma time_ok_no_fault (dt : date_time) :
  time_ok dt = true <-> time_fault dt = None.
Proof.
  unfold time_ok, time_fault. rewrite Z.leb_antisym.
  destruct (year dt <? 1980); cbn [negb andb]; [split; discriminate|].
  destruct (ushort (dostime dt) && ushort (dosdate dt));
    split; (reflexivity || discriminate).
Qed.

Lemma ushort_lor (a b : Z) :
  0 <= a -> 0 <= b -> ushort (Z.lor a b) = ushort a && ushort b.
Proof.
  intros Ha Hb.
  destruct (Z.eq_dec a 0) as [-> | Hane].
  { rewrite Z.lor_0_l. reflexivity. }
  destruct (Z.eq_dec b 0) as [-> | Hbne].
  { rewrite Z.lor_0_r, andb_true_r. reflexivity. }
  assert (forall x, 0 < x -> ushort x = (Z.log2 x <? 16)) as L.
  { intros x Hx. unfold ushort.
    replace (0 <=? x) with true by (symmetry; apply Z.leb_le; lia).
    cbn [andb]. apply eq_true_iff_eq.
    rewrite Z.leb_le, Z.ltb_lt, <- (Z.log2_lt_pow2 x 16) by lia.
    change (2 ^ 16) with 65536. lia. }
  assert (0 < Z.lor a b) as Hl.
  { assert (0 <= Z.lor a b) by (apply Z.lor_nonneg; split; assumption).
    assert (Z.lor a b <> 0) by (rewrite Z.lor_eq_0_iff; tauto). lia. }
  rewrite (L _ Hl), (L a), (L b), Z.log2_lor by lia.
  apply eq_true_iff_eq. rewrite andb_true_iff, !Z.ltb_lt. lia.
Qed.

(** For a calendar date the local time can be recorded exactly when the
    year is one of 1980 .. 2107. *)
Lemma calendar_time_ok (y mo d h mi sec : Z) :
  1 <= mo <= 12 -> 1 <= d <= 31 -> 0 <= h <= 23 -> 0 <= mi <= 59 ->
  0 <= sec <= 61 ->
  time_ok (y, mo, d, h, mi, sec) = (1980 <=? y) && (y <=? 2107).
Proof.
  intros Hmo Hd Hh Hmi Hs. unfold time_ok, year, dostime, dosdate.
  destruct (1980 <=? y) eqn:Ey; [|reflexivity]. apply Z.leb_le in Ey.
  cbn [andb]. rewrite !Z.shiftl_mul_pow2 by lia.
  change (2 ^ 11) with 2048. change (2 ^ 5) with 32. change (2 ^ 9) with 512.
  assert (0 <= sec / 2 < 31) as Hs2.
  { split; [apply Z.div_pos; lia | apply Z.div_lt_upper_bound; lia]. }
  rewrite !ushort_lor by (try apply Z.lor_nonneg; lia).
  unfold ushort.
  repeat match goal with
         | |- context [?a <=? ?b] =>
             lazymatch b with
             | 2107 => fail
             | _ => replace (a <=? b) with true by (symmetry; apply Z.leb_le; lia)
             end
         end.
  cbn [andb]. rewrite ?andb_true_r.
  destruct (y <=? 2107) eqn:Ey2.
  - apply Z.leb_le in Ey2. apply Z.leb_le. lia.
  - apply Z.leb_gt in Ey2. apply Z.leb_gt. lia.
Qed.

(** ** Stored names *)

Lemma before_nul_without (s : str) : ~ In 0%N s -> before_nul s = s.
Proof.
  induction s as [|c s IH]; [reflexivity|]. intros H. cbn [before_nul].
  destruct (c =? 0)%N eqn:Ec.
  - apply N.eqb_eq in Ec. exfalso. apply H. left. exact Ec.
  - rewrite IH; [reflexivity|]. intros Hin. apply H. right. exact Hin.
Qed.


Lemma str_of_Z_no_nul (n : Z) : ~ In 0%N (str_of_Z n).
Proof.
  intros H. pose proof (str_of_Z_numeric n) as F. rewrite Forall_forall in F.
  apply F in H. unfold numeric in H. lia.
Qed.

(** The name of an entry as it is stored: the name passed when
    [base_name] has no NUL character, and otherwise what precedes the first
    NUL of [base_name], whatever the number of the record. *)
Lemma stored_name_without_nul (base_name : str) (idx : Z) :
  ~ In 0%N base_name ->
  before_nul (entry_name base_name idx) =
  base_name ++ lit "_" ++ str_of_Z idx ++ lit ".xml".
Proof.
  intros H. unfold entry_name. apply before_nul_without.
  rewrite !in_app_iff. intros [Hb | [Hu | [Hn | Hx]]].
  - exact (H Hb).
  - cbv in Hu. destruct Hu as [Hu | []]. discriminate.
  - exact (str_of_Z_no_nul idx Hn).
  - cbv in Hx. repeat (destruct Hx as [Hx | Hx]; [discriminate|]). exact Hx.
Qed.


(** ** The packaging loop *)

Section Packaging.

Context {R : PyRepr}.

Variable E : environ.
Variables base_name xml meta : str.

Lemma full_xml_document (quiz : json) (doc : str) :
  full_xml xml meta quiz = ok doc <-> document_of xml meta quiz doc.
Proof.
  unfold full_xml, document_of. split.
  - intros H. bind_inv H. bind_inv H. apply ok_inj in H.
    exists a, a0. auto.
  - intros (content & idv & H1 & H2 & ->). rewrite H1. cbn [bind ok].
    rewrite H2. reflexivity.
Qed.

Lemma document_of_unique (quiz : json) (d d' : str) :
  document_of xml meta quiz d -> document_of xml meta quiz d' -> d = d'.
Proof.
  intros H H'. apply full_xml_document in H, H'. rewrite H in H'.
  apply ok_inj in H'. exact H'.
Qed.

Lemma write_quiz_eq (E0 : environ) (z : archive) (idx : Z) (quiz : json) :
  write_quiz E0 base_name xml meta z (idx, quiz) =
  (d <- full_xml xml meta quiz ;; writestr E0 z (entry_name base_name idx) d).
Proof. reflexivity. Qed.

Lemma write_quizzes_inv (quizzes : list json) (start : Z) (zipf zipf' : archive) :
  foldM (write_quiz E base_name xml meta) (enumerate quizzes start) zipf = ok zipf' ->
  exists docs,
    Forall2 (document_of xml meta) quizzes docs /\
    writable E base_name start (List.length zipf) docs = true /\
    zipf' = zipf ++ expected_entries E base_name start (List.length zipf) docs.
Proof.
  revert start zipf. induction quizzes as [|quiz quizzes IH]; intros start zipf H.
  - apply ok_inj in H. subst zipf'. exists []. split; [constructor|].
    split; [reflexivity|]. cbn [expected_entries]. now rewrite app_nil_r.
  - cbn [enumerate foldM] in H. apply bind_ok_inv in H as (z1 & Hw & H).
    rewrite write_quiz_eq in Hw.
    destruct (full_xml xml meta quiz) as [e | doc] eqn:Hd; [discriminate|].
    cbn [bind] in Hw. apply writestr_ok_iff in Hw as [Hok ->].
    apply IH in H as (docs & HF & Hwr & ->).
    rewrite length_app in Hwr. cbn [List.length] in Hwr.
    rewrite Nat.add_1_r in Hwr.
    exists (doc :: docs). split.
    + constructor; [apply full_xml_document; exact Hd | exact HF].
    + split.
      * cbn [writable]. rewrite Hok, Hwr. reflexivity.
      * rewrite <- app_assoc. cbn [expected_entries app]. rewrite length_app.
        cbn [List.length]. rewrite Nat.add_1_r. reflexivity.
Qed.

Lemma write_quizzes_total (quizzes : list json) (docs : list str) (start : Z)
  (zipf : archive) :
  Forall2 (document_of xml meta) quizzes docs ->
  writable E base_name start (List.length zipf) docs = true ->
  foldM (write_quiz E base_name xml meta) (enumerate quizzes start) zipf =
  ok (zipf ++ expected_entries E base_name start (List.length zipf) docs).
Proof.
  intros HF. revert start zipf.
  induction HF as [|quiz doc quizzes docs Hd HF IH]; intros start zipf Hw.
  - cbn [enumerate foldM expected_entries]. now rewrite app_nil_r.
  - cbn [enumerate foldM]. rewrite write_quiz_eq.
    apply full_xml_document in Hd. rewrite Hd. cbn [bind ok].
    cbn [writable] in Hw. apply andb_true_iff in Hw as [Hok Hw].
    rewrite (proj2 (writestr_ok_iff E zipf _ _ _) (conj Hok eq_refl)).
    cbn [bind ok]. rewrite IH.
    + rewrite <- app_assoc. cbn [expected_entries app].
      rewrite length_app. cbn [List.length]. rewrite Nat.add_1_r. reflexivity.
    + rewrite length_app. cbn [List.length]. rewrite Nat.add_1_r. exact Hw.
Qed.


Lemma expected_entries_nth (idx : Z) (written : nat) (docs : list str) (i : nat) :
  nth_error (expected_entries E base_name idx written docs) i =
  option_map
    (fun d => {| filename := before_nul (entry_name base_name (idx + Z.of_nat i));
                 mtime := (dosdate (localtime E (written + i)),
                           dostime (localtime E (written + i)));
                 data := d |})
    (nth_error docs i).
Proof.
  revert idx written i. induction docs as [|d docs IH]; intros idx written i.
  - destruct i; reflexivity.
  - destruct i as [|i].
    + cbn [expected_entries nth_error option_map].
      rewrite Z.add_0_r, Nat.add_0_r. reflexivity.
    + cbn [expected_entries nth_error]. rewrite IH.
      replace (idx + 1 + Z.of_nat i) with (idx + Z.of_nat (S i)) by lia.
      replace (S written + i)%nat with (written + S i)%nat by lia.
      reflexivity.
Qed.

(** What [writable] asks of each document. *)
Lemma writable_nth (idx : Z) (written : nat) (docs : list str) :
  writable E base_name idx written docs = true <->
  forall i doc, nth_error docs i = Some doc ->
    encodable doc = true /\
    time_ok (localtime E (written + i)) = true /\
    name_ok (entry_name base_name (idx + Z.of_nat i)) = true.
Proof.
  revert idx written. induction docs as [|d docs IH]; intros idx written.
  - split; [intros _ i doc H; destruct i; discriminate | reflexivity].
  - cbn [writable]. rewrite !andb_true_iff, IH. split.
    + intros [[[Hd Ht] Hn] Hr] i doc Hi. destruct i as [|i].
      * cbn [nth_error] in Hi. apply ok_inj_some in Hi. subst doc.
        rewrite Z.add_0_r, Nat.add_0_r. auto.
      * cbn [nth_error] in Hi. specialize (Hr i doc Hi).
        replace (idx + Z.of_nat (S i)) with (idx + 1 + Z.of_nat i) by lia.
        replace (written + S i)%nat with (S written + i)%nat by lia.
        exact Hr.
    + intros H. split.
      * specialize (H 0%nat d eq_refl).
        rewrite Z.add_0_r, Nat.add_0_r in H. tauto.
      * intros i doc Hi. specialize (H (S i) doc Hi).
        replace (idx + Z.of_nat (S i)) with (idx + 1 + Z.of_nat i) in H by lia.
        replace (written + S i)%nat with (S written + i)%nat in H by lia.
        exact H.
Qed.

(** Two runs that both get through the loop write the same names and
    texts, whatever their clocks. *)
Lemma write_quizzes_listing (E' : environ) (quizzes : list json) (start : Z)
  (z z' w w' : archive) :
  listing z = listing z' ->
  foldM (write_quiz E base_name xml meta) (enumerate quizzes start) z = ok w ->
  foldM (write_quiz E' base_name xml meta) (enumerate quizzes start) z' = ok w' ->
  listing w = listing w'.
Proof.
  revert start z z'. induction quizzes as [|quiz quizzes IH]; intros start z z' Hz H H'.
  - apply ok_inj in H, H'. subst. exact Hz.
  - cbn [enumerate foldM] in H, H'.
    apply bind_ok_inv in H as (z1 & Hw & H).
    apply bind_ok_inv in H' as (z1' & Hw' & H').
    rewrite write_quiz_eq in Hw, Hw'.
    destruct (full_xml xml meta quiz) as [e | doc]; [discriminate|].
    cbn [bind] in Hw, Hw'.
    apply writestr_ok_iff in Hw as [_ ->].
    apply writestr_ok_iff in Hw' as [_ ->].
    refine (IH _ _ _ _ H H').
    unfold listing in *. rewrite !map_app, Hz. reflexivity.
Qed.

(** What two runs write whose clocks, where they differ, fail alike. *)
Lemma write_quizzes_clock (E' : environ) (quizzes : list json) (start : Z)
  (z z' : archive) :
  (forall n, time_fault (localtime E n) = time_fault (localtime E' n)) ->
  listing z = listing z' ->
  match foldM (write_quiz E base_name xml meta) (enumerate quizzes start) z,
        foldM (write_quiz E' base_name xml meta) (enumerate quizzes start) z' with
  | inl e, inl e' => e = e'
  | inr w, inr w' => listing w = listing w'
  | _, _ => False
  end.
Proof.
  intros Hc.
  revert start z z'. induction quizzes as [|quiz quizzes IH]; intros start z z' Hz.
  - exact Hz.
  - cbn [enumerate foldM]. rewrite !write_quiz_eq.
    destruct (full_xml xml meta quiz) as [e | doc]; cbn [bind]; [reflexivity|].
    assert (List.length z = List.length z') as Hl.
    { apply (f_equal (@List.length _)) in Hz. unfold listing in Hz.
      rewrite !length_map in Hz. exact Hz. }
    rewrite !writestr_eq. rewrite <- Hl.
    specialize (Hc (List.length z)). unfold time_fault in Hc.
    destruct (encodable doc); cbn [bind raise]; [|reflexivity].
    destruct (year (localtime E (List.length z)) <? 1980),
             (year (localtime E' (List.length z)) <? 1980);
      cbn [bind raise]; try reflexivity.
    { destruct (ushort _ && ushort _) in Hc; discriminate. }
    { destruct (ushort _ && ushort _) in Hc; discriminate. }
    destruct (before_nul (entry_name base_name start)) as [|c n];
      cbn [bind raise]; [reflexivity|].
    destruct (encodable (c :: n)); cbn [bind raise]; [|reflexivity].
    destruct (ushort (dostime (localtime E (List.length z))) &&
              ushort (dosdate (localtime E (List.length z)))),
             (ushort (dostime (localtime E' (List.length z))) &&
              ushort (dosdate (localtime E' (List.length z))));
      try discriminate; cbn [andb bind raise]; [|reflexivity].
    destruct (ushort (utf8_length (c :: n))); cbn [bind raise ok]; [|reflexivity].
    apply IH. unfold listing in *. rewrite !map_app, Hz. reflexivity.
Qed.

(** A record without one of its keys makes the loop raise. *)
Lemma fill_question_ok_keys (c : str) (qnum : Z) (q : json) (c' : str) :
  fill_question c (qnum, q) = ok c' -> question_lacks_key q = false.
Proof.
  unfold fill_question. intros H.
  bind_inv H. bind_inv H. bind_inv H. bind_inv H. bind_inv H. bind_inv H.
  unfold question_lacks_key, lacks. unfold py_getitem in Ha, Ha1, Ha4.
  destruct q; try discriminate.
  destruct (assoc (lit "QUESTION") items); [|discriminate].
  destruct (assoc (lit "ANSWERS") items); [|discriminate].
  destruct (assoc (lit "CORRECT") items); [|discriminate].
  reflexivity.
Qed.

Lemma fill_questions_ok_keys (questions : list json) (start : Z) (c c' : str) :
  foldM fill_question (enumerate questions start) c = ok c' ->
  existsb question_lacks_key questions = false.
Proof.
  revert start c. induction questions as [|q questions IH]; intros start c H.
  - reflexivity.
  - cbn [enumerate foldM] in H. bind_inv H. cbn [existsb].
    rewrite (fill_question_ok_keys _ _ _ _ Ha). exact (IH _ _ H).
Qed.

Lemma full_xml_ok_keys (quiz : json) (doc : str) :
  full_xml xml meta quiz = ok doc -> quiz_lacks_key quiz = false.
Proof.
  unfold full_xml, fill_content. intros H.
  apply bind_ok_inv in H as (content & Hc & H).
  apply bind_ok_inv in H as (idv & Hid & _).
  apply bind_ok_inv in Hc as (tv & Htv & Hc).
  apply bind_ok_inv in Hc as (title & _ & Hc).
  apply bind_ok_inv in Hc as (qv & Hqv & Hc).
  apply bind_ok_inv in Hc as (questions & Hqs & Hc).
  unfold quiz_lacks_key. rewrite Hqv. cbn [bind ok]. rewrite Hqs. cbn [ok].
  rewrite (fill_questions_ok_keys _ _ _ _ Hc).
  unfold lacks. unfold py_getitem in Htv, Hid, Hqv.
  destruct quiz; try discriminate.
  destruct (assoc (lit "TITLE") items); [|discriminate].
  destruct (assoc (lit "QUESTIONS") items); [|discriminate].
  destruct (assoc (lit "id") items); [|discriminate].
  reflexivity.
Qed.

Lemma write_quizzes_ok_keys (quizzes : list json) (start : Z) (z z' : archive) :
  foldM (write_quiz E base_name xml meta) (enumerate quizzes start) z = ok z' ->
  existsb quiz_lacks_key quizzes = false.
Proof.
  revert start z. induction quizzes as [|quiz quizzes IH]; intros start z H.
  - reflexivity.
  - cbn [enumerate foldM] in H. apply bind_ok_inv in H as (z1 & Hw & H).
    cbn [existsb]. rewrite write_quiz_eq in Hw.
    destruct (full_xml xml meta quiz) as [e | doc] eqn:Hd; [discriminate|].
    rewrite (full_xml_ok_keys _ _ Hd). exact (IH _ _ H).
Qed.

(** The first record decides when its document cannot be made. *)
Lemma first_record_raises (quiz : json) (rest : list json) (e : exn) :
  full_xml xml meta quiz = raise e ->
  foldM (write_quiz E base_name xml meta) (enumerate (quiz :: rest) 1) [] =
  raise e.
Proof.
  intros H. cbn [enumerate foldM]. rewrite write_quiz_eq, H. reflexivity.
Qed.

End Packaging.

(** ** Properties of the endpoint *)

Lemma lacks_getitem (v : json) (key : str) :
  lacks v key = true -> py_getitem v key = raise (KeyError key).
Proof.
  unfold lacks, py_getitem. destruct v; try discriminate.
  destruct (assoc key items); [discriminate | reflexivity].
Qed.

Section EndpointProperties.

Context {R : PyRepr}.

Lemma build_zip_unfold (E : environ) (base_name xml meta : str) (data : json)
  (quizzes : list json) :
  (qv <- py_get data (lit "quizzes") (JList []) ;; py_iter qv) = ok quizzes ->
  build_zip E base_name xml meta data =
  foldM (write_quiz E base_name xml meta) (enumerate quizzes 1) [].
Proof.
  intros H. unfold build_zip.
  apply bind_ok_inv in H as (qv & Hqv & H). rewrite Hqv. cbn [bind ok].
  rewrite H. reflexivity.
Qed.


(** C8.  Two runs that receive the same uploaded JSON and the same
    [base_name] and read the same template contents put the same files into
    their archives: whenever both send an archive, the two archives have
    the same file names and the same file contents, and the same download
    name.  The two runs also end in the same way, with the same error or
    with such archives, unless the host clock of one of them, and not of
    the other, is outside the dates a zip entry can record.  Only the time
    stamps of the entries depend on the run. *)
Theorem packaging_is_deterministic (E1 E2 : environ) (req1 req2 : request) :
  assoc (lit "quiz_json") (files req1) = assoc (lit "quiz_json") (files req2) ->
  form_get req1 (lit "base_name") [] = form_get req2 (lit "base_name") [] ->
  read_text E1 (XML_TEMPLATE_PATH E1) = read_text E2 (XML_TEMPLATE_PATH E2) ->
  read_text E1 (META_BLOCK_PATH E1) = read_text E2 (META_BLOCK_PATH E2) ->
  (forall z1 m1 a1 d1 z2 m2 a2 d2,
     generate_xmls E1 req1 = SendFile z1 m1 a1 d1 ->
     generate_xmls E2 req2 = SendFile z2 m2 a2 d2 ->
     listing z1 = listing z2 /\ m1 = m2 /\ a1 = a2 /\ d1 = d2) /\
  ((forall n, time_fault (localtime E1 n) = time_fault (localtime E2 n)) ->
   same_response (generate_xmls E1 req1) (generate_xmls E2 req2)).
Proof.
  intros Hf Hb Hx Hm. split.
  - intros z1 m1 a1 d1 z2 m2 a2 d2 H1 H2.
    apply generate_xmls_sent in H1
      as (data1 & xml1 & meta1 & Hf1 & _ & Hx1 & Hm1 & Hz1 & _ & -> & -> & ->).
    apply generate_xmls_sent in H2
      as (data2 & xml2 & meta2 & Hf2 & _ & Hx2 & Hm2 & Hz2 & _ & -> & -> & ->).
    cbv zeta in Hz1, Hz2. rewrite Hb in *.
    assert (data1 = data2) as -> by congruence.
    assert (xml1 = xml2) as ->.
    { rewrite Hx in Hx1. rewrite Hx1 in Hx2. apply ok_inj in Hx2. exact Hx2. }
    assert (meta1 = meta2) as ->.
    { rewrite Hm in Hm1. rewrite Hm1 in Hm2. apply ok_inj in Hm2. exact Hm2. }
    split; [|repeat split; reflexivity].
    unfold build_zip in Hz1, Hz2.
    apply bind_ok_inv in Hz1 as (qv & Hqv & Hz1). rewrite Hqv in Hz2.
    cbn [bind ok] in Hz2.
    apply bind_ok_inv in Hz1 as (quizzes & Hit & Hz1). rewrite Hit in Hz2.
    cbn [bind ok] in Hz2.
    exact (write_quizzes_listing E1 _ xml2 meta2 E2 quizzes 1 [] [] z1 z2
             eq_refl Hz1 Hz2).
  - intros Hc. unfold generate_xmls, load_templates.
    rewrite Hf, Hb, Hx, Hm.
    destruct (assoc (lit "quiz_json") (files req2)) as [f|]; [|split; reflexivity].
    destruct (is_empty _) eqn:Eb; [split; reflexivity|].
    destruct f as [err | data]; [split; reflexivity|].
    destruct (read_text E2 (XML_TEMPLATE_PATH E2)) as [e | xml];
      [destruct e; cbn; auto|].
    destruct (read_text E2 (META_BLOCK_PATH E2)) as [e | meta];
      [destruct e; cbn; auto|].
    cbn [bind ok]. unfold build_zip.
    destruct (py_get data (lit "quizzes") (JList [])) as [e | qv]; [reflexivity|].
    cbn [bind]. destruct (py_iter qv) as [e | quizzes]; [reflexivity|].
    cbn [bind].
    pose proof (write_quizzes_clock E1
      (strip (form_get req2 (lit "base_name") [])) xml meta E2 quizzes 1 [] []
      Hc eq_refl) as W.
    destruct (foldM (write_quiz E1 _ xml meta) _ _) as [e1 | z1],
             (foldM (write_quiz E2 _ xml meta) _ _) as [e2 | z2];
      cbn [same_response]; auto; try contradiction.
    unfold send_file.
    destruct (encodable _); [|reflexivity].
    destruct (existsb is_newline _); [reflexivity|].
    unfold ok. cbn [same_response]. auto.
Qed.

(** C9 (as amended).  When the request reaches the packaging step and the
    uploaded JSON is an object without a ["quizzes"] item, or with an empty
    list under it, no record is processed: the response is 200 with an
    archive of zero entries exactly when [send_file] accepts the download
    name, that is when [base_name] has neither a carriage return nor a line
    feed inside nor a surrogate; otherwise the exception of [send_file]
    escapes the view and the response is 500. *)
Theorem no_quizzes_gives_empty_archive (E : environ) (req : request)
  (items : list (str * json)) (xml meta : str) :
  assoc (lit "quiz_json") (files req) = Some (Parsed (JDict items)) ->
  strip (form_get req (lit "base_name") []) <> [] ->
  read_text E (XML_TEMPLATE_PATH E) = ok xml ->
  read_text E (META_BLOCK_PATH E) = ok meta ->
  assoc (lit "quizzes") items = None \/
  assoc (lit "quizzes") items = Some (JList []) ->
  (sendable (strip (form_get req (lit "base_name") [])) = true ->
   generate_xmls E req =
     SendFile [] (lit "application/zip") true
       (strip (form_get req (lit "base_name") []) ++ lit "_xmls.zip") /\
   status (generate_xmls E req) = 200 /\
   sent_archive (generate_xmls E req) = Some []) /\
  (sendable (strip (form_get req (lit "base_name") [])) = false ->
   generate_xmls E req =
     Uncaught (if encodable (strip (form_get req (lit "base_name") []))
               then ValueError else UnicodeEncodeError) /\
   status (generate_xmls E req) = 500 /\
   sent_archive (generate_xmls E req) = None).
Proof.
  intros Hf Hb Hx Hm Hq.
  assert (generate_xmls E req =
    match send_file [] (lit "application/zip") true
            (strip (form_get req (lit "base_name") []) ++ lit "_xmls.zip") with
    | inl e => Uncaught e
    | inr response => response
    end) as G.
  { rewrite (generate_xmls_proceeds E req _ xml meta Hf Hb Hx Hm). cbv zeta.
    unfold build_zip, py_get. destruct Hq as [-> | ->]; reflexivity. }
  split; intros Hs.
  - assert (generate_xmls E req =
      SendFile [] (lit "application/zip") true
        (strip (form_get req (lit "base_name") []) ++ lit "_xmls.zip")) as G'.
    { rewrite G, send_file_sendable; [reflexivity|].
      rewrite sendable_download_name. exact Hs. }
    rewrite G'. repeat split; reflexivity.
  - assert (generate_xmls E req =
      Uncaught (if encodable (strip (form_get req (lit "base_name") []))
                then ValueError else UnicodeEncodeError)) as G'.
    { rewrite G, send_file_refused
        by (rewrite sendable_download_name; exact Hs).
      rewrite encodable_app.
      replace (encodable (lit "_xmls.zip")) with true by reflexivity.
      rewrite andb_true_r. reflexivity. }
    rewrite G'. repeat split; reflexivity.
Qed.

(** A parsed JSON value that is not an object has no [get]: the lookup of
    ["quizzes"] raises and the request ends in a 500. *)
Lemma non_object_json_raises (E : environ) (req : request) (data : json)
  (xml meta : str) :
  assoc (lit "quiz_json") (files req) = Some (Parsed data) ->
  strip (form_get req (lit "base_name") []) <> [] ->
  read_text E (XML_TEMPLATE_PATH E) = ok xml ->
  read_text E (META_BLOCK_PATH E) = ok meta ->
  (forall items, data <> JDict items) ->
  generate_xmls E req = Uncaught AttributeError.
Proof.
  intros Hf Hb Hx Hm Hd.
  rewrite (generate_xmls_proceeds E req _ xml meta Hf Hb Hx Hm). cbv zeta.
  unfold build_zip, py_get.
  destruct data; try reflexivity. exfalso. exact (Hd items eq_refl).
Qed.

(** C10.  The view only ever uses the stripped [base_name]: it is the form
    value without a run of whitespace at each end, it neither starts nor
    ends with whitespace, a value of whitespace only is rejected with 400
    like a missing one, and every file name of the archive and the download
    name are built from it: the download name is it followed by
    [_xmls.zip], and entry [i] is stored under it followed by [_<i>.xml],
    the name [writestr] cuts at a NUL character if it has one. *)
Theorem base_name_is_stripped (E : environ) (req : request) :
  (exists l r,
     form_get req (lit "base_name") [] =
       l ++ strip (form_get req (lit "base_name") []) ++ r /\
     forallb isspace l = true /\ forallb isspace r = true) /\
  (forall c rest, strip (form_get req (lit "base_name") []) = c :: rest ->
     isspace c = false) /\
  (forall init c, strip (form_get req (lit "base_name") []) = init ++ [c] ->
     isspace c = false) /\
  (forall f, assoc (lit "quiz_json") (files req) = Some f ->
     forallb isspace (form_get req (lit "base_name") []) = true ->
     generate_xmls E req = Abort 400 (lit "Base filename is required")) /\
  (forall f, assoc (lit "quiz_json") (files req) = Some f ->
     assoc (lit "base_name") (form req) = None ->
     generate_xmls E req = Abort 400 (lit "Base filename is required")) /\
  (forall zipf mime att dl,
     generate_xmls E req = SendFile zipf mime att dl ->
     dl = strip (form_get req (lit "base_name") []) ++ lit "_xmls.zip" /\
     forall i e, nth_error zipf i = Some e ->
       filename e =
         before_nul (strip (form_get req (lit "base_name") []) ++ lit "_"
                       ++ str_of_Z (Z.of_nat i + 1) ++ lit ".xml") /\
       (~ In 0%N (strip (form_get req (lit "base_name") [])) ->
        filename e = strip (form_get req (lit "base_name") []) ++ lit "_"
                       ++ str_of_Z (Z.of_nat i + 1) ++ lit ".xml")).
Proof.
  split; [apply strip_decompose|].
  split; [intros c rest; apply strip_head|].
  split; [intros init c; apply strip_last|].
  split.
  { intros f Hf Hb. apply (generate_xmls_no_base_name E req f Hf).
    apply strip_blank, Hb. }
  split.
  { intros f Hf Hb. apply (generate_xmls_no_base_name E req f Hf).
    unfold form_get. rewrite Hb. reflexivity. }
  intros zipf mime att dl H.
  apply generate_xmls_sent in H
    as (data & xml & meta & Hf & Hb & Hx & Hm & Hz & _ & _ & _ & Hd).
  cbv zeta in Hz, Hd. split; [exact Hd|].
  unfold build_zip in Hz.
  apply bind_ok_inv in Hz as (qv & _ & Hz).
  apply bind_ok_inv in Hz as (quizzes & _ & Hz).
  apply write_quizzes_inv in Hz as (docs & _ & _ & ->).
  intros i e He. cbn [app List.length] in He.
  rewrite expected_entries_nth in He.
  destruct (nth_error docs i) as [d|]; [|discriminate].
  cbn [option_map] in He. apply ok_inj_some in He. rewrite <- He.
  cbn [filename]. rewrite (Z.add_comm 1).
  split; [reflexivity|]. intros Hn. apply stored_name_without_nul, Hn.
Qed.

(** C2 (as amended).  When the request reaches the packaging step and one
    of the quiz records, or one of the questions of a record, is a dict
    without one of its keys ([TITLE], [QUESTIONS], [id]; [QUESTION],
    [ANSWERS], [CORRECT]), an exception escapes the view: no archive is
    sent and the response is 500, not 400.  When it is the first record,
    or the first question of the first record, that lacks the key, and the
    lookups the view makes before that one succeed, the exception is the
    [KeyError] of that key. *)
Theorem missing_key_escapes_the_view (E : environ) (req : request) (data : json)
  (xml meta : str) (quizzes : list json) :
  assoc (lit "quiz_json") (files req) = Some (Parsed data) ->
  strip (form_get req (lit "base_name") []) <> [] ->
  read_text E (XML_TEMPLATE_PATH E) = ok xml ->
  read_text E (META_BLOCK_PATH E) = ok meta ->
  (qv <- py_get data (lit "quizzes") (JList []) ;; py_iter qv) = ok quizzes ->
  (existsb quiz_lacks_key quizzes = true ->
   (exists e, generate_xmls E req = Uncaught e) /\
   status (generate_xmls E req) = 500 /\
   sent_archive (generate_xmls E req) = None) /\
  (forall quiz rest, quizzes = quiz :: rest ->
     (lacks quiz (lit "TITLE") = true ->
      generate_xmls E req = Uncaught (KeyError (lit "TITLE"))) /\
     (forall title,
        py_getitem quiz (lit "TITLE") = ok (JStr title) ->
        lacks quiz (lit "QUESTIONS") = true ->
        generate_xmls E req = Uncaught (KeyError (lit "QUESTIONS"))) /\
     (forall title q questions,
        py_getitem quiz (lit "TITLE") = ok (JStr title) ->
        (qv <- py_getitem quiz (lit "QUESTIONS") ;; py_iter qv) =
          ok (q :: questions) ->
        (lacks q (lit "QUESTION") = true ->
         generate_xmls E req = Uncaught (KeyError (lit "QUESTION"))) /\
        (forall text,
           py_getitem q (lit "QUESTION") = ok (JStr text) ->
           lacks q (lit "ANSWERS") = true ->
           generate_xmls E req = Uncaught (KeyError (lit "ANSWERS"))) /\
        (forall text answers,
           py_getitem q (lit "QUESTION") = ok (JStr text) ->
           (av <- py_getitem q (lit "ANSWERS") ;; py_iter av) =
             ok (map JStr answers) ->
           Z.of_nat (List.length answers) <= 1114047 ->
           lacks q (lit "CORRECT") = true ->
           generate_xmls E req = Uncaught (KeyError (lit "CORRECT")))) /\
     (forall content,
        fill_content xml quiz = ok content ->
        lacks quiz (lit "id") = true ->
        generate_xmls E req = Uncaught (KeyError (lit "id")))).
Proof.
  intros Hf Hb Hx Hm Hq.
  pose proof (generate_xmls_proceeds E req data xml meta Hf Hb Hx Hm) as G.
  cbv zeta in G. rewrite (build_zip_unfold _ _ _ _ _ _ Hq) in G.
  split.
  - intros Hk.
    destruct (foldM _ _ _) as [e | z] eqn:Ez.
    + rewrite G. split; [exists e; reflexivity|]. split; reflexivity.
    + apply write_quizzes_ok_keys in Ez. congruence.
  - intros quiz rest ->.
    assert (forall key, full_xml xml meta quiz = raise (KeyError key) ->
              generate_xmls E req = Uncaught (KeyError key)) as K.
    { intros key Hk. rewrite G, (first_record_raises _ _ _ _ _ _ _ Hk).
      reflexivity. }
    split; [|split; [|split]].
    + intros Hl. apply K. unfold full_xml, fill_content.
      rewrite (lacks_getitem _ _ Hl). reflexivity.
    + intros title Ht Hl. apply K. unfold full_xml, fill_content.
      rewrite Ht. cbn [bind ok as_str]. rewrite (lacks_getitem _ _ Hl).
      reflexivity.
    + intros title q questions Ht Hqs.
      assert (forall key,
                fill_question (replace (lit "{{TITLE}}") title xml) (1, q) =
                  raise (KeyError key) ->
                generate_xmls E req = Uncaught (KeyError key)) as Kq.
      { intros key Hk. apply K. unfold full_xml.
        rewrite (fill_content_unfold xml quiz title (q :: questions) Ht Hqs).
        cbn [enumerate foldM]. rewrite Hk. reflexivity. }
      split; [|split].
      * intros Hl. apply Kq.
        unfold fill_question. rewrite (lacks_getitem _ _ Hl). reflexivity.
      * intros text Hqt Hl. apply Kq.
        unfold fill_question. rewrite Hqt. cbn [bind ok as_str].
        rewrite (lacks_getitem _ _ Hl). reflexivity.
      * intros text answers Hqt Ha Hlen Hl.
        apply Kq.
        unfold fill_question. rewrite Hqt. cbn [bind ok as_str].
        apply bind_ok_inv in Ha as (av & Hav & Hit). rewrite Hav.
        cbn [bind ok]. rewrite Hit. cbn [bind ok]. unfold fill_answers.
        rewrite fill_answers_fold by lia. cbn [bind ok].
        rewrite (lacks_getitem _ _ Hl). reflexivity.
    + intros content Hc Hl. apply K. unfold full_xml. rewrite Hc.
      cbn [bind ok]. rewrite (lacks_getitem _ _ Hl). reflexivity.
Qed.

End EndpointProperties.

(** * The properties at concrete inputs *)

Ltac math_quiz_reads :=
  split; [reflexivity|];
  exists [json_question (lit "2+2?") [lit "3"; lit "4"; lit "5"; lit "6"] 1];
  split; [reflexivity|];
  constructor; [repeat split; reflexivity | constructor].

Example scenario_document :
  @full_xml scenario_repr scenario_template scenario_meta math_quiz =
  ok math_document.
Proof. vm_compute. reflexivity. Qed.

Example scenario_response :
  @generate_xmls scenario_repr (disk scenario_template scenario_meta 0)
    (post math_data (lit "math")) =
  SendFile [ {| filename := lit "math_1.xml";
                mtime := (23585, 0);
                data := math_document |} ]
    (lit "application/zip") true (lit "math_xmls.zip").
Proof. vm_compute. reflexivity. Qed.

Example scenario_tokens_render : render scenario_tokens = scenario_template.
Proof. vm_compute. reflexivity. Qed.

(** The failures of [writestr] and [send_file] at the scenario: a lone
    surrogate in a title, a [base_name] that begins with a NUL character, a
    line feed inside [base_name], and a host clock set before 1980 or
    after 2107. *)
Example library_failures :
  @generate_xmls scenario_repr (disk scenario_template scenario_meta 0)
    (post (JDict [(lit "quizzes", JList [json_quiz 1 [55296%N] []])])
       (lit "math")) = Uncaught UnicodeEncodeError /\
  @generate_xmls scenario_repr (disk scenario_template scenario_meta 0)
    (post math_data (0%N :: lit "b")) = Uncaught IndexError /\
  @generate_xmls scenario_repr (disk scenario_template scenario_meta 0)
    (post math_data line_name) = Uncaught ValueError /\
  @generate_xmls scenario_repr
    (disk_at scenario_template scenario_meta (1979, 12, 31, 23, 59, 59))
    (post math_data (lit "math")) = Uncaught ValueError /\
  @generate_xmls scenario_repr
    (disk_at scenario_template scenario_meta (2108, 1, 1, 0, 0, 0))
    (post math_data (lit "math")) = Uncaught StructError.
Proof. repeat split; vm_compute; reflexivity. Qed.

(** C2, refuted as stated: a quiz record without [TITLE] is answered with
    500, the [KeyError] escaping the view, and not with 400. *)
Lemma missing_title_is_answered_with_500 :
  @generate_xmls scenario_repr (disk scenario_template scenario_meta 0)
    (post (JDict [(lit "quizzes", JList [untitled_quiz])]) (lit "math")) =
  Uncaught (KeyError (lit "TITLE")) /\
  status (@generate_xmls scenario_repr (disk scenario_template scenario_meta 0)
            (post (JDict [(lit "quizzes", JList [untitled_quiz])]) (lit "math")))
  <> 400.
Proof. split; [vm_compute; reflexivity | vm_compute; discriminate]. Qed.

Lemma missing_key_escapes_the_view_witness :
  status (@generate_xmls scenario_repr (disk scenario_template scenario_meta 0)
            (post (JDict [(lit "quizzes", JList [untitled_quiz])]) (lit "math")))
  = 500.
Proof.
  refine (proj1 (proj2 (proj1
    (@missing_key_escapes_the_view scenario_repr
       (disk scenario_template scenario_meta 0)
       (post (JDict [(lit "quizzes", JList [untitled_quiz])]) (lit "math"))
       (JDict [(lit "quizzes", JList [untitled_quiz])])
       scenario_template scenario_meta [untitled_quiz] _ _ _ _ _) _)));
    try reflexivity.
  vm_compute. discriminate.
Defined.

(** C3, refuted as stated: placeholders inside the title are substituted by
    the later steps, and the title does not appear verbatim in the output;
    likewise an Option placeholder inside an answer. *)
Lemma title_placeholders_are_substituted :
  (@full_xml scenario_repr (lit "<t>{{TITLE}}</t>") scenario_meta nested_quiz =
   ok (lit "<t>2+2? true</t><meta>1</meta>") /\
   ~ occurs (lit "{{QUESTION_1}}") (lit "<t>2+2? true</t><meta>1</meta>") /\
   ~ occurs (lit "{{Option_11}}") (lit "<t>2+2? true</t><meta>1</meta>")) /\
  (@full_xml scenario_repr (lit "<a>{{ANSWER_1A}}</a>") scenario_meta
     (json_quiz 1 (lit "Quiz A")
        [json_question (lit "2+2?") [lit "{{Option_11}}"] 0]) =
   ok (lit "<a>true</a><meta>1</meta>") /\
   ~ occurs (lit "{{Option_11}}") (lit "<a>true</a><meta>1</meta>")).
Proof.
  split.
  - split; [vm_compute; reflexivity|].
    split; apply not_contains_iff; vm_compute; reflexivity.
  - split; [vm_compute; reflexivity|].
    apply not_contains_iff; vm_compute; reflexivity.
Qed.

Lemma later_steps_scan_inserted_values_witness :
  fill_content (render [Text (lit "<t>"); Hole (lit "TITLE"); Text (lit "</t>")])
    nested_quiz =
  ok (render (flat_map (resolve nested_steps)
                [Text (lit "<t>"); Hole (lit "TITLE"); Text (lit "</t>")])).
Proof.
  refine (proj1
    (later_steps_scan_inserted_values
       [Text (lit "<t>"); Hole (lit "TITLE"); Text (lit "</t>")]
       nested_quiz (lit "{{QUESTION_1}} {{Option_11}}") [nested_question]
       nested_steps _ _ _ _ _));
    try reflexivity.
  - split; [reflexivity|].
    exists [json_question (lit "2+2?") [] 0].
    split; [reflexivity|].
    constructor; [repeat split; reflexivity | constructor].
  - constructor; [simpl; lia | constructor].
Defined.

(** What the witness says in plain text. *)
Example nested_title_resolved :
  render (flat_map (resolve nested_steps)
            [Text (lit "<t>"); Hole (lit "TITLE"); Text (lit "</t>")]) =
  lit "<t>2+2? true</t>".
Proof. vm_compute. reflexivity. Qed.





Lemma request_validation_witness :
  @generate_xmls scenario_repr (disk scenario_template scenario_meta 0)
    {| files := []; form := [(lit "base_name", lit "math")] |} =
  Abort 400 (lit "No JSON file part").
Proof.
  apply (proj1 (@request_validation scenario_repr
                  (disk scenario_template scenario_meta 0)
                  {| files := []; form := [(lit "base_name", lit "math")] |})).
  reflexivity.
Defined.

Lemma packaging_is_deterministic_witness :
  same_response
    (@generate_xmls scenario_repr (disk scenario_template scenario_meta 0)
       (post math_data (lit "math")))
    (@generate_xmls scenario_repr (disk scenario_template scenario_meta 30)
       (post math_data (lit "math"))).
Proof.
  refine (proj2 (@packaging_is_deterministic scenario_repr
           (disk scenario_template scenario_meta 0)
           (disk scenario_template scenario_meta 30)
           (post math_data (lit "math")) (post math_data (lit "math"))
           _ _ _ _) _);
    try reflexivity.
Defined.

(** C9, refuted as stated: a JSON document that parses and has no
    ["quizzes"] key, because it is a list, ends in a 500; and so does the
    empty object when a line feed stands inside [base_name]. *)
Lemma no_quizzes_can_end_in_500 :
  (@generate_xmls scenario_repr (disk scenario_template scenario_meta 0)
     (post (JList []) (lit "math")) = Uncaught AttributeError /\
   status (@generate_xmls scenario_repr (disk scenario_template scenario_meta 0)
             (post (JList []) (lit "math"))) = 500) /\
  (@generate_xmls scenario_repr (disk scenario_template scenario_meta 0)
     (post (JDict []) line_name) = Uncaught ValueError /\
   status (@generate_xmls scenario_repr (disk scenario_template scenario_meta 0)
             (post (JDict []) line_name)) = 500).
Proof. repeat split; vm_compute; reflexivity. Qed.

Lemma no_quizzes_gives_empty_archive_witness :
  @generate_xmls scenario_repr (disk scenario_template scenario_meta 0)
    (post (JDict []) (lit "math")) =
  SendFile [] (lit "application/zip") true (lit "math_xmls.zip").
Proof.
  refine (proj1 (proj1 (@no_quizzes_gives_empty_archive scenario_repr
                   (disk scenario_template scenario_meta 0)
                   (post (JDict []) (lit "math")) []
                   scenario_template scenario_meta _ _ _ _ _) _));
    try reflexivity.
  - vm_compute. discriminate.
  - left. reflexivity.
Defined.

Lemma base_name_is_stripped_witness :
  @generate_xmls scenario_repr (disk scenario_template scenario_meta 0)
    (post math_data (lit "   ")) =
  Abort 400 (lit "Base filename is required").
Proof.
  refine (proj1 (proj2 (proj2 (proj2
    (@base_name_is_stripped scenario_repr
       (disk scenario_template scenario_meta 0)
       (post math_data (lit "   ")))))) (Parsed math_data) _ _);
    reflexivity.
Defined.

(** * Further properties of [markRight] *)

Lemma flag_not_in_option_ph (b : bool) (qnum i : Z) :
  ~ occurs (if b then lit "true" else lit "false") (option_ph qnum i).
Proof.
  intros H.
  assert (exists c, In c (if b then lit "true" else lit "false") /\
                    ~ In c (lit "{{Option_}}") /\ ~ numeric c)
    as (c & Hc & Hn1 & Hn2).
  { destruct b.
    - exists 114%N. split; [cbv; tauto|]. split.
      + cbv. intros X. repeat (destruct X as [X | X]; [discriminate X|]). exact X.
      + unfold numeric. lia.
    - exists 102%N. split; [cbv; tauto|]. split.
      + cbv. intros X. repeat (destruct X as [X | X]; [discriminate X|]). exact X.
      + unfold numeric. lia. }
  apply (occurs_In _ _ c) in H; [|exact Hc].
  apply option_ph_chars in H. tauto.
Qed.

Lemma markRight_steps (content : str) (qnum : Z) (v : json) :
  markRight content qnum v =
  replace (option_ph qnum 4) (if py_eq_int 3 v then lit "true" else lit "false")
    (replace (option_ph qnum 3) (if py_eq_int 2 v then lit "true" else lit "false")
       (replace (option_ph qnum 2) (if py_eq_int 1 v then lit "true" else lit "false")
          (replace (option_ph qnum 1)
             (if py_eq_int 0 v then lit "true" else lit "false") content))).
Proof. reflexivity. Qed.

(** Whatever [optionNo] is, no Option placeholder of the question is left. *)
Lemma markRight_clears_any (content : str) (qnum : Z) (v : json) (i : Z) :
  1 <= i <= 4 -> ~ occurs (option_ph qnum i) (markRight content qnum v).
Proof.
  intros Hi. rewrite markRight_steps.
  assert (forall j (b : bool) s, ~ occurs (option_ph qnum i) s ->
            ~ occurs (option_ph qnum i)
                (replace (option_ph qnum j)
                   (if b then lit "true" else lit "false") s)) as Keep.
  { intros j b s Hs. apply replace_keeps_absent; try assumption.
    - rewrite option_ph_hole. apply hole_not_nil.
    - destruct b; reflexivity.
    - apply flag_not_in_option_ph.
    - rewrite option_ph_hole. apply opens_hole.
    - rewrite option_ph_hole. apply closes_hole. }
  assert (forall (b : bool) s, ~ occurs (option_ph qnum i)
            (replace (option_ph qnum i)
               (if b then lit "true" else lit "false") s)) as Kill.
  { intros b s. apply replace_removes.
    - destruct b; reflexivity.
    - apply flag_not_in_option_ph.
    - rewrite option_ph_hole. apply opens_hole.
    - rewrite option_ph_hole. apply closes_hole. }
  apply slot_cases in Hi. destruct Hi as [-> | [-> | [-> | ->]]].
  - apply Keep, Keep, Keep, Kill.
  - apply Keep, Keep, Kill.
  - apply Keep, Kill.
  - apply Kill.
Qed.

Lemma markRight_absent (content : str) (qnum : Z) (v : json) :
  (forall i, 1 <= i <= 4 -> ~ occurs (option_ph qnum i) content) ->
  markRight content qnum v = content.
Proof.
  intros H. rewrite markRight_steps.
  assert (forall i, option_ph qnum i <> []) as Hne
    by (intros i; rewrite option_ph_hole; apply hole_not_nil).
  rewrite (replace_absent (option_ph qnum 1)) by (auto || (apply H; lia)).
  rewrite (replace_absent (option_ph qnum 2)) by (auto || (apply H; lia)).
  rewrite (replace_absent (option_ph qnum 3)) by (auto || (apply H; lia)).
  rewrite (replace_absent (option_ph qnum 4)) by (auto || (apply H; lia)).
  reflexivity.
Qed.

(** X1.  [markRight] changes the content exactly when one of the four
    Option placeholders of the question occurs in it. *)
Theorem markRight_fixes_content_without_placeholders (content : str)
  (qnum : Z) (optionNo : json) :
  markRight content qnum optionNo = content <->
  (forall i, 1 <= i <= 4 -> ~ occurs (option_ph qnum i) content).
Proof.
  split.
  - intros H i Hi Ho. rewrite <- H in Ho.
    exact (markRight_clears_any content qnum optionNo i Hi Ho).
  - apply markRight_absent.
Qed.

(** X2.  [markRight] is idempotent, also when the second call names another
    correct option: once the placeholders are resolved a later call finds
    nothing to replace. *)
Theorem markRight_idempotent (content : str) (qnum : Z) (v v' : json) :
  markRight (markRight content qnum v) qnum v' = markRight content qnum v.
Proof.
  apply markRight_absent. intros i Hi. apply markRight_clears_any. exact Hi.
Qed.

Lemma marks_no_slot_eq (v : json) (n : Z) :
  marks_no_slot v -> 0 <= n <= 3 -> py_eq_int n v = false.
Proof.
  destruct v; cbn [marks_no_slot py_eq_int]; intros H Hn;
    try reflexivity; try contradiction.
  apply Z.eqb_neq. lia.
Qed.

(** X3.  When [CORRECT] is an integer outside 0..3, or [null], a string, a
    list or a dict, no comparison succeeds and every one of the four Option
    placeholders is replaced by ["false"]; no exception is raised. *)
Theorem markRight_out_of_range_marks_all_false (content : str) (qnum : Z)
  (optionNo : json) :
  marks_no_slot optionNo ->
  markRight content qnum optionNo =
    run_bindings (all_false_bindings qnum) content /\
  (forall ts, well_formed ts = true ->
     markRight (render ts) qnum optionNo =
     render (map (subst_all (all_false_bindings qnum)) ts)) /\
  (forall i, 1 <= i <= 4 ->
     subst_all (all_false_bindings qnum) (Hole (option_name qnum i)) =
     Text (lit "false")).
Proof.
  intros Hv.
  assert (markRight content qnum optionNo =
          run_bindings (all_false_bindings qnum) content /\
          forall c, markRight c qnum optionNo =
                    run_bindings (all_false_bindings qnum) c) as [H1 H2].
  { assert (forall c, markRight c qnum optionNo =
                      run_bindings (all_false_bindings qnum) c) as G.
    { intros c. rewrite markRight_unfold. unfold run_bindings, all_false_bindings.
      rewrite range_1_5. cbn [map Z.sub].
      change (1 - 1) with 0. change (2 - 1) with 1.
      change (3 - 1) with 2. change (4 - 1) with 3.
      rewrite !(marks_no_slot_eq optionNo) by (assumption || lia).
      reflexivity. }
    split; [apply G | exact G]. }
  split; [exact H1|]. split.
  - intros ts Hwf. rewrite H2. apply fold_replace_render; [|exact Hwf].
    unfold all_false_bindings. rewrite range_1_5. cbn [map forallb].
    unfold binding_ok. cbn [fst snd]. rewrite !option_name_plain. reflexivity.
  - intros i Hi. cbn [subst_all]. unfold all_false_bindings.
    rewrite range_1_5. cbn [map assoc]. rewrite !option_name_eqb by lia.
    apply slot_cases in Hi. destruct Hi as [-> | [-> | [-> | ->]]]; reflexivity.
Qed.

Lemma markRight_out_of_range_marks_all_false_witness :
  markRight (lit "<o>{{Option_12}}</o>") 1 (JInt 7) =
  run_bindings (all_false_bindings 1) (lit "<o>{{Option_12}}</o>").
Proof.
  apply (proj1 (markRight_out_of_range_marks_all_false
                  (lit "<o>{{Option_12}}</o>") 1 (JInt 7) (or_intror eq_refl))).
Defined.

(** X4.  A JSON boolean or an integral float under [CORRECT] is compared as
    the integer it equals: [true] and [1.0] mark the second option, [false],
    [0.0] and [-0.0] the first. *)
Theorem markRight_bool_and_float_as_int (content : str) (qnum : Z) :
  markRight content qnum (JBool true) = markRight content qnum (JInt 1) /\
  markRight content qnum (JBool false) = markRight content qnum (JInt 0) /\
  markRight content qnum (JFloat (lit "-0.0")) = markRight content qnum (JInt 0) /\
  (forall k, 0 <= k <= 3 ->
     markRight content qnum (JFloat (str_of_Z k ++ lit ".0")) =
     markRight content qnum (JInt k)).
Proof.
  repeat split; try reflexivity.
  intros k Hk. rewrite !markRight_steps.
  assert (k = 0 \/ k = 1 \/ k = 2 \/ k = 3) as [-> | [-> | [-> | ->]]] by lia;
    reflexivity.
Qed.

(** * When the filler succeeds *)

Lemma chr_inv (n : Z) (c : char) :
  chr n = Some c -> 0 <= n < 1114112 /\ c = Z.to_N n.
Proof.
  unfold chr. destruct (0 <=? n) eqn:E1; [|discriminate].
  destruct (n <? 1114112) eqn:E2; [|discriminate].
  cbn [andb]. intros H. apply ok_inj_some in H.
  apply Z.leb_le in E1. apply Z.ltb_lt in E2. auto.
Qed.

Lemma chr_none (n : Z) : 1114112 <= n -> chr n = None.
Proof.
  intros H. unfold chr.
  replace (n <? 1114112) with false by (symmetry; apply Z.ltb_ge; lia).
  rewrite andb_false_r. reflexivity.
Qed.

Lemma is_str_inv (v : json) : is_str v = true -> exists s, v = JStr s.
Proof. destruct v; try discriminate. intros _. eexists; reflexivity. Qed.

Lemma all_str_inv (l : list json) :
  forallb is_str l = true -> exists texts, l = map JStr texts.
Proof.
  induction l as [|v l IH]; intros H.
  - exists []. reflexivity.
  - cbn [forallb] in H. apply andb_true_iff in H as [Hv Hl].
    apply is_str_inv in Hv as [s ->]. destruct (IH Hl) as [texts ->].
    exists (s :: texts). reflexivity.
Qed.

Lemma all_str_map (texts : list str) : forallb is_str (map JStr texts) = true.
Proof. induction texts as [|s texts IH]; [reflexivity | exact IH]. Qed.

Lemma fill_answer_eq (qnum : Z) (c : str) (anum : Z) (v : json) :
  fill_answer qnum c (anum, v) =
  match chr (64 + anum) with
  | None => raise ValueError
  | Some letter =>
      match v with
      | JStr a => ok (replace (answer_ph qnum letter) a c)
      | _ => raise TypeError
      end
  end.
Proof.
  unfold fill_answer. destruct (chr (64 + anum)); [|reflexivity].
  destruct v; reflexivity.
Qed.

Lemma fill_answers_ok_inv (qnum : Z) (answers : list json) (start : Z)
  (c c' : str) :
  -64 <= start ->
  foldM (fill_answer qnum) (enumerate answers start) c = ok c' ->
  forallb is_str answers = true /\
  (answers = [] \/ start + Z.of_nat (List.length answers) <= 1114048).
Proof.
  revert start c. induction answers as [|v answers IH]; intros start c Hs H.
  - split; [reflexivity | left; reflexivity].
  - cbn [enumerate foldM] in H. apply bind_ok_inv in H as (c1 & H1 & H).
    rewrite fill_answer_eq in H1.
    destruct (chr (64 + start)) as [letter|] eqn:Ec; [|discriminate].
    apply chr_inv in Ec as [Hb _].
    destruct v; try discriminate.
    apply IH in H as [Hall Hlen]; [|lia].
    split; [exact Hall|]. right. cbn [List.length].
    destruct Hlen as [-> | Hlen]; cbn [List.length]; lia.
Qed.

(** The loop over answers that are strings, then the rest of the loop. *)
Lemma fill_answers_prefix (qnum : Z) (pre : list str) (rest : list json)
  (start : Z) (c : str) :
  -64 <= start -> start + Z.of_nat (List.length pre) <= 1114048 ->
  foldM (fill_answer qnum) (enumerate (map JStr pre ++ rest) start) c =
  foldM (fill_answer qnum) (enumerate rest (start + Z.of_nat (List.length pre)))
    (fold_left (fun c b => replace (hole (fst b)) (snd b) c)
       (map (fun it => (answer_name qnum (fst it), snd it)) (enumerate pre start))
       c).
Proof.
  revert start c. induction pre as [|a pre IH]; intros start c H1 H2.
  - cbn [map app enumerate fold_left List.length]. rewrite Z.add_0_r. reflexivity.
  - cbn [List.length] in H2. cbn [map app enumerate foldM fold_left fst snd].
    rewrite fill_answer_eq, chr_ok by lia. cbn [bind ok].
    rewrite answer_ph_hole. rewrite IH by lia. cbn [List.length].
    replace (start + 1 + Z.of_nat (List.length pre))
      with (start + Z.of_nat (S (List.length pre))) by lia.
    reflexivity.
Qed.

(** X5.  The loop over the answers succeeds exactly when every answer is a
    string and there are at most 1114047 of them, and then it is the run of
    their replacements; the first answer that is not a string raises
    [TypeError]; the 1114048th answer raises [ValueError], [chr] having no
    letter for it. *)
Theorem fill_answers_outcome (content : str) (qnum : Z) (answers : list json) :
  (forall c',
     fill_answers content qnum answers = ok c' <->
     exists texts,
       answers = map JStr texts /\
       Z.of_nat (List.length texts) <= 1114047 /\
       c' = run_bindings (answer_bindings qnum texts) content) /\
  (forall texts v rest,
     answers = map JStr texts ++ v :: rest -> is_str v = false ->
     Z.of_nat (List.length texts) < 1114047 ->
     fill_answers content qnum answers = raise TypeError) /\
  (forall texts a rest,
     answers = map JStr texts ++ JStr a :: rest ->
     Z.of_nat (List.length texts) = 1114047 ->
     fill_answers content qnum answers = raise ValueError).
Proof.
  split; [|split].
  - intros c'. split.
    + intros H. pose proof H as H0. unfold fill_answers in H0.
      apply fill_answers_ok_inv in H0 as [Hall Hlen]; [|lia].
      apply all_str_inv in Hall as [texts ->]. exists texts.
      rewrite length_map in Hlen.
      assert (Z.of_nat (List.length texts) <= 1114047) as Hl.
      { destruct Hlen as [E | Hlen]; [|lia].
        destruct texts; [cbn; lia | discriminate]. }
      split; [reflexivity|]. split; [exact Hl|].
      unfold fill_answers in H. rewrite fill_answers_fold in H by lia.
      apply ok_inj in H. symmetry. exact H.
    + intros (texts & -> & Hl & ->). unfold fill_answers.
      rewrite fill_answers_fold by lia. reflexivity.
  - intros texts v rest -> Hv Hl. unfold fill_answers.
    rewrite fill_answers_prefix by lia. cbn [enumerate foldM].
    rewrite fill_answer_eq, chr_ok by lia.
    destruct v; try reflexivity. discriminate.
  - intros texts a rest -> Hl. unfold fill_answers.
    rewrite fill_answers_prefix by lia. cbn [enumerate foldM].
    rewrite fill_answer_eq, chr_none by lia. reflexivity.
Qed.

Lemma fill_answers_outcome_witness :
  fill_answers (lit "{{ANSWER_1A}}") 1 [JStr (lit "3"); JInt 4] = raise TypeError.
Proof.
  refine (proj1 (proj2 (fill_answers_outcome (lit "{{ANSWER_1A}}") 1
                          [JStr (lit "3"); JInt 4]))
            [lit "3"] (JInt 4) [] eq_refl eq_refl _).
  cbn. lia.
Defined.

Lemma fill_question_ok_iff (c : str) (qnum : Z) (q : json) :
  (exists c', fill_question c (qnum, q) = ok c') <-> question_ok q = true.
Proof.
  unfold fill_question, question_ok. split.
  - intros [c' H].
    apply bind_ok_inv in H as (qv & Hqv & H).
    apply bind_ok_inv in H as (qtext & Hqt & H).
    apply bind_ok_inv in H as (av & Hav & H).
    apply bind_ok_inv in H as (answers & Hit & H).
    apply bind_ok_inv in H as (c2 & Hfa & H).
    apply bind_ok_inv in H as (cv & Hcv & _).
    rewrite Hqv, Hav, Hcv. cbn [bind ok]. rewrite Hit. cbn [ok].
    destruct qv; try discriminate. cbn [andb].
    rewrite andb_true_r.
    unfold fill_answers in Hfa.
    apply fill_answers_ok_inv in Hfa as [Hall Hlen]; [|lia].
    rewrite Hall. cbn [andb]. apply Z.leb_le.
    destruct Hlen as [-> | Hlen]; [cbn; lia | lia].
  - intros H. apply andb_true_iff in H as [H H3].
    apply andb_true_iff in H as [H1 H2].
    destruct (py_getitem q (lit "QUESTION")) as [e | qv]; [discriminate|].
    destruct qv; try discriminate. cbn [bind ok as_str].
    destruct (py_getitem q (lit "ANSWERS")) as [e | av]; [discriminate|].
    cbn [bind] in *.
    destruct (py_iter av) as [e | answers]; [discriminate|]. cbn [bind].
    apply andb_true_iff in H2 as [Hall Hl]. apply Z.leb_le in Hl.
    apply all_str_inv in Hall as [texts ->]. rewrite length_map in Hl.
    unfold fill_answers. rewrite fill_answers_fold by lia. cbn [bind ok].
    destruct (py_getitem q (lit "CORRECT")) as [e | cv]; [discriminate|].
    cbn [bind]. eexists. reflexivity.
Qed.

Lemma fill_questions_ok_iff (questions : list json) (start : Z) (c : str) :
  (exists c', foldM fill_question (enumerate questions start) c = ok c') <->
  forallb question_ok questions = true.
Proof.
  revert start c. induction questions as [|q questions IH]; intros start c.
  - split; [reflexivity | intros _; eexists; reflexivity].
  - cbn [enumerate foldM forallb]. rewrite andb_true_iff. split.
    + intros [c' H]. apply bind_ok_inv in H as (c1 & H1 & H). split.
      * apply (fill_question_ok_iff c start q). exists c1. exact H1.
      * apply (IH (start + 1) c1). exists c'. exact H.
    + intros [Hq Hqs].
      apply (fill_question_ok_iff c start q) in Hq as [c1 H1]. rewrite H1.
      cbn [bind ok]. apply (IH (start + 1) c1). exact Hqs.
Qed.

Lemma fill_content_ok_iff (template : str) (quiz : json) :
  (exists c, fill_content template quiz = ok c) <->
  (match py_getitem quiz (lit "TITLE") with
   | inr (JStr _) => true
   | _ => false
   end &&
   match qv <- py_getitem quiz (lit "QUESTIONS") ;; py_iter qv with
   | inr questions => forallb question_ok questions
   | inl _ => false
   end) = true.
Proof.
  unfold fill_content.
  destruct (py_getitem quiz (lit "TITLE")) as [e | tv]; cbn [bind].
  { split; [intros [c H]; discriminate | discriminate]. }
  destruct tv; cbn [as_str bind raise ok];
    try (split; [intros [c H]; discriminate | discriminate]).
  destruct (py_getitem quiz (lit "QUESTIONS")) as [e | qv]; cbn [bind].
  { split; [intros [c H]; discriminate | discriminate]. }
  destruct (py_iter qv) as [e | questions]; cbn [bind andb].
  { split; [intros [c H]; discriminate | discriminate]. }
  apply fill_questions_ok_iff.
Qed.

Section SuccessOfADocument.

Context {R : PyRepr}.

Lemma full_xml_ok_iff (xml meta : str) (quiz : json) :
  (exists doc, full_xml xml meta quiz = ok doc) <-> quiz_ok quiz = true.
Proof.
  unfold full_xml, quiz_ok.
  pose proof (fill_content_ok_iff xml quiz) as F.
  destruct (fill_content xml quiz) as [e | content] eqn:Ec.
  - cbn [bind]. split; [intros [doc H]; discriminate|].
    intros H. apply andb_true_iff in H as [H _].
    apply F in H as [c H]. discriminate.
  - cbn [bind].
    assert ((match py_getitem quiz (lit "TITLE") with
             | inr (JStr _) => true
             | _ => false
             end &&
             match qv <- py_getitem quiz (lit "QUESTIONS") ;; py_iter qv with
             | inr questions => forallb question_ok questions
             | inl _ => false
             end) = true) as -> by (apply F; exists content; reflexivity).
    cbn [andb].
    destruct (py_getitem quiz (lit "id")) as [e | idv]; cbn [bind].
    + split; [intros [doc H]; discriminate | discriminate].
    + split; [reflexivity | intros _; eexists; reflexivity].
Qed.

(** X6.  A quiz record gets a document exactly when it has the shape the
    filler needs: a string [TITLE], [QUESTIONS] that a loop can visit, every
    question with a string [QUESTION], [ANSWERS] that yield strings only, and
    a [CORRECT] item, and an [id] item.  The contents of the two templates
    play no part in it. *)
Theorem document_exists_iff_quiz_ok (xml meta : str) (quiz : json) :
  (exists doc, full_xml xml meta quiz = ok doc) <-> quiz_ok quiz = true.
Proof. apply full_xml_ok_iff. Qed.

Lemma documents_exist_iff (xml meta : str) (quizzes : list json) :
  (exists docs, Forall2 (document_of xml meta) quizzes docs) <->
  forallb quiz_ok quizzes = true.
Proof.
  induction quizzes as [|quiz quizzes IH].
  - split; [reflexivity | intros _; exists []; constructor].
  - cbn [forallb]. rewrite andb_true_iff, <- IH, <- full_xml_ok_iff. split.
    + intros [docs H]. inversion H as [|q d qs ds Hd Hds]; subst.
      split; [exists d; apply full_xml_document, Hd | exists ds; exact Hds].
    + intros [[d Hd] [ds Hds]]. exists (d :: ds).
      constructor; [apply full_xml_document, Hd | exact Hds].
Qed.

End SuccessOfADocument.

(** * Further properties of the endpoint *)

Lemma foldM_app {A B : Type} (body : B -> A -> result B) (l1 l2 : list A) (b : B) :
  foldM body (l1 ++ l2) b = (b' <- foldM body l1 b ;; foldM body l2 b').
Proof.
  revert b. induction l1 as [|a l1 IH]; intros b; [reflexivity|].
  cbn [app foldM]. destruct (body b a) as [e | b1]; cbn [bind]; [reflexivity|].
  apply IH.
Qed.

Lemma enumerate_app {A : Type} (l1 l2 : list A) (start : Z) :
  enumerate (l1 ++ l2) start =
  enumerate l1 start ++ enumerate l2 (start + Z.of_nat (List.length l1)).
Proof.
  revert start. induction l1 as [|a l1 IH]; intros start.
  - cbn [app enumerate List.length]. rewrite Z.add_0_r. reflexivity.
  - cbn [app enumerate List.length]. rewrite IH. do 3 f_equal. lia.
Qed.




Lemma Forall2_nth_l {A B : Type} (P : A -> B -> Prop) (l : list A) (l' : list B)
  (i : nat) (a : A) :
  Forall2 P l l' -> nth_error l i = Some a ->
  exists b, nth_error l' i = Some b /\ P a b.
Proof.
  intros H. revert i. induction H as [|x y l l' Hxy _ IH]; intros i Hi.
  - destruct i; discriminate.
  - destruct i as [|i].
    + cbn [nth_error] in Hi. apply ok_inj_some in Hi. subst x.
      exists y. split; [reflexivity | exact Hxy].
    + cbn [nth_error] in Hi. apply IH, Hi.
Qed.

Lemma Forall2_nth_r {A B : Type} (P : A -> B -> Prop) (l : list A) (l' : list B)
  (i : nat) (b : B) :
  Forall2 P l l' -> nth_error l' i = Some b ->
  exists a, nth_error l i = Some a /\ P a b.
Proof.
  intros H. revert i. induction H as [|x y l l' Hxy _ IH]; intros i Hi.
  - destruct i; discriminate.
  - destruct i as [|i].
    + cbn [nth_error] in Hi. apply ok_inj_some in Hi. subst y.
      exists x. split; [reflexivity | exact Hxy].
    + cbn [nth_error] in Hi. apply IH, Hi.
Qed.

Section FurtherEndpointProperties.

Context {R : PyRepr}.


(** The loop gets through the records exactly when each has a document
    that [writestr] accepts. *)
Lemma write_quizzes_ok_iff (E : environ) (base_name xml meta : str)
  (quizzes : list json) :
  (exists z, foldM (write_quiz E base_name xml meta) (enumerate quizzes 1) [] = ok z)
  <->
  forallb quiz_ok quizzes = true /\
  (forall i quiz doc,
     nth_error quizzes i = Some quiz -> full_xml xml meta quiz = ok doc ->
     encodable doc = true /\ time_ok (localtime E i) = true /\
     name_ok (base_name ++ lit "_" ++ str_of_Z (Z.of_nat i + 1) ++ lit ".xml")
       = true).
Proof.
  split.
  - intros [z H]. apply write_quizzes_inv in H as (docs & HF & Hw & _).
    split; [apply (proj1 (documents_exist_iff xml meta quizzes));
            exists docs; exact HF|].
    intros i quiz doc Hi Hd.
    destruct (Forall2_nth_l _ _ _ _ _ HF Hi) as (doc' & Hi' & Hd').
    apply full_xml_document in Hd.
    rewrite (document_of_unique xml meta quiz doc doc' Hd Hd').
    cbn [List.length] in Hw.
    pose proof (proj1 (writable_nth E base_name 1 0 docs) Hw i doc' Hi') as W.
    cbn [Nat.add] in W. rewrite (Z.add_comm 1) in W. exact W.
  - intros [Hq Hw].
    apply (proj2 (documents_exist_iff xml meta quizzes)) in Hq as [docs HF].
    exists ([] ++ expected_entries E base_name 1 (List.length (@nil zip_entry)) docs).
    apply write_quizzes_total; [exact HF|].
    apply writable_nth. intros i doc Hi.
    destruct (Forall2_nth_r _ _ _ _ _ HF Hi) as (quiz & Hi' & Hd).
    apply full_xml_document in Hd.
    cbn [List.length Nat.add]. rewrite (Z.add_comm 1). exact (Hw i quiz doc Hi' Hd).
Qed.


(** X8.  For a request that reaches the packaging step the response is 200
    exactly when every quiz record has the shape the filler needs, the
    document of each record can be stored (its text has no surrogate, the
    local time is one a zip entry can record, the name of the entry is
    not empty before its first NUL character, has no surrogate and fits
    65535 bytes) and [base_name] has no surrogate and no carriage return or
    line feed; when a record has not the shape, the response is 500 and no
    archive is sent. *)
Theorem status_200_iff_all_records_ok (E : environ) (req : request)
  (data : json) (xml meta : str) (quizzes : list json) :
  assoc (lit "quiz_json") (files req) = Some (Parsed data) ->
  strip (form_get req (lit "base_name") []) <> [] ->
  read_text E (XML_TEMPLATE_PATH E) = ok xml ->
  read_text E (META_BLOCK_PATH E) = ok meta ->
  (qv <- py_get data (lit "quizzes") (JList []) ;; py_iter qv) = ok quizzes ->
  (status (generate_xmls E req) = 200 <->
   forallb quiz_ok quizzes = true /\
   (forall i quiz doc,
      nth_error quizzes i = Some quiz -> full_xml xml meta quiz = ok doc ->
      encodable doc = true /\ time_ok (localtime E i) = true /\
      name_ok (strip (form_get req (lit "base_name") []) ++ lit "_"
                 ++ str_of_Z (Z.of_nat i + 1) ++ lit ".xml") = true) /\
   sendable (strip (form_get req (lit "base_name") [])) = true) /\
  (forallb quiz_ok quizzes = false ->
   status (generate_xmls E req) = 500 /\
   sent_archive (generate_xmls E req) = None).
Proof.
  intros Hf Hb Hx Hm Hq.
  pose proof (generate_xmls_proceeds E req data xml meta Hf Hb Hx Hm) as G.
  cbv zeta in G. rewrite (build_zip_unfold _ _ _ _ _ _ Hq) in G. rewrite G.
  pose proof (write_quizzes_ok_iff E (strip (form_get req (lit "base_name") []))
                xml meta quizzes) as W.
  pose proof (sendable_download_name (strip (form_get req (lit "base_name") [])))
    as Hs.
  destruct (foldM _ _ _) as [e | z].
  - split.
    + split; [discriminate|]. intros (H1 & H2 & _).
      destruct (proj2 W (conj H1 H2)) as [z H]. discriminate.
    + intros _. split; reflexivity.
  - destruct (proj1 W (ex_intro _ z eq_refl)) as [W1 W2]. rewrite W1.
    split; [|discriminate].
    destruct (sendable (strip (form_get req (lit "base_name") []))) eqn:Es.
    + rewrite send_file_sendable by (rewrite Hs; reflexivity).
      split; [intros _; auto | reflexivity].
    + rewrite send_file_refused by (rewrite Hs; reflexivity).
      split; [discriminate | intros (_ & _ & H); discriminate].
Qed.

(** X9.  The first quiz record that cannot be filled or stored decides the
    outcome: when the records before it have documents that [writestr]
    accepts and its own document cannot be made, that exception escapes
    the view; when its document is made but has a surrogate,
    [UnicodeEncodeError] escapes; in both cases the entries written for
    the records before it are not sent. *)
Theorem first_failure_aborts_the_request (E : environ) (req : request)
  (data : json) (xml meta : str) (good : list json) (docs : list str)
  (bad : json) (rest : list json) :
  assoc (lit "quiz_json") (files req) = Some (Parsed data) ->
  strip (form_get req (lit "base_name") []) <> [] ->
  read_text E (XML_TEMPLATE_PATH E) = ok xml ->
  read_text E (META_BLOCK_PATH E) = ok meta ->
  (qv <- py_get data (lit "quizzes") (JList []) ;; py_iter qv) =
    ok (good ++ bad :: rest) ->
  Forall2 (document_of xml meta) good docs ->
  writable E (strip (form_get req (lit "base_name") [])) 1 0 docs = true ->
  (forall e, full_xml xml meta bad = raise e ->
     generate_xmls E req = Uncaught e /\
     sent_archive (generate_xmls E req) = None) /\
  (forall doc, full_xml xml meta bad = ok doc -> encodable doc = false ->
     generate_xmls E req = Uncaught UnicodeEncodeError /\
     sent_archive (generate_xmls E req) = None).
Proof.
  intros Hf Hb Hx Hm Hq Hg Hw.
  pose proof (generate_xmls_proceeds E req data xml meta Hf Hb Hx Hm) as G.
  cbv zeta in G. rewrite (build_zip_unfold _ _ _ _ _ _ Hq) in G.
  rewrite enumerate_app, foldM_app in G.
  rewrite (write_quizzes_total E _ xml meta good docs 1 [] Hg Hw) in G.
  cbn [bind ok enumerate foldM] in G. rewrite write_quiz_eq in G.
  split.
  - intros e He. rewrite He in G. cbn [raise bind] in G.
    rewrite G. split; reflexivity.
  - intros doc Hd He. rewrite Hd in G. cbn [ok bind] in G.
    rewrite writestr_eq, He in G. cbn [raise bind] in G.
    rewrite G. split; reflexivity.
Qed.

(** X10.  The view answers with 200, 400 or 500 and with nothing else, and
    an archive is sent exactly when it answers with 200. *)
Theorem only_three_statuses (E : environ) (req : request) :
  (status (generate_xmls E req) = 200 \/
   status (generate_xmls E req) = 400 \/
   status (generate_xmls E req) = 500) /\
  (status (generate_xmls E req) = 200 <->
   exists zipf, sent_archive (generate_xmls E req) = Some zipf).
Proof.
  unfold generate_xmls.
  destruct (assoc (lit "quiz_json") (files req)) as [f|].
  2:{ split; [right; left; reflexivity|].
      split; [discriminate | intros [z H]; discriminate]. }
  destruct (is_empty _).
  { split; [right; left; reflexivity|].
    split; [discriminate | intros [z H]; discriminate]. }
  destruct f as [err | data].
  { split; [right; left; reflexivity|].
    split; [discriminate | intros [z H]; discriminate]. }
  destruct (load_templates E) as [e | [xml meta]].
  { destruct e; (split; [right; right; reflexivity|]);
      (split; [discriminate | intros [z H]; discriminate]). }
  destruct (build_zip E _ xml meta data) as [e | z].
  { split; [right; right; reflexivity|].
    split; [discriminate | intros [z H]; discriminate]. }
  unfold send_file. destruct (encodable _).
  - destruct (existsb is_newline _).
    + split; [right; right; reflexivity|].
      split; [discriminate | intros [z' H]; discriminate].
    + split; [left; reflexivity|].
      split; [intros _; exists z; reflexivity | reflexivity].
  - split; [right; right; reflexivity|].
    split; [discriminate | intros [z' H]; discriminate].
Qed.

(** X11.  A parsed document that the packaging step cannot walk ends in a
    500: a document that is not an object has no [get]
    ([AttributeError]); [quizzes] that is [null], a boolean or a number
    cannot be iterated ([TypeError]); a first record that is not a dict
    cannot be subscripted with ["TITLE"] ([TypeError]). *)
Theorem unwalkable_document_raises (E : environ) (req : request) (data : json)
  (xml meta : str) :
  assoc (lit "quiz_json") (files req) = Some (Parsed data) ->
  strip (form_get req (lit "base_name") []) <> [] ->
  read_text E (XML_TEMPLATE_PATH E) = ok xml ->
  read_text E (META_BLOCK_PATH E) = ok meta ->
  ((forall items, data <> JDict items) ->
   generate_xmls E req = Uncaught AttributeError) /\
  (forall qv,
     py_get data (lit "quizzes") (JList []) = ok qv ->
     py_iter qv = raise TypeError ->
     generate_xmls E req = Uncaught TypeError) /\
  (forall quiz rest,
     (qv <- py_get data (lit "quizzes") (JList []) ;; py_iter qv) =
       ok (quiz :: rest) ->
     (forall items, quiz <> JDict items) ->
     generate_xmls E req = Uncaught TypeError).
Proof.
  intros Hf Hb Hx Hm.
  pose proof (generate_xmls_proceeds E req data xml meta Hf Hb Hx Hm) as G.
  cbv zeta in G. split; [|split].
  - intros Hd. rewrite G. unfold build_zip, py_get.
    destruct data; try reflexivity. exfalso. exact (Hd items eq_refl).
  - intros qv Hqv Hit. rewrite G. unfold build_zip. rewrite Hqv. cbn [bind ok].
    rewrite Hit. reflexivity.
  - intros quiz rest Hq Hd. rewrite (build_zip_unfold _ _ _ _ _ _ Hq) in G.
    rewrite G. cbn [enumerate foldM]. rewrite write_quiz_eq.
    unfold full_xml, fill_content, py_getitem.
    destruct quiz; try reflexivity. exfalso. exact (Hd items eq_refl).
Qed.

End FurtherEndpointProperties.

(** ** Whitespace around the base name *)

Lemma lstrip_app_blank (l x : str) :
  forallb isspace l = true -> lstrip (l ++ x) = lstrip x.
Proof.
  induction l as [|c l IH]; [reflexivity|].
  cbn [forallb app lstrip]. intros H. apply andb_true_iff in H as [Hc Hl].
  rewrite Hc. apply IH, Hl.
Qed.

Lemma lstrip_nil_blank (x : str) : lstrip x = [] -> forallb isspace x = true.
Proof.
  induction x as [|c x IH]; [reflexivity|].
  cbn [lstrip forallb]. destruct (isspace c); [exact IH | discriminate].
Qed.

Lemma lstrip_app_keep (x r : str) :
  lstrip x <> [] -> lstrip (x ++ r) = lstrip x ++ r.
Proof.
  induction x as [|c x IH]; [intros H; exfalso; apply H; reflexivity|].
  cbn [lstrip app]. destruct (isspace c); [exact IH | reflexivity].
Qed.

Lemma rstrip_app_blank (x r : str) :
  forallb isspace r = true -> rstrip (x ++ r) = rstrip x.
Proof.
  intros H. unfold rstrip. rewrite rev_app_distr.
  rewrite lstrip_app_blank by (rewrite forallb_rev; exact H). reflexivity.
Qed.

(** [strip] does not see whitespace added at the ends. *)
Lemma strip_padding (l b r : str) :
  forallb isspace l = true -> forallb isspace r = true ->
  strip (l ++ b ++ r) = strip b.
Proof.
  intros Hl Hr. unfold strip. rewrite lstrip_app_blank by exact Hl.
  destruct (lstrip b) as [|c x] eqn:Eb.
  - rewrite lstrip_blank; [reflexivity|].
    rewrite forallb_app, (lstrip_nil_blank b Eb), Hr. reflexivity.
  - rewrite lstrip_app_keep by (rewrite Eb; discriminate).
    rewrite Eb. apply rstrip_app_blank, Hr.
Qed.

Lemma strip_idempotent (s : str) : strip (strip s) = strip s.
Proof.
  destruct (strip_decompose s) as (l & r & Hs & Hl & Hr).
  rewrite Hs at 2. rewrite (strip_padding l (strip s) r Hl Hr). reflexivity.
Qed.

Section BaseNameAndMetadata.

Context {R : PyRepr}.

(** X12.  Whitespace before and after the [base_name] value never changes
    the response: two requests with the same file part whose [base_name]
    values differ by such whitespace only are answered alike; and
    stripping a value twice is stripping it once. *)
Theorem base_name_padding_is_ignored (E : environ) (req req' : request)
  (l r : str) :
  assoc (lit "quiz_json") (files req') = assoc (lit "quiz_json") (files req) ->
  form_get req' (lit "base_name") [] = l ++ form_get req (lit "base_name") [] ++ r ->
  forallb isspace l = true -> forallb isspace r = true ->
  generate_xmls E req' = generate_xmls E req /\
  strip (strip (form_get req (lit "base_name") [])) =
    strip (form_get req (lit "base_name") []).
Proof.
  intros Hf Hb Hl Hr. split; [|apply strip_idempotent].
  unfold generate_xmls. rewrite Hf, Hb, (strip_padding l _ r Hl Hr). reflexivity.
Qed.

(** X13.  For a record whose [id] is an integer the metadata block of its
    document is the template with every [{{ID}}] replaced by the decimal
    numeral, and no [{{ID}}] is left in that block. *)
Theorem id_placeholder_is_resolved (xml meta : str) (quiz : json) (n : Z)
  (doc : str) :
  py_getitem quiz (lit "id") = ok (JInt n) ->
  full_xml xml meta quiz = ok doc ->
  exists content,
    fill_content xml quiz = ok content /\
    doc = content ++ replace (lit "{{ID}}") (str_of_Z n) meta /\
    replace (lit "{{ID}}") (str_of_Z n) meta =
      join (str_of_Z n) (split (lit "{{ID}}") meta) /\
    ~ occurs (lit "{{ID}}") (replace (lit "{{ID}}") (str_of_Z n) meta).
Proof.
  intros Hid H. unfold full_xml in H.
  apply bind_ok_inv in H as (content & Hc & H). rewrite Hid in H.
  cbn [bind ok py_str] in H. apply ok_inj in H.
  exists content. split; [exact Hc|]. split; [symmetry; exact H|]. split.
  - apply replace_join_split. discriminate.
  - apply replace_removes.
    + apply str_of_Z_plain.
    + intros Ho.
      assert (exists c, In c (str_of_Z n)) as [c Hin].
      { unfold str_of_Z, NilZero.string_of_int, NilZero.string_of_uint.
        destruct (Z.to_int n) as [d | d].
        - destruct d; eexists; left; reflexivity.
        - eexists. left. reflexivity. }
      pose proof (str_of_Z_numeric n) as F. rewrite Forall_forall in F.
      pose proof (F c Hin) as Hnum.
      apply (occurs_In _ _ c Ho) in Hin. unfold numeric in Hnum.
      cbv in Hin. repeat (destruct Hin as [Hin | Hin]; [subst c; lia|]).
      exact Hin.
    + apply (opens_hole (lit "ID")).
    + apply (closes_hole (lit "ID")).
Qed.

End BaseNameAndMetadata.

(** * The filled template, token by token *)

Lemma question_name_inj (q q' : Z) : question_name q = question_name q' -> q = q'.
Proof.
  unfold question_name. intros H. apply app_inv_head in H.
  apply str_of_Z_inj, H.
Qed.

Lemma assoc_question_in_question (q start : Z) (Q : Question) :
  assoc (question_name q) (question_bindings start Q) =
  if q =? start then Some (QUESTION Q) else None.
Proof.
  unfold question_bindings. cbn [assoc].
  destruct (q =? start) eqn:E.
  - apply Z.eqb_eq in E. subst start. rewrite str_eqb_refl. reflexivity.
  - apply Z.eqb_neq in E.
    replace (str_eqb (question_name q) (question_name start)) with false
      by (symmetry; apply str_eqb_neq; intros H; apply question_name_inj in H;
          contradiction).
    rewrite assoc_app, !assoc_none; [reflexivity | |].
    + eapply Forall_impl; [|apply option_bindings_names].
      intros b (i & Hi & Hb) H. rewrite Hb in H. discriminate H.
    + eapply Forall_impl; [|apply answer_bindings_names].
      intros b (j & Hj & Hb) H. rewrite Hb in H. discriminate H.
Qed.

Lemma quiz_bindings_names (title : str) (qs : list Question) :
  Forall (fun b => filler_name (fst b) = true) (quiz_bindings title qs).
Proof.
  unfold quiz_bindings. constructor; [reflexivity|].
  generalize 1. induction qs as [|Q qs IH]; intros start; [constructor|].
  cbn [questions_bindings]. apply Forall_app. split; [|apply IH].
  unfold question_bindings. constructor.
  - cbn [fst]. unfold filler_name, question_name.
    rewrite startswith_app, !orb_true_r. reflexivity.
  - apply Forall_app. split.
    + eapply Forall_impl; [|apply answer_bindings_names].
      intros b (j & _ & ->). unfold filler_name, answer_name.
      rewrite startswith_app, !orb_true_r. reflexivity.
    + eapply Forall_impl; [|apply option_bindings_names].
      intros b (i & _ & ->). unfold filler_name, option_name.
      rewrite startswith_app, !orb_true_r. reflexivity.
Qed.

Lemma unbound_name (title : str) (qs : list Question) (n : str) :
  filler_name n = false -> assoc n (quiz_bindings title qs) = None.
Proof.
  intros Hn. apply assoc_none.
  eapply Forall_impl; [|apply quiz_bindings_names].
  intros b Hb E. cbn beta in Hb. rewrite E in Hb. congruence.
Qed.

(** X14.  On a well-formed template and a quiz of plain texts the filled
    quiz template is the template with [{{TITLE}}] replaced by the title and
    [{{QUESTION_<q>}}] by the text of the question at position [q]; the
    [QUESTION] placeholder of a position the quiz does not reach, and every
    placeholder that is not one of the filler's (so [{{ID}}], which only the
    metadata block resolves), stay as they are, and so does all text. *)
Theorem filled_template_token_by_token (ts : list token) (quiz : json)
  (title : str) (qs : list Question) :
  well_formed ts = true ->
  reads_quiz quiz title qs ->
  plain title = true -> forallb question_plain qs = true ->
  fill_content (render ts) quiz =
    ok (render (map (subst_all (quiz_bindings title qs)) ts)) /\
  subst_all (quiz_bindings title qs) (Hole (lit "TITLE")) = Text title /\
  (forall q, 1 <= q ->
     subst_all (quiz_bindings title qs) (Hole (question_name q)) =
     match nth_error qs (Z.to_nat (q - 1)) with
     | Some Q => Text (QUESTION Q)
     | None => Hole (question_name q)
     end) /\
  (forall n, filler_name n = false ->
     subst_all (quiz_bindings title qs) (Hole n) = Hole n) /\
  subst_all (quiz_bindings title qs) (Hole (lit "ID")) = Hole (lit "ID") /\
  (forall s, subst_all (quiz_bindings title qs) (Text s) = Text s).
Proof.
  intros Hwf Hr Ht Hq.
  split; [apply fill_content_render; assumption|].
  split; [reflexivity|]. split.
  { intros q Hq1. cbn [subst_all]. unfold quiz_bindings. cbn [assoc].
    replace (str_eqb (question_name q) (lit "TITLE")) with false
      by (symmetry; apply str_eqb_neq; discriminate).
    rewrite (assoc_in_questions _ q (fun Q => Some (QUESTION Q)))
      by (intros s Q'; apply assoc_question_in_question).
    replace (1 <=? q) with true by (symmetry; apply Z.leb_le; lia).
    destruct (nth_error qs (Z.to_nat (q - 1))); reflexivity. }
  split.
  { intros n Hn. cbn [subst_all]. rewrite (unbound_name title qs n Hn).
    reflexivity. }
  split; [|reflexivity].
  cbn [subst_all]. rewrite (unbound_name title qs (lit "ID")); reflexivity.
Qed.

Lemma plain_render_texts (ts : list token) :
  well_formed ts = true -> holes ts = [] -> plain (render ts) = true.
Proof.
  induction ts as [|t ts IH]; [reflexivity|].
  cbn [well_formed forallb]. intros Hwf Hh.
  apply andb_true_iff in Hwf as [Ht Hts].
  change (render (t :: ts)) with (render_token t ++ render ts).
  destruct t as [s | n]; [|discriminate Hh].
  rewrite plain_app. cbn [render_token token_ok] in *. rewrite Ht.
  apply IH; assumption.
Qed.

Lemma holes_subst_all (bs : list (str * str)) (ts : list token) :
  (forall n, In n (holes ts) -> assoc n bs <> None) ->
  holes (map (subst_all bs) ts) = [].
Proof.
  induction ts as [|t ts IH]; intros H; [reflexivity|].
  cbn [map holes flat_map]. fold (holes (map (subst_all bs) ts)).
  rewrite IH.
  - destruct t as [s | n]; [reflexivity|]. cbn [subst_all].
    destruct (assoc n bs) eqn:E; [reflexivity|].
    exfalso. apply (H n); [left; reflexivity | exact E].
  - intros n Hn. apply H. cbn [holes flat_map]. apply in_or_app. right. exact Hn.
Qed.

(** X15.  When every placeholder of a well-formed template is one the quiz
    binds, and the texts of the quiz are plain, the filled quiz template
    contains no brace at all: nothing of a placeholder is left over. *)
Theorem fully_bound_template_leaves_no_brace (ts : list token) (quiz : json)
  (title : str) (qs : list Question) :
  well_formed ts = true ->
  reads_quiz quiz title qs ->
  plain title = true -> forallb question_plain qs = true ->
  (forall n, In n (holes ts) -> assoc n (quiz_bindings title qs) <> None) ->
  exists content,
    fill_content (render ts) quiz = ok content /\ plain content = true.
Proof.
  intros Hwf Hr Ht Hq Hb.
  exists (render (map (subst_all (quiz_bindings title qs)) ts)). split.
  - apply fill_content_render; assumption.
  - apply plain_render_texts.
    + apply well_formed_subst_all; [|exact Hwf].
      unfold quiz_bindings. cbn [forallb]. unfold binding_ok at 1.
      cbn [fst snd]. rewrite Ht. cbn [plain forallb andb].
      apply questions_bindings_ok, Hq.
    + apply holes_subst_all, Hb.
Qed.

(** ** Placeholders do not collide *)

Lemma plain_before_close (n m x y : str) :
  plain n = true -> plain m = true ->
  n ++ 125%N :: x = m ++ 125%N :: y -> n = m.
Proof.
  revert m. induction n as [|c n IH]; intros [|d m] Hn Hm H.
  - reflexivity.
  - cbn [app] in H. injection H as H _. subst d. exfalso.
    apply (plain_no_close _ Hm). left; reflexivity.
  - cbn [app] in H. injection H as H _. subst c. exfalso.
    apply (plain_no_close _ Hn). left; reflexivity.
  - cbn [app] in H. injection H as Hc H. subst d. f_equal.
    cbn [plain forallb] in Hn, Hm.
    apply andb_true_iff in Hn as [_ Hn]. apply andb_true_iff in Hm as [_ Hm].
    apply IH; assumption.
Qed.

Lemma hole_not_in_hole (n m : str) :
  plain n = true -> plain m = true -> n <> m -> ~ occurs (hole n) (hole m).
Proof.
  intros Hn Hm Hne (a & b & H).
  rewrite <- (app_nil_r (hole m)) in H. rewrite hole_app in H.
  rewrite (hole_app n b) in H.
  assert (~ In 123%N (m ++ [125%N; 125%N])) as Hno.
  { intros Hi. apply in_app_or in Hi as [Hi | Hi].
    - exact (plain_no_open _ Hm Hi).
    - cbn in Hi. destruct Hi as [Hi | [Hi | []]]; discriminate. }
  destruct a as [|x [|y a]].
  - cbn [app] in H. do 2 apply (f_equal (@tl char)) in H. cbn [tl] in H.
    apply Hne. symmetry. exact (plain_before_close m n _ _ Hm Hn H).
  - cbn [app] in H. do 2 apply (f_equal (@tl char)) in H. cbn [tl] in H.
    apply Hno. refine (eq_ind_r (fun l => In 123%N l) _ H). left; reflexivity.
  - cbn [app] in H. do 2 apply (f_equal (@tl char)) in H. cbn [tl] in H.
    apply Hno. refine (eq_ind_r (fun l => In 123%N l) _ H).
    apply in_or_app. right. left; reflexivity.
Qed.

(** X16.  The placeholders of the filler never collide: two questions, two
    answer letters or two option slots give different placeholder texts, the
    three kinds and [{{TITLE}}] differ from each other, and no placeholder
    of a plain name occurs inside the placeholder of another name (so
    [{{QUESTION_1}}] is not found in [{{QUESTION_11}}]). *)
Theorem placeholders_do_not_collide (q q' : Z) :
  (question_ph q = question_ph q' -> q = q') /\
  (forall l l', answer_ph q l = answer_ph q' l' -> q = q' /\ l = l') /\
  (forall i j, 1 <= i <= 4 -> 1 <= j <= 4 ->
     option_ph q i = option_ph q' j -> q = q' /\ i = j) /\
  (forall l i, question_ph q <> answer_ph q' l /\
               question_ph q <> option_ph q' i /\
               answer_ph q l <> option_ph q' i /\
               question_ph q <> lit "{{TITLE}}" /\
               answer_ph q l <> lit "{{TITLE}}" /\
               option_ph q i <> lit "{{TITLE}}") /\
  (forall n m, plain n = true -> plain m = true -> n <> m ->
     ~ occurs (hole n) (hole m)).
Proof.
  split.
  { intros H. unfold question_ph in H. apply app_inv_head in H.
    apply app_inv_tail in H. apply str_of_Z_inj, H. }
  split.
  { intros l l' H. unfold answer_ph in H. apply app_inv_head in H.
    rewrite !app_assoc in H. apply app_inv_tail in H.
    apply app_inj_tail in H as [Hq Hl]. split; [apply str_of_Z_inj, Hq | exact Hl]. }
  split.
  { intros i j Hi Hj H. rewrite !option_ph_hole in H.
    unfold hole in H. apply app_inv_head in H. apply app_inv_tail in H.
    apply option_name_inj in H; assumption. }
  split.
  { intros l i. repeat split; discriminate. }
  intros n m. apply hole_not_in_hole.
Qed.

(** * The order of the replacements *)

Lemma owned_inj (s s' : Z) (n : str) : owned_by s n -> owned_by s' n -> s = s'.
Proof.
  intros [-> | [(j & Hj & ->) | (i & Hi & ->)]]
         [H | [(j' & Hj' & H) | (i' & Hi' & H)]];
    try discriminate H.
  - apply question_name_inj, H.
  - apply answer_name_inj in H; [tauto | lia | lia].
  - apply option_name_inj in H; [tauto | lia | lia].
Qed.

Lemma title_not_owned (s : Z) : ~ owned_by s (lit "TITLE").
Proof.
  intros [H | [(j & _ & H) | (i & _ & H)]]; discriminate H.
Qed.

Lemma answer_names_NoDup (q : Z) (answers : list str) (start : Z) :
  1 <= start ->
  NoDup (map fst (map (fun it => (answer_name q (fst it), snd it))
                    (enumerate answers start))).
Proof.
  revert start. induction answers as [|a answers IH]; intros start Hs.
  - constructor.
  - cbn [enumerate map fst]. constructor; [|apply IH; lia].
    intros H. apply in_map_iff in H as (b & Hb & Hin).
    pose proof (answer_bindings_names q answers (start + 1)) as F.
    rewrite Forall_forall in F. destruct (F b Hin) as (j & Hj & Hbj).
    rewrite Hbj in Hb. apply answer_name_inj in Hb; lia.
Qed.

Lemma option_names_NoDup (q k : Z) : NoDup (map fst (option_bindings q k)).
Proof.
  unfold option_bindings. rewrite range_1_5. cbn [map fst].
  repeat constructor; cbn [In]; intros H;
    repeat (destruct H as [H | H];
            [apply option_name_inj in H; lia|]); exact H.
Qed.

Lemma question_bindings_owned (s : Z) (Q : Question) :
  Forall (fun b => owned_by s (fst b)) (question_bindings s Q).
Proof.
  unfold question_bindings. constructor; [left; reflexivity|].
  apply Forall_app. split.
  - eapply Forall_impl; [|apply answer_bindings_names].
    intros b (j & Hj & ->). right; left. exists j. split; [lia | reflexivity].
  - eapply Forall_impl; [|apply option_bindings_names].
    intros b (i & Hi & ->). right; right. exists i. split; [lia | reflexivity].
Qed.

Lemma questions_bindings_owned (qs : list Question) (start : Z) :
  Forall (fun b => exists s, start <= s /\ owned_by s (fst b))
    (questions_bindings qs start).
Proof.
  revert start. induction qs as [|Q qs IH]; intros start; [constructor|].
  cbn [questions_bindings]. apply Forall_app. split.
  - eapply Forall_impl; [|apply question_bindings_owned].
    intros b Hb. exists start. split; [lia | exact Hb].
  - eapply Forall_impl; [|apply (IH (start + 1))].
    intros b (s & Hs & Hb). exists s. split; [lia | exact Hb].
Qed.

Lemma question_bindings_NoDup (s : Z) (Q : Question) :
  NoDup (map fst (question_bindings s Q)).
Proof.
  unfold question_bindings. cbn [map fst]. rewrite map_app. constructor.
  - intros H. apply in_app_or in H as [H | H];
      apply in_map_iff in H as (b & Hb & Hin).
    + pose proof (answer_bindings_names s (ANSWERS Q) 1) as F.
      rewrite Forall_forall in F. destruct (F b Hin) as (j & _ & Hbj).
      rewrite Hbj in Hb. discriminate Hb.
    + pose proof (option_bindings_names s (CORRECT Q)) as F.
      rewrite Forall_forall in F. destruct (F b Hin) as (i & _ & Hbi).
      rewrite Hbi in Hb. discriminate Hb.
  - apply NoDup_app.
    + apply answer_names_NoDup. lia.
    + apply option_names_NoDup.
    + intros n H1 H2.
      apply in_map_iff in H1 as (b & Hb & Hin).
      apply in_map_iff in H2 as (b' & Hb' & Hin').
      pose proof (answer_bindings_names s (ANSWERS Q) 1) as F.
      rewrite Forall_forall in F. destruct (F b Hin) as (j & _ & Hbj).
      pose proof (option_bindings_names s (CORRECT Q)) as F'.
      rewrite Forall_forall in F'. destruct (F' b' Hin') as (i & _ & Hbi).
      rewrite Hbj in Hb. rewrite Hbi in Hb'. rewrite <- Hb' in Hb.
      discriminate Hb.
Qed.

Lemma questions_bindings_NoDup (qs : list Question) (start : Z) :
  NoDup (map fst (questions_bindings qs start)).
Proof.
  revert start. induction qs as [|Q qs IH]; intros start; [constructor|].
  cbn [questions_bindings]. rewrite map_app. apply NoDup_app.
  - apply question_bindings_NoDup.
  - apply IH.
  - intros n H1 H2.
    apply in_map_iff in H1 as (b & Hb & Hin).
    apply in_map_iff in H2 as (b' & Hb' & Hin').
    pose proof (question_bindings_owned start Q) as F.
    rewrite Forall_forall in F. pose proof (F b Hin) as O1.
    pose proof (questions_bindings_owned qs (start + 1)) as F'.
    rewrite Forall_forall in F'. destruct (F' b' Hin') as (s & Hs & O2).
    rewrite Hb in O1. rewrite Hb' in O2.
    pose proof (owned_inj _ _ _ O1 O2). lia.
Qed.

Lemma quiz_bindings_NoDup (title : str) (qs : list Question) :
  NoDup (map fst (quiz_bindings title qs)).
Proof.
  unfold quiz_bindings. cbn [map fst]. constructor.
  - intros H. apply in_map_iff in H as (b & Hb & Hin).
    pose proof (questions_bindings_owned qs 1) as F.
    rewrite Forall_forall in F. destruct (F b Hin) as (s & _ & O).
    rewrite Hb in O. exact (title_not_owned s O).
  - apply questions_bindings_NoDup.
Qed.

Lemma assoc_In {V : Type} (n : str) (v : V) (bs : list (str * V)) :
  assoc n bs = Some v -> In n (map fst bs).
Proof.
  induction bs as [|[k w] bs IH]; [discriminate|].
  cbn [assoc map fst]. destruct (str_eqb n k) eqn:E.
  - apply str_eqb_eq in E. intros _. left. symmetry. exact E.
  - intros H. right. apply IH, H.
Qed.

Lemma assoc_perm {V : Type} (n : str) (bs bs' : list (str * V)) :
  Permutation bs bs' -> NoDup (map fst bs) -> assoc n bs = assoc n bs'.
Proof.
  induction 1 as [| [k v] l l' HP IH | [k v] [k' v'] l | l l' l'' HP1 IH1 HP2 IH2];
    intros Hnd.
  - reflexivity.
  - cbn [assoc]. cbn [map fst] in Hnd. apply NoDup_cons_iff in Hnd as [_ Hnd].
    rewrite (IH Hnd). reflexivity.
  - cbn [assoc]. cbn [map fst] in Hnd.
    destruct (str_eqb n k') eqn:E1, (str_eqb n k) eqn:E2; try reflexivity.
    apply str_eqb_eq in E1, E2. subst k k'.
    apply NoDup_cons_iff in Hnd as [Hnd _]. exfalso. apply Hnd. left; reflexivity.
  - rewrite (IH1 Hnd). apply IH2.
    apply (Permutation_NoDup (Permutation_map fst HP1) Hnd).
Qed.

Lemma binding_ok_perm (bs bs' : list (str * str)) :
  Permutation bs bs' ->
  forallb binding_ok bs = true -> forallb binding_ok bs' = true.
Proof.
  intros HP. rewrite !forallb_forall. intros H b Hb.
  apply H. apply (Permutation_in b (Permutation_sym HP) Hb).
Qed.

(** On a well-formed template a run of plain bindings of pairwise different
    names gives the same text in any order. *)
Lemma run_bindings_perm (bs bs' : list (str * str)) (ts : list token) :
  well_formed ts = true -> forallb binding_ok bs = true ->
  NoDup (map fst bs) -> Permutation bs bs' ->
  run_bindings bs' (render ts) = run_bindings bs (render ts).
Proof.
  intros Hwf Hok Hnd HP. unfold run_bindings.
  rewrite !fold_replace_render
    by (assumption || exact (binding_ok_perm bs bs' HP Hok)).
  f_equal. apply map_ext. intros [s | n]; [reflexivity|].
  cbn [subst_all]. rewrite (assoc_perm n bs bs' HP Hnd). reflexivity.
Qed.

(** X17.  On a well-formed template and a quiz of plain texts the order of
    the replacements does not matter: making the replacements of the quiz
    (title, question texts, answers, option flags) in any other order gives
    the filled quiz template that the loops of the filler give; the same
    holds of the four replacements of [markRight]. *)
Theorem replacements_commute (ts : list token) (quiz : json) (title : str)
  (qs : list Question) :
  well_formed ts = true ->
  reads_quiz quiz title qs ->
  plain title = true -> forallb question_plain qs = true ->
  (forall bs, Permutation (quiz_bindings title qs) bs ->
     fill_content (render ts) quiz = ok (run_bindings bs (render ts))) /\
  (forall qnum k bs, Permutation (option_bindings qnum k) bs ->
     markRight (render ts) qnum (JInt k) = run_bindings bs (render ts)).
Proof.
  intros Hwf Hr Ht Hq. split.
  - intros bs HP.
    rewrite (fill_content_run (render ts) quiz title qs Hr (questions_small qs Hq)).
    f_equal. symmetry. apply run_bindings_perm; try assumption.
    + unfold quiz_bindings. cbn [forallb]. unfold binding_ok at 1.
      cbn [fst snd]. rewrite Ht. cbn [plain forallb andb].
      apply questions_bindings_ok, Hq.
    + apply quiz_bindings_NoDup.
  - intros qnum k bs HP. rewrite markRight_run. symmetry.
    apply run_bindings_perm; try assumption.
    + apply option_bindings_ok.
    + apply option_names_NoDup.
Qed.

(** * The further properties at concrete inputs *)


Lemma markRight_fixes_content_without_placeholders_witness :
  markRight (lit "<p>no placeholder</p>") 1 (JInt 2) = lit "<p>no placeholder</p>".
Proof.
  apply (proj2 (markRight_fixes_content_without_placeholders
                  (lit "<p>no placeholder</p>") 1 (JInt 2))).
  intros i Hi. apply not_contains_iff.
  assert (i = 1 \/ i = 2 \/ i = 3 \/ i = 4) as [-> | [-> | [-> | ->]]] by lia;
    vm_compute; reflexivity.
Defined.

Lemma document_exists_iff_quiz_ok_witness :
  exists doc, @full_xml scenario_repr scenario_template scenario_meta math_quiz
              = ok doc.
Proof.
  apply (proj2 (@document_exists_iff_quiz_ok scenario_repr scenario_template
                  scenario_meta math_quiz)).
  vm_compute. reflexivity.
Defined.


Lemma status_200_iff_all_records_ok_witness :
  status (@generate_xmls scenario_repr (disk scenario_template scenario_meta 0)
            (post math_data (lit "math"))) = 200 <->
  forallb quiz_ok [math_quiz] = true /\
  (forall i quiz doc,
     nth_error [math_quiz] i = Some quiz ->
     @full_xml scenario_repr scenario_template scenario_meta quiz = ok doc ->
     encodable doc = true /\
     time_ok (localtime (disk scenario_template scenario_meta 0) i) = true /\
     name_ok (strip (form_get (post math_data (lit "math")) (lit "base_name") [])
                ++ lit "_" ++ str_of_Z (Z.of_nat i + 1) ++ lit ".xml") = true) /\
  sendable (strip (form_get (post math_data (lit "math")) (lit "base_name") []))
    = true.
Proof.
  refine (proj1 (@status_200_iff_all_records_ok scenario_repr
                   (disk scenario_template scenario_meta 0)
                   (post math_data (lit "math")) math_data
                   scenario_template scenario_meta [math_quiz] _ _ _ _ _));
    try reflexivity.
  vm_compute. discriminate.
Defined.

Lemma first_failure_aborts_the_request_witness :
  @generate_xmls scenario_repr (disk scenario_template scenario_meta 0)
    (post (JDict [(lit "quizzes", JList [math_quiz; untitled_quiz])]) (lit "math"))
  = Uncaught (KeyError (lit "TITLE")).
Proof.
  refine (proj1 (proj1 (@first_failure_aborts_the_request scenario_repr
                   (disk scenario_template scenario_meta 0)
                   (post (JDict [(lit "quizzes", JList [math_quiz; untitled_quiz])])
                      (lit "math"))
                   (JDict [(lit "quizzes", JList [math_quiz; untitled_quiz])])
                   scenario_template scenario_meta
                   [math_quiz] [math_document] untitled_quiz []
                   _ _ _ _ _ _ _) (KeyError (lit "TITLE")) _));
    try reflexivity.
  - vm_compute. discriminate.
  - constructor; [|constructor].
    exists (lit "<quiz><title>Quiz A</title><q>2+2?</q><a>3</a><b>4</b><c>5</c><d>6</d><o1>false</o1><o2>true</o2><o3>false</o3><o4>false</o4></quiz>"),
      (JInt 1).
    repeat split; vm_compute; reflexivity.
Defined.

Lemma unwalkable_document_raises_witness :
  @generate_xmls scenario_repr (disk scenario_template scenario_meta 0)
    (post (JList []) (lit "math")) = Uncaught AttributeError.
Proof.
  refine (proj1 (@unwalkable_document_raises scenario_repr
                   (disk scenario_template scenario_meta 0)
                   (post (JList []) (lit "math")) (JList [])
                   scenario_template scenario_meta _ _ _ _) _);
    try reflexivity.
  - vm_compute. discriminate.
  - intros items. discriminate.
Defined.

Lemma base_name_padding_is_ignored_witness :
  @generate_xmls scenario_repr (disk scenario_template scenario_meta 0)
    (post math_data (lit "  math ")) =
  @generate_xmls scenario_repr (disk scenario_template scenario_meta 0)
    (post math_data (lit "math")).
Proof.
  refine (proj1 (@base_name_padding_is_ignored scenario_repr
                   (disk scenario_template scenario_meta 0)
                   (post math_data (lit "math")) (post math_data (lit "  math "))
                   (lit "  ") (lit " ") _ _ _ _));
    reflexivity.
Defined.

Lemma id_placeholder_is_resolved_witness :
  exists content,
    fill_content scenario_template math_quiz = ok content /\
    math_document = content ++ replace (lit "{{ID}}") (str_of_Z 1) scenario_meta /\
    replace (lit "{{ID}}") (str_of_Z 1) scenario_meta =
      join (str_of_Z 1) (split (lit "{{ID}}") scenario_meta) /\
    ~ occurs (lit "{{ID}}") (replace (lit "{{ID}}") (str_of_Z 1) scenario_meta).
Proof.
  refine (@id_placeholder_is_resolved scenario_repr scenario_template scenario_meta
            math_quiz 1 math_document _ _).
  - reflexivity.
  - vm_compute. reflexivity.
Defined.

Lemma filled_template_token_by_token_witness :
  fill_content (render scenario_tokens) math_quiz =
  ok (render (map (subst_all (quiz_bindings (lit "Quiz A") [math_question]))
                scenario_tokens)).
Proof.
  refine (proj1 (filled_template_token_by_token scenario_tokens math_quiz
                   (lit "Quiz A") [math_question] _ _ _ _));
    try reflexivity.
  math_quiz_reads.
Defined.

Lemma fully_bound_template_leaves_no_brace_witness :
  exists content,
    fill_content (render scenario_tokens) math_quiz = ok content /\
    plain content = true.
Proof.
  refine (fully_bound_template_leaves_no_brace scenario_tokens math_quiz
            (lit "Quiz A") [math_question] _ _ _ _ _);
    try reflexivity.
  - math_quiz_reads.
  - intros n H. cbn [scenario_tokens holes flat_map app] in H.
    repeat (destruct H as [<- | H]; [vm_compute; discriminate|]).
    destruct H.
Defined.

Lemma placeholders_do_not_collide_witness :
  ~ occurs (hole (lit "QUESTION_1")) (hole (lit "QUESTION_11")).
Proof.
  refine (proj2 (proj2 (proj2 (proj2 (placeholders_do_not_collide 1 11))))
            (lit "QUESTION_1") (lit "QUESTION_11") _ _ _).
  - reflexivity.
  - reflexivity.
  - discriminate.
Defined.

Lemma replacements_commute_witness :
  fill_content (render scenario_tokens) math_quiz =
  ok (run_bindings (rev (quiz_bindings (lit "Quiz A") [math_question]))
        (render scenario_tokens)).
Proof.
  refine (proj1 (replacements_commute scenario_tokens math_quiz
                   (lit "Quiz A") [math_question] _ _ _ _) _ _);
    try reflexivity.
  - math_quiz_reads.
  - apply Permutation_rev.
Defined.
